(** * FlowerPower helper scripts: a shallow embedding and its properties

    The development follows the four scripts: [run_pipeline.py],
    [create_pipeline.py], [list_pipelines.py] and [init_project.py].
    Each Python module becomes a Rocq [Module] named after it, each
    function keeps its name, and effects (standard output, the file system,
    calls of the external [flowerpower] tool and library) are threaded
    through a small state-and-exception monad.

    Conventions of the model:
    - a Python [str] is a Rocq [string] holding the UTF-8 encoding of the
      text, so that byte order is code point order and ASCII operations
      ([replace], [startswith], splitting at a slash) act as in Python;
    - a Python [int] is a [Z]; a Python [float] is identified with the text
      that [repr] prints for it, since no floating point arithmetic is done
      by the scripts;
    - a Python [dict] is an association list in insertion order with unique
      keys (the order is what [json.dumps] prints). *)

From stdpp Require Import gmap strings list sorting pretty.
From Stdlib Require Import ZArith Ascii.

Local Open Scope Z_scope.

(** ** Characters that cannot be written inside a literal *)

Definition dquote : ascii := "034"%char.
Definition backslash : ascii := "092"%char.
Definition newline : ascii := "010"%char.
Definition dq : string := String dquote "".
Definition nl : string := String newline "".

(** ** String operations of Python used by the scripts *)

(** [s.startswith(p)] *)
Definition startswith (s p : string) : bool := String.prefix p s.

(** [s.endswith(p)] *)
Definition endswith (s p : string) : bool :=
  String.prefix (String.rev p) (String.rev s).

(** [c in s] for a one-character string [c] *)
Fixpoint contains_char (c : ascii) (s : string) : bool :=
  match s with
  | EmptyString => false
  | String a s' => if Ascii.eqb a c then true else contains_char c s'
  end.

(** [s.replace(old, new)] for one-character strings [old] and [new] *)
Fixpoint replace_char (old new : ascii) (s : string) : string :=
  match s with
  | EmptyString => EmptyString
  | String a s' =>
      String (if Ascii.eqb a old then new else a) (replace_char old new s')
  end.

(** [sep.join(parts)] *)
Definition join (sep : string) (l : list string) : string := String.concat sep l.

(** [s.split(sep)] for a one-character separator: [cur] holds the piece
    being read, reversed. *)
Fixpoint split_go (sep : ascii) (cur : string) (s : string) : list string :=
  match s with
  | EmptyString => [String.rev cur]
  | String a s' =>
      if Ascii.eqb a sep then String.rev cur :: split_go sep "" s'
      else split_go sep (String a cur) s'
  end.
Definition split_char (sep : ascii) (s : string) : list string := split_go sep "" s.

(** [s[len(p):]] when [s.startswith(p)] *)
Fixpoint strip_prefix (p s : string) : option string :=
  match p with
  | EmptyString => Some s
  | String a p' =>
      match s with
      | EmptyString => None
      | String b s' => if Ascii.eqb a b then strip_prefix p' s' else None
      end
  end.

(** [str(n)] for an [int] *)
Definition str_int (n : Z) : string := pretty n.

(** ** Python values, as far as the scripts handle them *)

Record pyfloat := PyFloat { float_repr : string }.

#[warnings="-register-all"]
Inductive pyval :=
| VNone
| VBool (b : bool)
| VInt (n : Z)
| VFloat (x : pyfloat)
| VStr (s : string)
| VList (items : list pyval)
| VDict (entries : list (string * pyval)).

Abbreviation pydict := (list (string * pyval)).

(** [d.get(k)] *)
Fixpoint dict_get {A} (k : string) (d : list (string * A)) : option A :=
  match d with
  | [] => None
  | (k', v) :: d' => if String.eqb k' k then Some v else dict_get k d'
  end.

(** [d[k] = v]: an existing key keeps its place, a new key goes last *)
Fixpoint dict_set {A} (k : string) (v : A) (d : list (string * A)) : list (string * A) :=
  match d with
  | [] => [(k, v)]
  | (k', v') :: d' =>
      if String.eqb k' k then (k, v) :: d' else (k', v') :: dict_set k v d'
  end.

(** Truth value of a float: only the two zeros are false. *)
Definition float_truthy (x : pyfloat) : bool :=
  negb (String.eqb (float_repr x) "0.0" || String.eqb (float_repr x) "-0.0").

(** [bool(v)], the test behind [if v:] *)
Definition truthy (v : pyval) : bool :=
  match v with
  | VNone => false
  | VBool b => b
  | VInt n => negb (n =? 0)
  | VFloat x => float_truthy x
  | VStr s => negb (String.eqb s "")
  | VList l => match l with [] => false | _ => true end
  | VDict d => match d with [] => false | _ => true end
  end.

Definition str_truthy (s : string) : bool := negb (String.eqb s "").
Definition int_truthy (n : Z) : bool := negb (n =? 0).

(** ** [json.dumps] with its default settings

    [ensure_ascii=True], separators [", "] and [": "], [allow_nan=True]. *)

Definition hex_digit (d : N) : ascii :=
  match d with
  | 0 => "0" | 1 => "1" | 2 => "2" | 3 => "3" | 4 => "4" | 5 => "5" | 6 => "6"
  | 7 => "7" | 8 => "8" | 9 => "9" | 10 => "a" | 11 => "b" | 12 => "c"
  | 13 => "d" | 14 => "e" | _ => "f"
  end%N%char.

(** ['\\u{0:04x}'.format(n)] *)
Definition u_escape (n : N) : string :=
  String backslash (String "u"
    (String (hex_digit (N.land (N.shiftr n 12) 15))
    (String (hex_digit (N.land (N.shiftr n 8) 15))
    (String (hex_digit (N.land (N.shiftr n 4) 15))
    (String (hex_digit (N.land n 15)) ""))))).

Definition is_cont (b : N) : bool := ((128 <=? b) && (b <? 192))%N.

(** The code points of a string, read from its UTF-8 bytes. A byte that
    does not start a well-formed sequence counts as the code point of its
    own value. *)
Fixpoint code_points (s : string) : list N :=
  match s with
  | EmptyString => []
  | String a0 s1 =>
      let b0 := N_of_ascii a0 in
      let single := b0 :: code_points s1 in
      if (b0 <? 192)%N then single
      else match s1 with
      | EmptyString => single
      | String a1 s2 =>
          let b1 := N_of_ascii a1 in
          if negb (is_cont b1) then single
          else if (b0 <? 224)%N then
            N.lor (N.shiftl (N.land b0 31) 6) (N.land b1 63) :: code_points s2
          else match s2 with
          | EmptyString => single
          | String a2 s3 =>
              let b2 := N_of_ascii a2 in
              if negb (is_cont b2) then single
              else if (b0 <? 240)%N then
                N.lor (N.shiftl (N.land b0 15) 12)
                  (N.lor (N.shiftl (N.land b1 63) 6) (N.land b2 63))
                :: code_points s3
              else match s3 with
              | EmptyString => single
              | String a3 s4 =>
                  let b3 := N_of_ascii a3 in
                  if negb (is_cont b3) then single
                  else
                    N.lor (N.shiftl (N.land b0 7) 18)
                      (N.lor (N.shiftl (N.land b1 63) 12)
                         (N.lor (N.shiftl (N.land b2 63) 6) (N.land b3 63)))
                    :: code_points s4
              end
          end
      end
  end.

(** The replacement of one code point in [encode_basestring_ascii]. *)
Definition escape_code_point (n : N) : string :=
  if (n =? 34)%N then String backslash dq
  else if (n =? 92)%N then String backslash (String backslash "")
  else if (n =? 10)%N then String backslash "n"
  else if (n =? 13)%N then String backslash "r"
  else if (n =? 9)%N then String backslash "t"
  else if (n =? 12)%N then String backslash "f"
  else if (n =? 8)%N then String backslash "b"
  else if ((32 <=? n) && (n <=? 126))%N then String (ascii_of_N n) ""
  else if (n <? 65536)%N then u_escape n
  else
    let m := (n - 65536)%N in
    u_escape (N.lor 55296 (N.land (N.shiftr m 10) 1023))
    +:+ u_escape (N.lor 56320 (N.land m 1023)).

Definition encode_basestring_ascii (s : string) : string :=
  dq +:+ join "" (escape_code_point <$> code_points s) +:+ dq.

(** [float.__repr__], with the three names JSON gives to the non-finite
    values. *)
Definition dumps_float (x : pyfloat) : string :=
  let r := float_repr x in
  if String.eqb r "nan" then "NaN"
  else if String.eqb r "inf" then "Infinity"
  else if String.eqb r "-inf" then "-Infinity"
  else r.

Fixpoint json_dumps (v : pyval) : string :=
  match v with
  | VNone => "null"
  | VBool true => "true"
  | VBool false => "false"
  | VInt n => str_int n
  | VFloat x => dumps_float x
  | VStr s => encode_basestring_ascii s
  | VList l => "[" +:+ join ", " (map json_dumps l) +:+ "]"
  | VDict d =>
      "{" +:+ join ", " (map (λ kv, encode_basestring_ascii (fst kv) +:+ ": "
                                      +:+ json_dumps (snd kv)) d) +:+ "}"
  end.

(** ** [json.loads]

    The decoder follows CPython's scanner: white space is space, tab, line
    feed and carriage return; numbers use ASCII digits; string scanning is
    strict (no raw control characters); a repeated key keeps its first
    place and its last value. The interpreter's limits (recursion depth,
    digits of an integer literal) are not part of the model, and a float
    read from a literal is kept under the literal's own text. *)

Inductive scan (A : Type) :=
| Scanned (v : A) (rest : string)
| Malformed
| Exhausted.
Arguments Scanned {A} v rest.
Arguments Malformed {A}.
Arguments Exhausted {A}.

Definition is_ws (a : ascii) : bool :=
  match a with
  | " " | "009" | "010" | "013" => true
  | _ => false
  end%char.

Fixpoint skip_ws (s : string) : string :=
  match s with
  | String a s' => if is_ws a then skip_ws s' else s
  | EmptyString => s
  end.

Definition is_digit (a : ascii) : bool :=
  let n := N_of_ascii a in ((48 <=? n) && (n <=? 57))%N.

(** The longest run of digits at the head of [s], and what follows it. *)
Fixpoint span_digits (s : string) : string * string :=
  match s with
  | String a s' =>
      if is_digit a then
        let '(d, r) := span_digits s' in (String a d, r)
      else ("", s)
  | EmptyString => ("", "")
  end.

Fixpoint digits_value (acc : Z) (d : string) : Z :=
  match d with
  | EmptyString => acc
  | String a d' => digits_value (10 * acc + (Z.of_N (N_of_ascii a) - 48)) d'
  end.

(** Group 1 of [NUMBER_RE]: [0|[1-9]\d*] *)
Definition scan_int_part (s : string) : option (string * string) :=
  match s with
  | String a s' =>
      if Ascii.eqb a "0" then Some ("0", s')
      else if is_digit a then
        let '(d, r) := span_digits s' in Some (String a d, r)
      else None
  | EmptyString => None
  end.

(** Group 2: [(\.\d+)?] *)
Definition scan_frac (s : string) : string * string :=
  match s with
  | String a s' =>
      if Ascii.eqb a "." then
        match span_digits s' with
        | (EmptyString, _) => ("", s)
        | (d, r) => (String a d, r)
        end
      else ("", s)
  | EmptyString => ("", s)
  end.

(** Group 3: [([eE][-+]?\d+)?] *)
Definition scan_exp (s : string) : string * string :=
  match s with
  | String e s' =>
      if Ascii.eqb e "e" || Ascii.eqb e "E" then
        match s' with
        | String sg s'' =>
            if Ascii.eqb sg "+" || Ascii.eqb sg "-" then
              match span_digits s'' with
              | (EmptyString, _) => ("", s)
              | (d, r) => (String e (String sg d), r)
              end
            else
              match span_digits s' with
              | (EmptyString, _) => ("", s)
              | (d, r) => (String e d, r)
              end
        | EmptyString => ("", s)
        end
      else ("", s)
  | EmptyString => ("", s)
  end.

(** A match of [NUMBER_RE] at the head of [s]: an [int] when there is
    neither a fraction nor an exponent, a [float] otherwise. *)
Definition scan_number (s : string) : option (pyval * string) :=
  let '(neg, s0) :=
    match strip_prefix "-" s with
    | Some s' => (true, s')
    | None => (false, s)
    end in
  match scan_int_part s0 with
  | None => None
  | Some (ip, r1) =>
      let '(fp, r2) := scan_frac r1 in
      let '(ep, r3) := scan_exp r2 in
      if String.eqb fp "" && String.eqb ep "" then
        let n := digits_value 0 ip in
        Some (VInt (if neg then - n else n), r3)
      else
        Some (VFloat (PyFloat ((if neg then "-" else "") +:+ ip +:+ fp +:+ ep)), r3)
  end.

Definition hex_value (a : ascii) : option N :=
  let n := N_of_ascii a in
  if ((48 <=? n) && (n <=? 57))%N then Some (n - 48)%N
  else if ((97 <=? n) && (n <=? 102))%N then Some (n - 87)%N
  else if ((65 <=? n) && (n <=? 70))%N then Some (n - 55)%N
  else None.

Definition hex4_value (a b c d : ascii) : option N :=
  match hex_value a, hex_value b, hex_value c, hex_value d with
  | Some x, Some y, Some z, Some w => Some (4096 * x + 256 * y + 16 * z + w)%N
  | _, _, _, _ => None
  end.

Definition byte (n : N) : ascii := ascii_of_N n.

(** UTF-8 bytes of a code point (surrogates included, as three bytes). *)
Definition utf8_encode (n : N) : string :=
  if (n <? 128)%N then String (byte n) ""
  else if (n <? 2048)%N then
    String (byte (N.lor 192 (N.shiftr n 6)))
      (String (byte (N.lor 128 (N.land n 63))) "")
  else if (n <? 65536)%N then
    String (byte (N.lor 224 (N.shiftr n 12)))
      (String (byte (N.lor 128 (N.land (N.shiftr n 6) 63)))
         (String (byte (N.lor 128 (N.land n 63))) ""))
  else
    String (byte (N.lor 240 (N.shiftr n 18)))
      (String (byte (N.lor 128 (N.land (N.shiftr n 12) 63)))
         (String (byte (N.lor 128 (N.land (N.shiftr n 6) 63)))
            (String (byte (N.lor 128 (N.land n 63))) ""))).

(** The [BACKSLASH] table of the decoder. *)
Definition simple_escape (e : ascii) : option ascii :=
  if Ascii.eqb e dquote then Some dquote
  else if Ascii.eqb e backslash then Some backslash
  else if Ascii.eqb e "/" then Some "/"%char
  else if Ascii.eqb e "b" then Some "008"%char
  else if Ascii.eqb e "f" then Some "012"%char
  else if Ascii.eqb e "n" then Some "010"%char
  else if Ascii.eqb e "r" then Some "013"%char
  else if Ascii.eqb e "t" then Some "009"%char
  else None.

Definition is_high_surrogate (n : N) : bool := ((55296 <=? n) && (n <=? 56319))%N.
Definition is_low_surrogate (n : N) : bool := ((56320 <=? n) && (n <=? 57343))%N.

(** [scanstring], entered just after the opening quote: the decoded text
    and what follows the closing quote. *)
Fixpoint scanstring (s : string) : option (string * string) :=
  match s with
  | EmptyString => None
  | String a r =>
      if Ascii.eqb a dquote then Some ("", r)
      else if Ascii.eqb a backslash then
        match r with
        | EmptyString => None
        | String e r2 =>
            if Ascii.eqb e "u" then
              match r2 with
              | String h1 (String h2 (String h3 (String h4 r3))) =>
                  match hex4_value h1 h2 h3 h4 with
                  | None => None
                  | Some u =>
                      let lone :=
                        match scanstring r3 with
                        | Some (body, rest) => Some (utf8_encode u +:+ body, rest)
                        | None => None
                        end in
                      if is_high_surrogate u then
                        match r3 with
                        | String b (String c (String g1 (String g2 (String g3 (String g4 r4))))) =>
                            if Ascii.eqb b backslash && Ascii.eqb c "u" then
                              match hex4_value g1 g2 g3 g4 with
                              | None => None
                              | Some u2 =>
                                  if is_low_surrogate u2 then
                                    match scanstring r4 with
                                    | Some (body, rest) =>
                                        Some (utf8_encode
                                                (65536 + N.lor (N.shiftl (u - 55296) 10)
                                                               (u2 - 56320))%N
                                              +:+ body, rest)
                                    | None => None
                                    end
                                  else lone
                              end
                            else lone
                        | _ => lone
                        end
                      else lone
                  end
              | _ => None
              end
            else
              match simple_escape e with
              | None => None
              | Some c =>
                  match scanstring r2 with
                  | Some (body, rest) => Some (String c body, rest)
                  | None => None
                  end
              end
        end
      else if (N_of_ascii a <? 32)%N then None
      else
        match scanstring r with
        | Some (body, rest) => Some (String a body, rest)
        | None => None
        end
  end.

(** The constants the scanner knows by name. *)
Definition scan_constant (s : string) : option (pyval * string) :=
  match strip_prefix "null" s with
  | Some rest => Some (VNone, rest)
  | None =>
  match strip_prefix "true" s with
  | Some rest => Some (VBool true, rest)
  | None =>
  match strip_prefix "false" s with
  | Some rest => Some (VBool false, rest)
  | None => None
  end end end.

Definition scan_nonfinite (s : string) : option (pyval * string) :=
  match strip_prefix "NaN" s with
  | Some rest => Some (VFloat (PyFloat "nan"), rest)
  | None =>
  match strip_prefix "Infinity" s with
  | Some rest => Some (VFloat (PyFloat "inf"), rest)
  | None =>
  match strip_prefix "-Infinity" s with
  | Some rest => Some (VFloat (PyFloat "-inf"), rest)
  | None => None
  end end end.

(** The values that are neither strings nor containers, in the order the
    scanner tries them. *)
Definition scan_atom (s : string) : option (pyval * string) :=
  match scan_constant s with
  | Some r => Some r
  | None =>
      match scan_number s with
      | Some r => Some r
      | None => scan_nonfinite s
      end
  end.

(** [scan_once] and the two container loops. [scan_array] is entered at the
    first character of an element, [scan_object] just after the opening
    quote of a key. *)
Fixpoint scan_once (fuel : nat) (s : string) {struct fuel} : scan pyval :=
  match fuel with
  | O => Exhausted
  | S fuel' =>
      match s with
      | EmptyString => Malformed
      | String a r =>
          if Ascii.eqb a dquote then
            match scanstring r with
            | Some (str, rest) => Scanned (VStr str) rest
            | None => Malformed
            end
          else if Ascii.eqb a "{" then
            match skip_ws r with
            | String c r' =>
                if Ascii.eqb c "}" then Scanned (VDict []) r'
                else if Ascii.eqb c dquote then scan_object fuel' [] r'
                else Malformed
            | EmptyString => Malformed
            end
          else if Ascii.eqb a "[" then
            match strip_prefix "]" (skip_ws r) with
            | Some r' => Scanned (VList []) r'
            | None => scan_array fuel' [] (skip_ws r)
            end
          else
            match scan_atom s with
            | Some (v, rest) => Scanned v rest
            | None => Malformed
            end
      end
  end
with scan_array (fuel : nat) (acc : list pyval) (s : string) {struct fuel} : scan pyval :=
  match fuel with
  | O => Exhausted
  | S fuel' =>
      match scan_once fuel' s with
      | Scanned v r =>
          match skip_ws r with
          | String c r1 =>
              if Ascii.eqb c "]" then Scanned (VList (rev (v :: acc))) r1
              else if Ascii.eqb c "," then scan_array fuel' (v :: acc) (skip_ws r1)
              else Malformed
          | EmptyString => Malformed
          end
      | Malformed => Malformed
      | Exhausted => Exhausted
      end
  end
with scan_object (fuel : nat) (acc : pydict) (s : string) {struct fuel} : scan pyval :=
  match fuel with
  | O => Exhausted
  | S fuel' =>
      match scanstring s with
      | None => Malformed
      | Some (key, r) =>
          match strip_prefix ":" (skip_ws r) with
          | Some r1 =>
              match scan_once fuel' (skip_ws r1) with
              | Scanned v r2 =>
                  let acc' := dict_set key v acc in
                  match skip_ws r2 with
                  | String c r3 =>
                      if Ascii.eqb c "}" then Scanned (VDict acc') r3
                      else if Ascii.eqb c "," then
                        match strip_prefix dq (skip_ws r3) with
                        | Some r4 => scan_object fuel' acc' r4
                        | None => Malformed
                        end
                      else Malformed
                  | EmptyString => Malformed
                  end
              | Malformed => Malformed
              | Exhausted => Exhausted
              end
          | None => Malformed
          end
      end
  end.

(** The UTF-8 bytes of U+FEFF, which [json.loads] refuses at the start. *)
Definition utf8_bom : string :=
  String (byte 239) (String (byte 187) (String (byte 191) "")).

(** [JSONDecoder.decode]: one value between optional white space, and
    nothing after it. *)
Definition json_decode (s : string) : scan pyval :=
  if startswith s utf8_bom then Malformed
  else
    match scan_once (2 * String.length s + 2) (skip_ws s) with
    | Scanned v rest =>
        match skip_ws rest with
        | EmptyString => Scanned v ""
        | _ => Malformed
        end
    | Malformed => Malformed
    | Exhausted => Exhausted
    end.

(** [json.loads(s)]: [None] stands for the [JSONDecodeError] it raises. *)
Definition json_loads (s : string) : option pyval :=
  match json_decode s with
  | Scanned v _ => Some v
  | _ => None
  end.

(** ** [pathlib.Path]

    A path is kept in the parsed form of [PurePosixPath]: whether it starts
    at the root, and its components. A double slash at the start is read as
    a single one. Components [..] are kept as they are by [pathlib]; the
    file system below has no entry under such a name. *)

Record Path := MkPath { is_abs : bool; parts : list string }.

Definition proper_part (c : string) : bool :=
  negb (String.eqb c "") && negb (String.eqb c ".").

(** [Path(s)] *)
Definition Path_of_string (s : string) : Path :=
  {| is_abs := startswith s "/";
     parts := List.filter proper_part (split_char "/" s) |}.

(** [p / s]: a segment that starts at the root replaces [p]. *)
Definition joinpath (p : Path) (s : string) : Path :=
  let q := Path_of_string s in
  if is_abs q then q
  else {| is_abs := is_abs p; parts := parts p ++ parts q |}.

Infix "</>" := joinpath (at level 40, left associativity).

(** [str(p)] *)
Definition str_path (p : Path) : string :=
  match is_abs p, parts p with
  | false, [] => "."
  | false, l => join "/" l
  | true, l => "/" +:+ join "/" l
  end.

(** [p.name] *)
Definition path_name (p : Path) : string := List.last (parts p) "".

(** [name.rfind('.')] *)
Fixpoint rfind_dot (i : nat) (s : string) : option nat :=
  match s with
  | EmptyString => None
  | String a s' =>
      match rfind_dot (S i) s' with
      | Some j => Some j
      | None => if Ascii.eqb a "." then Some i else None
      end
  end.

(** [p.stem]: the name without its last suffix; a leading or a trailing dot
    does not start a suffix. *)
Definition stem_of_name (name : string) : string :=
  match rfind_dot 0 name with
  | Some i =>
      if ((0 <? i) && (i <? String.length name - 1))%nat
      then String.substring 0 i name
      else name
  | None => name
  end.
Definition path_stem (p : Path) : string := stem_of_name (path_name p).

(** ** The file system

    A finite map from absolute locations (the components from the root) to
    nodes. The root is a directory. Permissions and symbolic links are not
    modelled, and neither are the limits of the system on names: a name of
    more than 255 bytes or with a NUL byte, a path of more than 4095 bytes
    and a text that cannot be encoded are taken like any other. In a
    well-formed file system the parent of every entry is a directory
    ([wf_fs]); creating directories and writing files keep it so. *)

Inductive node := File (content : string) | Dir.

Abbreviation location := (list string).
Abbreviation filesystem := (gmap (list string) node).

Definition lookup_node (fs : filesystem) (k : location) : option node :=
  match k with
  | [] => Some Dir
  | _ => fs !! k
  end.

Definition parent (k : location) : location := removelast k.

Definition wf_fs (fs : filesystem) : Prop :=
  ∀ k n, fs !! k = Some n → k ≠ [] ∧ lookup_node fs (parent k) = Some Dir.

(** The location a path denotes for a process whose working directory is
    [cwd]. *)
Definition locate (cwd : location) (p : Path) : location :=
  if is_abs p then parts p else cwd ++ parts p.

Definition node_exists (fs : filesystem) (k : location) : bool :=
  match lookup_node fs k with Some _ => true | None => false end.

Definition node_is_dir (fs : filesystem) (k : location) : bool :=
  match lookup_node fs k with Some Dir => true | _ => false end.

(** The name of [k] when [k] is an entry of the directory [d]. *)
Definition entry_name (d k : location) : option string :=
  match List.last (Some <$> k) None with
  | Some c => if bool_decide (k = d ++ [c]) then Some c else None
  | None => None
  end.

(** The entries of a directory, in the order the map enumerates them (the
    order of [os.scandir] is arbitrary as well). *)
Definition scandir (fs : filesystem) (d : location) : list string :=
  omap (λ kn, entry_name d (fst kn)) (map_to_list fs).

(** ** Exceptions and the monad of effects *)

Inductive exn :=
| FileExistsError (msg : string)
| FileNotFoundError (msg : string)
| NotADirectoryError (msg : string)
| IsADirectoryError (msg : string)
| JSONDecodeError (doc : string)
| ValueError (msg : string)
| CalledProcessError (cmd : list string) (returncode : Z)
| SystemExit (code : Z)
| ExternalError (description : string).

(** The text of an [OSError]: errno, its message and the quoted path. *)
Definition os_error_text (errno : Z) (what : string) (p : Path) : string :=
  "[Errno " +:+ str_int errno +:+ "] " +:+ what +:+ ": '" +:+ str_path p +:+ "'".

Inductive outcome (A : Type) :=
| Ok (a : A)
| Raise (e : exn).
Arguments Ok {A} a.
Arguments Raise {A} e.

(** One call of [print]: a text, or a prefix followed by [str(e)] of an
    exception. *)
Inductive printed :=
| Text (s : string)
| ErrorText (pre : string) (e : exn).

(** A call that leaves the program. *)
Inductive call :=
| CallTool (cmd : list string) (cwd : option Path)
| CallProjectRun (base_dir : string) (name : string) (kwargs : pydict)
| CallPipelineNew (base_dir : string) (name : string) (overwrite : bool).

Record world := World {
  fs : filesystem;
  stdout : list printed;
  calls : list call;
}.

Record datetime := {
  year : Z; month : Z; day : Z; hour : Z; minute : Z; second : Z;
}.

Inductive tool_result :=
| Exited (returncode : Z)
| NotStarted (e : exn).

(** What lies outside the scripts: the working directory, the clock, the
    [flowerpower] executable and the [flowerpower] library. The tool and
    the library may change the file system. *)
Record env := Env {
  cwd : location;
  clock : datetime;
  tool : list string → option Path → filesystem → tool_result * filesystem;
  project_run : string → string → pydict → filesystem → outcome string * filesystem;
  pipeline_new : string → string → bool → filesystem → outcome unit * filesystem;
}.

Definition M (A : Type) : Type := world → outcome A * world.

Definition ret {A} (a : A) : M A := λ w, (Ok a, w).
Definition bind {A B} (m : M A) (k : A → M B) : M B :=
  λ w, match m w with
       | (Ok a, w') => k a w'
       | (Raise e, w') => (Raise e, w')
       end.
Definition raise {A} (e : exn) : M A := λ w, (Raise e, w).

Instance M_ret : MRet M := @ret.
Instance M_bind : MBind M := λ A B k m, bind m k.

(** [try: body except ...: handler]: [handler e] is [None] when no
    [except] clause matches [e]. *)
Definition try_except {A} (body : M A) (handler : exn → option (M A)) : M A :=
  λ w, match body w with
       | (Ok a, w') => (Ok a, w')
       | (Raise e, w') =>
           match handler e with
           | Some h => h w'
           | None => (Raise e, w')
           end
       end.

(** [print(...)] *)
Definition print (x : printed) : M unit :=
  λ w, (Ok tt, {| fs := fs w; stdout := stdout w ++ [x]; calls := calls w |}).

(** [sys.exit(code)] *)
Definition sys_exit {A} (code : Z) : M A := raise (SystemExit code).


Definition with_fs (w : world) (fs' : filesystem) : world :=
  {| fs := fs'; stdout := stdout w; calls := calls w |}.

Definition log_call (w : world) (c : call) (fs' : filesystem) : world :=
  {| fs := fs'; stdout := stdout w; calls := calls w ++ [c] |}.

(** [subprocess.run(cmd, check=True, cwd=cwd)] *)
Definition subprocess_run (E : env) (cmd : list string) (dir : option Path) : M unit :=
  λ w, let '(r, fs') := tool E cmd dir (fs w) in
       let w' := log_call w (CallTool cmd dir) fs' in
       match r with
       | Exited rc =>
           if rc =? 0 then (Ok tt, w')
           else (Raise (CalledProcessError cmd rc), w')
       | NotStarted e => (Raise e, w')
       end.

(** [p.exists()] *)
Definition path_exists (E : env) (p : Path) : M bool :=
  λ w, (Ok (node_exists (fs w) (locate (cwd E) p)), w).

(** [p.mkdir(parents=True, exist_ok=True)], walking down from [cur]:
    a missing directory is created, an existing one is entered, and a file
    in the way is an error ([FileExistsError] when it is the target itself,
    [NotADirectoryError] when it is an ancestor). *)
Fixpoint mkdir_walk (p : Path) (fs : filesystem) (cur rest : location)
  : outcome filesystem :=
  match rest with
  | [] => Ok fs
  | c :: rest' =>
      let nxt := cur ++ [c] in
      match lookup_node fs nxt with
      | Some Dir => mkdir_walk p fs nxt rest'
      | Some (File _) =>
          match rest' with
          | [] => Raise (FileExistsError (os_error_text 17 "File exists" p))
          | _ => Raise (NotADirectoryError (os_error_text 20 "Not a directory" p))
          end
      | None => mkdir_walk p (<[nxt := Dir]> fs) nxt rest'
      end
  end.

Definition mkdir_parents (E : env) (p : Path) : M unit :=
  λ w, match mkdir_walk p (fs w) [] (locate (cwd E) p) with
       | Ok fs' => (Ok tt, with_fs w fs')
       | Raise e => (Raise e, w)
       end.

(** [p.write_text(content)]: the parent must be a directory and the target
    must not be one; the file is created or its content replaced. *)
Definition write_file (p : Path) (fs : filesystem) (k : location) (content : string)
  : outcome filesystem :=
  match lookup_node fs (parent k) with
  | Some Dir =>
      match lookup_node fs k with
      | Some Dir => Raise (IsADirectoryError (os_error_text 21 "Is a directory" p))
      | _ => Ok (<[k := File content]> fs)
      end
  | Some (File _) => Raise (NotADirectoryError (os_error_text 20 "Not a directory" p))
  | None => Raise (FileNotFoundError (os_error_text 2 "No such file or directory" p))
  end.

Definition write_text (E : env) (p : Path) (content : string) : M unit :=
  λ w, match write_file p (fs w) (locate (cwd E) p) content with
       | Ok fs' => (Ok tt, with_fs w fs')
       | Raise e => (Raise e, w)
       end.

(** [p.read_text()], used to state what a write leaves behind. *)
Definition read_text (fs : filesystem) (k : location) : option string :=
  match lookup_node fs k with
  | Some (File content) => Some content
  | _ => None
  end.

(** [Path.cwd()] *)
Definition Path_cwd (E : env) : Path := {| is_abs := true; parts := cwd E |}.

(** [project_path or Path.cwd()]: a [Path] object is always true, so only
    [None] is replaced. *)
Definition path_or_cwd (E : env) (p : option Path) : Path :=
  match p with
  | Some b => b
  | None => Path_cwd E
  end.

(** An entry [c] found in the directory [d] by a scan. *)
Definition child (d : Path) (c : string) : Path :=
  {| is_abs := is_abs d; parts := parts d ++ [c] |}.

(** ** run_pipeline.py *)

Module RunPipeline.

(** [if x: cmd.extend(flags)] for an optional argument [x]. *)
Definition extend_if {A} (x : option A) (test : A → bool) (flags : A → list string)
    (cmd : list string) : list string :=
  match x with
  | Some a => if test a then cmd ++ flags a else cmd
  | None => cmd
  end.

Definition always {A} (_ : A) : bool := true.

(** The list [cmd] that [run_pipeline_cli] hands to [subprocess.run]. The
    annotations say [dict] and [list[str]] for [inputs] and [final_vars];
    what arrives from [main] is whatever [json.loads] returned. *)
Definition run_pipeline_cli_cmd (name : string) (base_dir : option Path)
    (inputs final_vars : option pyval) (executor : option string)
    (max_workers max_retries : option Z) (retry_delay : option pyfloat)
    (log_level run_config : option string) : list string :=
  let cmd := ["flowerpower"; "pipeline"; "run"; name] in
  let cmd := extend_if base_dir always (λ b, ["--base-dir"; str_path b]) cmd in
  let cmd := extend_if inputs truthy (λ v, ["--inputs"; json_dumps v]) cmd in
  let cmd := extend_if final_vars truthy (λ v, ["--final-vars"; json_dumps v]) cmd in
  let cmd := extend_if executor str_truthy (λ e, ["--executor"; e]) cmd in
  let cmd := extend_if max_workers int_truthy
               (λ n, ["--executor-max-workers"; str_int n]) cmd in
  let cmd := extend_if max_retries always (λ n, ["--max-retries"; str_int n]) cmd in
  let cmd := extend_if retry_delay always (λ x, ["--retry-delay"; float_repr x]) cmd in
  let cmd := extend_if log_level str_truthy (λ l, ["--log-level"; l]) cmd in
  let cmd := extend_if run_config str_truthy (λ c, ["--run-config"; c]) cmd in
  cmd.

Definition run_pipeline_cli (E : env) (name : string) (base_dir : option Path)
    (inputs final_vars : option pyval) (executor : option string)
    (max_workers max_retries : option Z) (retry_delay : option pyfloat)
    (log_level run_config : option string) : M unit :=
  subprocess_run E
    (run_pipeline_cli_cmd name base_dir inputs final_vars executor max_workers
       max_retries retry_delay log_level run_config)
    None.

(** [if x: d[k] = value] for an optional argument [x]. *)
Definition set_if {A} (x : option A) (test : A → bool) (k : string) (value : A → pyval)
    (d : pydict) : pydict :=
  match x with
  | Some a => if test a then dict_set k (value a) d else d
  | None => d
  end.

Definition is_not_None {A} (x : option A) : bool :=
  match x with Some _ => true | None => false end.

(** The dictionary [kwargs] that [run_pipeline_api] passes on. *)
Definition run_pipeline_api_kwargs (inputs final_vars : option pyval)
    (executor : option string) (max_workers max_retries : option Z)
    (retry_delay : option pyfloat) (log_level : option string) : pydict :=
  let kwargs := [] in
  let kwargs := set_if inputs truthy "inputs" id kwargs in
  let kwargs := set_if final_vars truthy "final_vars" id kwargs in
  let kwargs :=
    set_if executor str_truthy "executor"
      (λ e, let executor_config := [("type", VStr e)] in
            let executor_config :=
              set_if max_workers int_truthy "max_workers" VInt executor_config in
            VDict executor_config)
      kwargs in
  let kwargs :=
    if is_not_None max_retries || is_not_None retry_delay then
      let retry_config := [] in
      let retry_config := set_if max_retries always "max_retries" VInt retry_config in
      let retry_config := set_if retry_delay always "retry_delay" VFloat retry_config in
      dict_set "retry" (VDict retry_config) kwargs
    else kwargs in
  let kwargs := set_if log_level str_truthy "log_level" VStr kwargs in
  kwargs.

(** [FlowerPowerProject.load(...)] followed by [project.run(name, **kwargs)];
    the result is kept as the text [print] shows for it. *)
Definition run_pipeline_api (E : env) (name : string) (base_dir : option Path)
    (inputs final_vars : option pyval) (executor : option string)
    (max_workers max_retries : option Z) (retry_delay : option pyfloat)
    (log_level : option string) : M string :=
  λ w,
    let base := match base_dir with Some b => str_path b | None => "." end in
    let kwargs := run_pipeline_api_kwargs inputs final_vars executor max_workers
                    max_retries retry_delay log_level in
    let '(r, fs') := project_run E base name kwargs (fs w) in
    (r, log_call w (CallProjectRun base name kwargs) fs').

(** The values [argparse] admits for [--executor] and [--log-level]. *)
Inductive executor_choice := synchronous | threadpool | processpool | ray | dask.
Inductive level_choice := DEBUG | INFO | WARNING | ERROR | CRITICAL.

Definition executor_text (e : executor_choice) : string :=
  match e with
  | synchronous => "synchronous"
  | threadpool => "threadpool"
  | processpool => "processpool"
  | ray => "ray"
  | dask => "dask"
  end.

Definition level_text (l : level_choice) : string :=
  match l with
  | DEBUG => "DEBUG"
  | INFO => "INFO"
  | WARNING => "WARNING"
  | ERROR => "ERROR"
  | CRITICAL => "CRITICAL"
  end.

(** The namespace [parser.parse_args()] returns. *)
Record Args := {
  args_name : string;
  args_path : option Path;
  args_inputs : option string;
  args_final_vars : option string;
  args_executor : option executor_choice;
  args_max_workers : option Z;
  args_max_retries : option Z;
  args_retry_delay : option pyfloat;
  args_log_level : option level_choice;
  args_run_config : option string;
  args_use_api : bool;
}.

(** [json.loads(x) if x else None] *)
Definition loads_if (x : option string) : M (option pyval) :=
  match x with
  | Some s =>
      if str_truthy s then
        match json_loads s with
        | Some v => ret (Some v)
        | None => raise (JSONDecodeError s)
        end
      else ret None
  | None => ret None
  end.

(** The two [except] clauses of [main]; [SystemExit] is no [Exception]. *)
Definition handler (e : exn) : option (M unit) :=
  match e with
  | CalledProcessError _ _ =>
      Some (print (ErrorText "Error running pipeline: " e);; sys_exit 1)
  | SystemExit _ => None
  | _ => Some (print (ErrorText "Error: " e);; sys_exit 1)
  end.

Definition main (E : env) (args : Args) : M unit :=
  inputs ← loads_if (args_inputs args);
  final_vars ← loads_if (args_final_vars args);
  try_except
    (if args_use_api args then
       result ← run_pipeline_api E (args_name args) (args_path args) inputs final_vars
                  (executor_text <$> args_executor args) (args_max_workers args)
                  (args_max_retries args) (args_retry_delay args)
                  (level_text <$> args_log_level args);
       print (Text (nl +:+ "Pipeline completed!"));;
       print (Text ("Results: " +:+ result))
     else
       run_pipeline_cli E (args_name args) (args_path args) inputs final_vars
         (executor_text <$> args_executor args) (args_max_workers args)
         (args_max_retries args) (args_retry_delay args)
         (level_text <$> args_log_level args) (args_run_config args))
    handler.

End RunPipeline.

(** ** create_pipeline.py *)

Module CreatePipeline.

Definition PIPELINE_TEMPLATE : string :=
  join nl [
    "# FlowerPower pipeline {name}";
    "# Created on {date}";
    "";
    "from pathlib import Path";
    "from hamilton.function_modifiers import parameterize";
    "";
    "from flowerpower.cfg import Config";
    "";
    "# Load pipeline parameters from conf/pipelines/{name}.yml";
    "PARAMS = Config.load(";
    ("    Path(__file__).parents[1], pipeline_name=" +:+ dq +:+ "{name}" +:+ dq);
    ").pipeline.h_params";
    "";
    "";
    "# Helper functions (prefix with underscore - not included in DAG)";
    "def _validate_data(data: dict) -> bool:";
    ("    " +:+ dq +:+ dq +:+ dq +:+ "Validate input data." +:+ dq +:+ dq +:+ dq);
    "    return data is not None and len(data) > 0";
    "";
    "";
    "# Pipeline functions (each becomes a node in the DAG)";
    "";
    ("@parameterize(**PARAMS.get(" +:+ dq +:+ "input_config" +:+ dq +:+ ", {{" +:+ dq +:+ "source" +:+ dq +:+ ": " +:+ dq +:+ "default" +:+ dq +:+ "}}))");
    "def load_data(source: str) -> dict:";
    ("    " +:+ dq +:+ dq +:+ dq +:+ "Load data from source.");
    "    ";
    "    Args:";
    "        source: Data source identifier";
    "        ";
    "    Returns:";
    "        Loaded data dictionary";
    ("    " +:+ dq +:+ dq +:+ dq);
    "    # TODO: Implement data loading logic";
    ("    return {{" +:+ dq +:+ "source" +:+ dq +:+ ": source, " +:+ dq +:+ "data" +:+ dq +:+ ": []}}");
    "";
    "";
    "def validate_data(load_data: dict) -> dict:";
    ("    " +:+ dq +:+ dq +:+ dq +:+ "Validate loaded data.");
    "    ";
    "    Args:";
    "        load_data: Data from load_data node";
    "        ";
    "    Returns:";
    "        Validated data";
    ("    " +:+ dq +:+ dq +:+ dq);
    "    if not _validate_data(load_data):";
    ("        raise ValueError(" +:+ dq +:+ "Invalid data" +:+ dq +:+ ")");
    "    return load_data";
    "";
    "";
    "def process_data(validate_data: dict) -> dict:";
    ("    " +:+ dq +:+ dq +:+ dq +:+ "Process validated data.");
    "    ";
    "    Args:";
    "        validate_data: Data from validate_data node";
    "        ";
    "    Returns:";
    "        Processed data";
    ("    " +:+ dq +:+ dq +:+ dq);
    "    # TODO: Implement processing logic";
    ("    return {{" +:+ dq +:+ "processed" +:+ dq +:+ ": True, **validate_data}}");
    "";
    "";
    "def final_output(process_data: dict) -> str:";
    ("    " +:+ dq +:+ dq +:+ dq +:+ "Generate final output.");
    "    ";
    "    Args:";
    "        process_data: Data from process_data node";
    "        ";
    "    Returns:";
    "        Output summary string";
    ("    " +:+ dq +:+ dq +:+ dq);
    ("    return f" +:+ dq +:+ "Processed {{len(process_data)}} items" +:+ dq);
    ""
  ].

Definition CONFIG_TEMPLATE : string :=
  join nl [
    "# Pipeline configuration for {name}";
    "# See references/configuration.md for all options";
    "";
    "params:";
    "  input_config:";
    ("    source: " +:+ dq +:+ "data/input.csv" +:+ dq);
    "";
    "run:";
    "  final_vars:";
    "    - final_output";
    "  ";
    "  # Executor configuration";
    "  executor:";
    "    type: synchronous";
    "    # type: threadpool";
    "    # max_workers: 4";
    "  ";
    "  # Retry configuration";
    "  # retry:";
    "  #   max_retries: 3";
    "  #   retry_delay: 1.0";
    "  #   jitter_factor: 0.1";
    "  ";
    "  # Logging level";
    "  log_level: INFO";
    ""
  ].

(** [str.format] with keyword arguments, for templates whose fields are
    plain names: a doubled brace stands for one brace, [{k}] for the value
    given for [k]. Conversions, format specifications and attribute or index
    lookups inside a field are outside this model and make it fail, as does
    a lone brace or an unknown name. *)
Inductive piece := Lit (c : ascii) | Field (k : string).

Definition plain_field_char (a : ascii) : bool :=
  negb (Ascii.eqb a "{" || Ascii.eqb a "!" || Ascii.eqb a ":" || Ascii.eqb a "."
        || Ascii.eqb a "[").

Fixpoint parse_format (field : option string) (s : string) : option (list piece) :=
  match s with
  | EmptyString =>
      match field with
      | None => Some []
      | Some _ => None
      end
  | String a r =>
      match field with
      | Some f =>
          if Ascii.eqb a "}" then cons (Field (String.rev f)) <$> parse_format None r
          else if plain_field_char a then parse_format (Some (String a f)) r
          else None
      | None =>
          if Ascii.eqb a "{" then
            match r with
            | String b r' =>
                if Ascii.eqb b "{" then cons (Lit "{") <$> parse_format None r'
                else parse_format (Some "") r
            | EmptyString => parse_format (Some "") r
            end
          else if Ascii.eqb a "}" then
            match r with
            | String b r' =>
                if Ascii.eqb b "}" then cons (Lit "}") <$> parse_format None r'
                else None
            | EmptyString => None
            end
          else cons (Lit a) <$> parse_format None r
      end
  end.

Fixpoint fill (kw : list (string * string)) (ps : list piece) : option string :=
  match ps with
  | [] => Some ""
  | Lit c :: ps' => String c <$> fill kw ps'
  | Field k :: ps' =>
      match dict_get k kw with
      | Some v => String.append v <$> fill kw ps'
      | None => None
      end
  end.

Definition format (template : string) (kw : list (string * string)) : option string :=
  parse_format None template ≫= fill kw.

Definition format_or_raise (template : string) (kw : list (string * string)) : M string :=
  match format template kw with
  | Some text => ret text
  | None => raise (ValueError "format")
  end.

(** Two digits with a leading zero, as [%m], [%d], [%H], [%M] and [%S]. *)
Definition pad2 (n : Z) : string :=
  if n <? 10 then "0" +:+ str_int n else str_int n.

(** [t.strftime("%Y-%m-%d %H:%M:%S")], for a year of four digits. *)
Definition strftime (t : datetime) : string :=
  str_int (year t) +:+ "-" +:+ pad2 (month t) +:+ "-" +:+ pad2 (day t) +:+ " "
  +:+ pad2 (hour t) +:+ ":" +:+ pad2 (minute t) +:+ ":" +:+ pad2 (second t).

(** [datetime.now()] *)
Definition datetime_now (E : env) : M datetime := ret (clock E).

Definition module_path_of (base_dir : Path) (name : string) : Path :=
  base_dir </> "pipelines" </> (name +:+ ".py").
Definition config_path_of (base_dir : Path) (name : string) : Path :=
  base_dir </> "conf" </> "pipelines" </> (name +:+ ".yml").

Definition create_pipeline (E : env) (name : string) (project_path : option Path)
    (overwrite : bool) (use_cli : bool) : M (Path * Path) :=
  let base_dir := path_or_cwd E project_path in
  if use_cli then
    let cmd := ["flowerpower"; "pipeline"; "new"; name] in
    let cmd := if overwrite then cmd ++ ["--overwrite"] else cmd in
    subprocess_run E cmd (Some base_dir);;
    let module_path := base_dir </> "pipelines" </> (name +:+ ".py") in
    let config_path := base_dir </> "conf" </> "pipelines" </> (name +:+ ".yml") in
    ret (module_path, config_path)
  else
    (λ w, let '(r, fs') := pipeline_new E (str_path base_dir) name overwrite (fs w) in
          (r, log_call w (CallPipelineNew (str_path base_dir) name overwrite) fs'));;
    let module_path := base_dir </> "pipelines" </> (name +:+ ".py") in
    let config_path := base_dir </> "conf" </> "pipelines" </> (name +:+ ".yml") in
    ret (module_path, config_path).

Definition module_exists_text (module_path : Path) : string :=
  "Pipeline module already exists: " +:+ str_path module_path.
Definition config_exists_text (config_path : Path) : string :=
  "Pipeline config already exists: " +:+ str_path config_path.

Definition create_pipeline_from_template (E : env) (name : string)
    (project_path : option Path) (overwrite : bool) : M (Path * Path) :=
  let base_dir := path_or_cwd E project_path in
  let pipelines_dir := base_dir </> "pipelines" in
  let config_dir := base_dir </> "conf" </> "pipelines" in
  let module_path := pipelines_dir </> (name +:+ ".py") in
  let config_path := config_dir </> (name +:+ ".yml") in
  (* Check existing *)
  (if negb overwrite then
     module_there ← path_exists E module_path;
     (if module_there : bool
      then raise (FileExistsError (module_exists_text module_path))
      else ret tt);;
     config_there ← path_exists E config_path;
     (if config_there : bool
      then raise (FileExistsError (config_exists_text config_path))
      else ret tt)
   else ret tt);;
  (* Create directories *)
  mkdir_parents E pipelines_dir;;
  mkdir_parents E config_dir;;
  (* Write files *)
  now ← datetime_now E;
  let date_str := strftime now in
  module_content ← format_or_raise PIPELINE_TEMPLATE [("name", name); ("date", date_str)];
  config_content ← format_or_raise CONFIG_TEMPLATE [("name", name)];
  write_text E module_path module_content;;
  write_text E config_path config_content;;
  ret (module_path, config_path).

Record Args := {
  args_name : string;
  args_path : option Path;
  args_overwrite : bool;
  args_template_only : bool;
}.

(** The hyphen check at the start of [main]: the name to go on with. *)
Definition validate_name (name : string) : M string :=
  if contains_char "-" name then
    print (Text "Warning: Pipeline names should use underscores, not hyphens");;
    let name := replace_char "-" "_" name in
    print (Text ("Using: " +:+ name));;
    ret name
  else ret name.

Definition handler (e : exn) : option (M unit) :=
  match e with
  | FileExistsError _ =>
      Some (print (ErrorText "Error: " e);;
            print (Text "Use --overwrite to replace existing pipeline");;
            sys_exit 1)
  | CalledProcessError _ _ =>
      Some (print (ErrorText "Error creating pipeline: " e);; sys_exit 1)
  | _ => None
  end.

(** [main] from the [try] statement on, for the name [name]. *)
Definition dispatch (E : env) (args : Args) (name : string) : M unit :=
  try_except
    (paths ← (if args_template_only args
              then create_pipeline_from_template E name (args_path args)
                     (args_overwrite args)
              else create_pipeline E name (args_path args) (args_overwrite args) true);
     let module_path := fst paths in
     let config_path := snd paths in
     print (Text (nl +:+ "Pipeline created:"));;
     print (Text ("  Module: " +:+ str_path module_path));;
     print (Text ("  Config: " +:+ str_path config_path));;
     print (Text (nl +:+ "Next steps:"));;
     print (Text ("  1. Edit " +:+ str_path module_path +:+ " to implement pipeline logic"));;
     print (Text ("  2. Configure parameters in " +:+ str_path config_path));;
     print (Text ("  3. Run: flowerpower pipeline run " +:+ name)))
    handler.

Definition main (E : env) (args : Args) : M unit :=
  name ← validate_name (args_name args);
  dispatch E args name.

End CreatePipeline.

(** ** list_pipelines.py *)

Module ListPipelines.

(** The dictionary built for each pipeline, with its four keys. *)
Record pipeline_info := {
  name : string;
  module : string;
  config : option string;
  has_config : bool;
}.

(** [d.glob("*.py")]: the entries of [d] whose name ends in [.py], hidden
    ones included; nothing when [d] is not a directory. *)
Definition glob_py (E : env) (fs : filesystem) (d : Path) : list Path :=
  if node_is_dir fs (locate (cwd E) d)
  then child d <$> List.filter (λ c, endswith c ".py") (scandir fs (locate (cwd E) d))
  else [].

(** [sorted(l, key=...)] on string keys: a stable sort, here by insertion
    from the right. *)
Fixpoint insert_sorted {A} (key : A → string) (x : A) (l : list A) : list A :=
  match l with
  | [] => [x]
  | y :: l' =>
      if String.leb (key x) (key y) then x :: y :: l'
      else y :: insert_sorted key x l'
  end.

Definition sorted {A} (key : A → string) (l : list A) : list A :=
  foldr (insert_sorted key) [] l.

(** One round of the [for] loop. *)
Definition loop_body (E : env) (fs : filesystem) (config_dir : Path)
    (pipelines : list pipeline_info) (module_file : Path) : list pipeline_info :=
  if startswith (path_name module_file) "_" then pipelines
  else
    let name := path_stem module_file in
    let config_file := config_dir </> (name +:+ ".yml") in
    let there := node_exists fs (locate (cwd E) config_file) in
    pipelines ++
      [{| name := name;
          module := str_path module_file;
          config := if there then Some (str_path config_file) else None;
          has_config := there |}].

Definition list_pipelines_filesystem (E : env) (base_dir : option Path)
    (fs : filesystem) : list pipeline_info :=
  let project_dir := path_or_cwd E base_dir in
  let pipelines_dir := project_dir </> "pipelines" in
  let config_dir := project_dir </> "conf" </> "pipelines" in
  if negb (node_exists fs (locate (cwd E) pipelines_dir)) then []
  else
    let pipelines := foldl (loop_body E fs config_dir) [] (glob_py E fs pipelines_dir) in
    sorted name pipelines.

End ListPipelines.

(** ** list_pipelines.py: the two other strategies and the front end *)

(** [json.dumps(v, indent=2)]: one item per line, each nesting level two
    spaces deeper; the item separator is a bare comma. *)
Fixpoint spaces (n : nat) : string :=
  match n with
  | O => ""
  | S n' => String " " (spaces n')
  end.

Definition newline_indent (level : nat) : string := nl +:+ spaces (2 * level).

Fixpoint json_dumps_indent (level : nat) (v : pyval) : string :=
  match v with
  | VList [] => "[]"
  | VList l =>
      "[" +:+ newline_indent (S level)
      +:+ join ("," +:+ newline_indent (S level)) (map (json_dumps_indent (S level)) l)
      +:+ newline_indent level +:+ "]"
  | VDict [] => "{}"
  | VDict d =>
      "{" +:+ newline_indent (S level)
      +:+ join ("," +:+ newline_indent (S level))
            (map (λ kv, encode_basestring_ascii (fst kv) +:+ ": "
                        +:+ json_dumps_indent (S level) (snd kv)) d)
      +:+ newline_indent level +:+ "}"
  | _ => json_dumps v
  end.

(** [len(s)]: the number of code points. *)
Definition str_len (s : string) : nat := length (code_points s).

(** [format(s, "30")]: a string is put to the left of a field of the given
    width and is never cut. *)
Definition pad_to (width : nat) (s : string) : string :=
  s +:+ spaces (width - str_len s).

(** [c * n] for a one-character string [c] *)
Fixpoint repeat_char (c : ascii) (n : nat) : string :=
  match n with
  | O => ""
  | S n' => String c (repeat_char c n')
  end.

(** [for x in l: body(x)] *)
Fixpoint for_each {A} (l : list A) (body : A → M unit) : M unit :=
  match l with
  | [] => ret tt
  | x :: l' => body x;; for_each l' body
  end.

(** The part of the [flowerpower] library that lists pipelines: it is given
    the directory text and the file system. *)
Record library := Library {
  pipeline_manager_list : string → filesystem → outcome (list string) * filesystem;
}.

Module ListFrontEnd.

(** The list [cmd] of [list_pipelines_cli]. *)
Definition list_pipelines_cli_cmd (base_dir : option Path) (output_format : string)
  : list string :=
  let cmd := ["flowerpower"; "pipeline"; "show-pipelines"] in
  let cmd := match base_dir with
             | Some b => cmd ++ ["--base-dir"; str_path b]
             | None => cmd
             end in
  let cmd := cmd ++ ["--format"; output_format] in
  cmd.

Definition list_pipelines_cli (E : env) (base_dir : option Path) (output_format : string)
  : M unit :=
  subprocess_run E (list_pipelines_cli_cmd base_dir output_format) None.

(** [FlowerPowerProject.load(...)] and [project.pipeline_manager.list()] *)
Definition list_pipelines_api (Lib : library) (base_dir : option Path)
  : M (list string) :=
  λ w,
    let base := match base_dir with Some b => str_path b | None => "." end in
    let '(r, fs') := pipeline_manager_list Lib base (fs w) in
    (r, with_fs w fs').

(** [list_pipelines_filesystem] as a step of the program: it only reads. *)
Definition list_pipelines_filesystem (E : env) (base_dir : option Path)
  : M (list ListPipelines.pipeline_info) :=
  λ w, (Ok (ListPipelines.list_pipelines_filesystem E base_dir (fs w)), w).

(** The values [argparse] admits for [--format]. *)
Inductive format_choice := table | json | yaml | simple.

Definition format_text (f : format_choice) : string :=
  match f with
  | table => "table"
  | json => "json"
  | yaml => "yaml"
  | simple => "simple"
  end.

Record Args := {
  args_path : option Path;
  args_format : format_choice;
  args_use_api : bool;
  args_scan : bool;
}.

(** The dictionary of one pipeline as a Python value, keys in the order
    of the source. *)
Definition info_value (p : ListPipelines.pipeline_info) : pyval :=
  VDict [("name", VStr (ListPipelines.name p));
         ("module", VStr (ListPipelines.module p));
         ("config", match ListPipelines.config p with
                    | Some c => VStr c
                    | None => VNone
                    end);
         ("has_config", VBool (ListPipelines.has_config p))].

(** The line of the table for one pipeline. *)
Definition table_line (p : ListPipelines.pipeline_info) : string :=
  let status := if ListPipelines.has_config p then "OK" else "MISSING CONFIG" in
  "  " +:+ pad_to 30 (ListPipelines.name p) +:+ " [" +:+ status +:+ "]".

Definition total_line (n : nat) : string :=
  nl +:+ "Total: " +:+ str_int (Z.of_nat n) +:+ " pipeline(s)".

Definition handler (e : exn) : option (M unit) :=
  match e with
  | CalledProcessError _ _ =>
      Some (print (ErrorText "Error listing pipelines: " e);; sys_exit 1)
  | SystemExit _ => None
  | _ => Some (print (ErrorText "Error: " e);; sys_exit 1)
  end.

Definition main (E : env) (Lib : library) (args : Args) : M unit :=
  try_except
    (if args_scan args then
       pipelines ← list_pipelines_filesystem E (args_path args);
       match args_format args with
       | json => print (Text (json_dumps_indent 0 (VList (info_value <$> pipelines))))
       | simple => for_each pipelines (λ p, print (Text (ListPipelines.name p)))
       | _ =>
           print (Text (nl +:+ "Pipelines in "
                        +:+ str_path (path_or_cwd E (args_path args)) +:+ ":"));;
           print (Text (repeat_char "-" 50));;
           for_each pipelines (λ p, print (Text (table_line p)));;
           print (Text (total_line (length pipelines)))
       end
     else if args_use_api args then
       pipelines ← list_pipelines_api Lib (args_path args);
       match args_format args with
       | json => print (Text (json_dumps_indent 0 (VList (VStr <$> pipelines))))
       | simple => for_each pipelines (λ name, print (Text name))
       | _ =>
           print (Text (nl +:+ "Available pipelines:"));;
           print (Text (repeat_char "-" 30));;
           for_each pipelines (λ name, print (Text ("  " +:+ name)));;
           print (Text (total_line (length pipelines)))
       end
     else list_pipelines_cli E (args_path args) (format_text (args_format args)))
    handler.

End ListFrontEnd.

(** ** init_project.py *)

(** What [import flowerpower] does: it succeeds, it raises [ImportError],
    or it raises something else. *)
Inductive import_result :=
| Imported
| ImportFailed
| ImportBroken (e : exn).

(** The Python interpreter that runs the script: the path of its
    executable, [import flowerpower] on the disk as it is, and the library's
    [FlowerPowerProject.init]. *)
Record interpreter := Interpreter {
  sys_executable : string;
  import_flowerpower : filesystem → import_result;
  project_init : string → option string → filesystem → outcome unit * filesystem;
}.

Module InitProject.

Definition check_flowerpower_installed (Py : interpreter) : M bool :=
  λ w, match import_flowerpower Py (fs w) with
       | Imported => (Ok true, w)
       | ImportFailed => (Ok false, w)
       | ImportBroken e => (Raise e, w)
       end.

(** The requirement handed to [pip]; [if extras:] is false for [None] and
    for the empty list. *)
Definition package_of (extras : option (list string)) : string :=
  match extras with
  | Some ((_ :: _) as l) => "flowerpower[" +:+ join "," l +:+ "]"
  | _ => "flowerpower"
  end.

(** [subprocess.run] here starts the interpreter itself; [tool] stands for
    whatever program the first word of the command names. *)
Definition install_flowerpower (E : env) (Py : interpreter)
    (extras : option (list string)) : M unit :=
  let package := package_of extras in
  print (Text ("Installing " +:+ package +:+ "..."));;
  subprocess_run E [sys_executable Py; "-m"; "pip"; "install"; package] None.

Definition init_project_cmd (name : string) (path : option Path) : list string :=
  let cmd := ["flowerpower"; "init"; "--name"; name] in
  let cmd := match path with
             | Some p => cmd ++ ["--base-dir"; str_path p]
             | None => cmd
             end in
  cmd.

Definition init_project (E : env) (Py : interpreter) (name : string)
    (path : option Path) (use_cli : bool) : M Path :=
  let base_dir := path_or_cwd E path in
  let project_path := base_dir </> name in
  (if use_cli then
     subprocess_run E (init_project_cmd name path) (Some base_dir)
   else
     λ w, let base := match path with
                      | Some _ => Some (str_path base_dir)
                      | None => None
                      end in
          let '(r, fs') := project_init Py name base (fs w) in
          (r, with_fs w fs'));;
  ret project_path.

Record Args := {
  args_name : string;
  args_path : option Path;
  args_with_io : bool;
  args_with_ui : bool;
  args_with_all : bool;
}.

(** The list [extras] that [main] builds from the three switches. *)
Definition extras_of (args : Args) : list string :=
  if args_with_all args then ["all"]
  else
    let extras := [] in
    let extras := if args_with_io args then extras ++ ["io"] else extras in
    let extras := if args_with_ui args then extras ++ ["ui"] else extras in
    extras.

Definition list_truthy {A} (l : list A) : bool :=
  match l with [] => false | _ => true end.

(** [main] has no [try] statement: an exception ends the script. *)
Definition main (E : env) (Py : interpreter) (args : Args) : M unit :=
  let extras := extras_of args in
  installed ← check_flowerpower_installed Py;
  (if negb installed then
     install_flowerpower E Py (if list_truthy extras then Some extras else None)
   else if list_truthy extras then install_flowerpower E Py (Some extras)
   else ret tt);;
  project_path ← init_project E Py (args_name args) (args_path args) true;
  print (Text (nl +:+ "Project initialized: " +:+ str_path project_path));;
  print (Text (nl +:+ "Next steps:"));;
  print (Text ("  cd " +:+ args_name args));;
  print (Text "  flowerpower pipeline new my_pipeline");;
  print (Text "  # Edit pipelines/my_pipeline.py");;
  print (Text "  flowerpower pipeline run my_pipeline").

End InitProject.

(** * Statements

    Definitions that follow the wording of the specification, to be
    compared with the functions above, and the sample surroundings used in
    examples. *)

(** A flag followed by its text, for an argument that is given. *)
Definition flag_group {A} (flag : string) (text : A → string) (x : option A)
  : list string :=
  match x with
  | Some a => [flag; text a]
  | None => []
  end.

(** An argument counts under [test] when it is given and passes it. *)
Definition counted {A} (test : A → bool) (x : option A) : option A :=
  match x with
  | Some a => if test a then Some a else None
  | None => None
  end.

(** The command when every argument that is not [None] gives a flag. *)
Definition command_of_present (name : string) (base_dir : option Path)
    (inputs final_vars : option pyval) (executor : option string)
    (max_workers max_retries : option Z) (retry_delay : option pyfloat)
    (log_level run_config : option string) : list string :=
  ["flowerpower"; "pipeline"; "run"; name]
  ++ flag_group "--base-dir" str_path base_dir
  ++ flag_group "--inputs" json_dumps inputs
  ++ flag_group "--final-vars" json_dumps final_vars
  ++ flag_group "--executor" id executor
  ++ flag_group "--executor-max-workers" str_int max_workers
  ++ flag_group "--max-retries" str_int max_retries
  ++ flag_group "--retry-delay" float_repr retry_delay
  ++ flag_group "--log-level" id log_level
  ++ flag_group "--run-config" id run_config.

(** The command when an argument gives a flag if it is true as a Python
    value, and the two retry arguments if they are not [None]. *)
Definition command_of_counted (name : string) (base_dir : option Path)
    (inputs final_vars : option pyval) (executor : option string)
    (max_workers max_retries : option Z) (retry_delay : option pyfloat)
    (log_level run_config : option string) : list string :=
  command_of_present name base_dir
    (counted truthy inputs) (counted truthy final_vars)
    (counted str_truthy executor) (counted int_truthy max_workers)
    max_retries retry_delay
    (counted str_truthy log_level) (counted str_truthy run_config).

(** One entry of a dictionary for an argument that is given. *)
Definition entry_group {A} (k : string) (value : A → pyval) (x : option A) : pydict :=
  match x with
  | Some a => [(k, value a)]
  | None => []
  end.

(** [{type, max_workers?}] *)
Definition executor_entry (e : string) (max_workers : option Z) : pyval :=
  VDict (("type", VStr e) :: entry_group "max_workers" VInt (counted int_truthy max_workers)).

(** [{max_retries?, retry_delay?}] *)
Definition retry_entry (max_retries : option Z) (retry_delay : option pyfloat) : pyval :=
  VDict (entry_group "max_retries" VInt max_retries
         ++ entry_group "retry_delay" VFloat retry_delay).

Definition option_names : list string :=
  ["inputs"; "final_vars"; "executor"; "retry"; "log_level"].

(** Surroundings in which the external tool and library always succeed and
    leave the file system alone. *)
Definition calm_env : env :=
  {| cwd := ["home"; "user"];
     clock := {| year := 2025; month := 1; day := 2; hour := 3; minute := 4; second := 5 |};
     tool := λ _ _ fs, (Exited 0, fs);
     project_run := λ _ _ _ fs, (Ok "{}", fs);
     pipeline_new := λ _ _ _ fs, (Ok tt, fs) |}.

Definition empty_world : world := {| fs := ∅; stdout := []; calls := [] |}.

Definition project_root : Path := Path_of_string "/tmp/proj".


(** A run request with only a name and, possibly, the two JSON flags. *)
Definition plain_run (name : string) (inputs final_vars : option string)
  : RunPipeline.Args :=
  {| RunPipeline.args_name := name;
     RunPipeline.args_path := None;
     RunPipeline.args_inputs := inputs;
     RunPipeline.args_final_vars := final_vars;
     RunPipeline.args_executor := None;
     RunPipeline.args_max_workers := None;
     RunPipeline.args_max_retries := None;
     RunPipeline.args_retry_delay := None;
     RunPipeline.args_log_level := None;
     RunPipeline.args_run_config := None;
     RunPipeline.args_use_api := false |}.

(** The arguments of the create front end under another name. *)
Definition renamed (args : CreatePipeline.Args) (name : string) : CreatePipeline.Args :=
  {| CreatePipeline.args_name := name;
     CreatePipeline.args_path := CreatePipeline.args_path args;
     CreatePipeline.args_overwrite := CreatePipeline.args_overwrite args;
     CreatePipeline.args_template_only := CreatePipeline.args_template_only args |}.

(** The world after the two lines of the hyphen warning. *)
Definition warned (w : world) (name : string) : world :=
  {| fs := fs w;
     stdout := stdout w
               ++ [Text "Warning: Pipeline names should use underscores, not hyphens";
                   Text ("Using: " +:+ name)];
     calls := calls w |}.

(** The rendered texts of section 4.1. *)
Definition render_module (name date : string) : option string :=
  CreatePipeline.format CreatePipeline.PIPELINE_TEMPLATE [("name", name); ("date", date)].
Definition render_config (name : string) : option string :=
  CreatePipeline.format CreatePipeline.CONFIG_TEMPLATE [("name", name)].

(** Every field of a parsed template is among [keys]. *)
Definition fields_known (keys : list string) (ps : list CreatePipeline.piece) : bool :=
  forallb (λ p, match p with
                | CreatePipeline.Field k => bool_decide (k ∈ keys)
                | CreatePipeline.Lit _ => true
                end) ps.

(** The locations [cur/c1], [cur/c1/c2], ... down to [cur/rest]. *)
Fixpoint chain (cur rest : location) : list location :=
  match rest with
  | [] => []
  | c :: rest' => (cur ++ [c]) :: chain (cur ++ [c]) rest'
  end.

(** The directories on the way from the root to [k], [k] included. *)
Definition directories_to (k : location) : list location := chain [] k.

(** The error of the conflict check for one of the two paths. *)
Definition conflict_error (E : env) (name : string) (project_path : option Path)
    (r : outcome (Path * Path)) : Prop :=
  let base_dir := path_or_cwd E project_path in
  r = Raise (FileExistsError
               (CreatePipeline.module_exists_text
                  (CreatePipeline.module_path_of base_dir name)))
  ∨ r = Raise (FileExistsError
                 (CreatePipeline.config_exists_text
                    (CreatePipeline.config_path_of base_dir name))).

(** A project root in which [pipelines] is a regular file. *)
Definition blocked_world : world :=
  {| fs := <[ ["tmp"; "proj"; "pipelines"] := File "" ]>
             (<[ ["tmp"; "proj"] := Dir ]> (<[ ["tmp"] := Dir ]> ∅));
     stdout := []; calls := [] |}.

(** Ascending order of a listing by pipeline name. *)
Definition name_le (a b : ListPipelines.pipeline_info) : Prop :=
  String.le (ListPipelines.name a) (ListPipelines.name b).

(** What the scan records for the module file [c] of [pipelines_dir]. *)
Definition describes (E : env) (fs : filesystem) (pipelines_dir config_dir : Path)
    (c : string) (info : ListPipelines.pipeline_info) : Prop :=
  let config_file := config_dir </> (ListPipelines.name info +:+ ".yml") in
  ListPipelines.name info = stem_of_name c
  ∧ ListPipelines.module info = str_path (child pipelines_dir c)
  ∧ ListPipelines.has_config info = node_exists fs (locate (cwd E) config_file)
  ∧ ListPipelines.config info
    = (if ListPipelines.has_config info then Some (str_path config_file) else None).

(** The run request without the two arguments that only the external
    tool can be given. *)
Definition without_tool_only (args : RunPipeline.Args) : RunPipeline.Args :=
  {| RunPipeline.args_name := RunPipeline.args_name args;
     RunPipeline.args_path := RunPipeline.args_path args;
     RunPipeline.args_inputs := RunPipeline.args_inputs args;
     RunPipeline.args_final_vars := RunPipeline.args_final_vars args;
     RunPipeline.args_executor := RunPipeline.args_executor args;
     RunPipeline.args_max_workers := None;
     RunPipeline.args_max_retries := RunPipeline.args_max_retries args;
     RunPipeline.args_retry_delay := RunPipeline.args_retry_delay args;
     RunPipeline.args_log_level := RunPipeline.args_log_level args;
     RunPipeline.args_run_config := None;
     RunPipeline.args_use_api := RunPipeline.args_use_api args |}.

(** The command of the run front end for decoded flags. *)
Definition run_command (args : RunPipeline.Args) (inputs final_vars : option pyval)
  : list string :=
  RunPipeline.run_pipeline_cli_cmd (RunPipeline.args_name args)
    (RunPipeline.args_path args) inputs final_vars
    (RunPipeline.executor_text <$> RunPipeline.args_executor args)
    (RunPipeline.args_max_workers args) (RunPipeline.args_max_retries args)
    (RunPipeline.args_retry_delay args)
    (RunPipeline.level_text <$> RunPipeline.args_log_level args)
    (RunPipeline.args_run_config args).

(** The options of the run front end for decoded flags. *)
Definition run_options (args : RunPipeline.Args) (inputs final_vars : option pyval)
  : pydict :=
  RunPipeline.run_pipeline_api_kwargs inputs final_vars
    (RunPipeline.executor_text <$> RunPipeline.args_executor args)
    (RunPipeline.args_max_workers args) (RunPipeline.args_max_retries args)
    (RunPipeline.args_retry_delay args)
    (RunPipeline.level_text <$> RunPipeline.args_log_level args).

(** The directory text that the API strategies hand to the library. *)
Definition base_text (base_dir : option Path) : string :=
  match base_dir with Some b => str_path b | None => "." end.

(** An exception that [except Exception] catches and that is no
    [CalledProcessError]. *)
Definition plain_exception (e : exn) : bool :=
  match e with
  | CalledProcessError _ _ | SystemExit _ => false
  | _ => true
  end.

(** Surroundings in which the external tool ends with status 2. *)
Definition failing_env : env :=
  {| cwd := ["home"; "user"];
     clock := {| year := 2025; month := 1; day := 2; hour := 3; minute := 4; second := 5 |};
     tool := λ _ _ fs, (Exited 2, fs);
     project_run := λ _ _ _ fs, (Raise (ExternalError "no such pipeline"), fs);
     pipeline_new := λ _ _ _ fs, (Raise (ExternalError "no such project"), fs) |}.

(** A run request through the Python API with every option given but an
    executor. *)
Definition api_run : RunPipeline.Args :=
  {| RunPipeline.args_name := "etl";
     RunPipeline.args_path := Some project_root;
     RunPipeline.args_inputs := Some "{}";
     RunPipeline.args_final_vars := Some "[1]";
     RunPipeline.args_executor := None;
     RunPipeline.args_max_workers := Some 4;
     RunPipeline.args_max_retries := Some 0;
     RunPipeline.args_retry_delay := None;
     RunPipeline.args_log_level := Some RunPipeline.DEBUG;
     RunPipeline.args_run_config := Some "prod";
     RunPipeline.args_use_api := true |}.

(** The lines the create front end prints after a successful call. *)
Definition created_report (module_path config_path : Path) (name : string)
  : list printed :=
  [Text (nl +:+ "Pipeline created:");
   Text ("  Module: " +:+ str_path module_path);
   Text ("  Config: " +:+ str_path config_path);
   Text (nl +:+ "Next steps:");
   Text ("  1. Edit " +:+ str_path module_path +:+ " to implement pipeline logic");
   Text ("  2. Configure parameters in " +:+ str_path config_path);
   Text ("  3. Run: flowerpower pipeline run " +:+ name)].

(** The command of [create_pipeline]. *)
Definition create_command (name : string) (overwrite : bool) : list string :=
  ["flowerpower"; "pipeline"; "new"; name] ++ (if overwrite then ["--overwrite"] else []).

(** The world [w] after the lines [lines] have been printed. *)
Definition printing (w : world) (lines : list printed) : world :=
  {| fs := fs w; stdout := stdout w ++ lines; calls := calls w |}.

(** A request to the create front end that works from the templates. *)
Definition template_request (name : string) (overwrite : bool) : CreatePipeline.Args :=
  {| CreatePipeline.args_name := name;
     CreatePipeline.args_path := Some project_root;
     CreatePipeline.args_overwrite := overwrite;
     CreatePipeline.args_template_only := true |}.

(** A project with one pipeline, one private module, one module without
    a configuration, and a regular file under the name [conf.txt]. *)
Definition project_world : world :=
  {| fs := list_to_map
             [(["tmp"], Dir);
              (["tmp"; "proj"], Dir);
              (["tmp"; "proj"; "conf.txt"], File "notes");
              (["tmp"; "proj"; "pipelines"], Dir);
              (["tmp"; "proj"; "pipelines"; "sales.py"], File "# sales");
              (["tmp"; "proj"; "pipelines"; "_helpers.py"], File "# helpers");
              (["tmp"; "proj"; "pipelines"; "draft.py"], File "# draft");
              (["tmp"; "proj"; "pipelines"; "notes.txt"], File "todo");
              (["tmp"; "proj"; "conf"], Dir);
              (["tmp"; "proj"; "conf"; "pipelines"], Dir);
              (["tmp"; "proj"; "conf"; "pipelines"; "sales.yml"], File "run: {}")];
     stdout := []; calls := [] |}.

(** A project root in which [conf] is a regular file. *)
Definition conf_file_world : world :=
  {| fs := <[ ["tmp"; "proj"; "conf"] := File "" ]>
             (<[ ["tmp"; "proj"] := Dir ]> (<[ ["tmp"] := Dir ]> ∅));
     stdout := []; calls := [] |}.

(** Surroundings one year and a few hours later. *)
Definition later_env : env :=
  {| cwd := ["home"; "user"];
     clock := {| year := 2026; month := 11; day := 30; hour := 23; minute := 59;
                 second := 7 |};
     tool := λ _ _ fs, (Exited 0, fs);
     project_run := λ _ _ _ fs, (Ok "{}", fs);
     pipeline_new := λ _ _ _ fs, (Ok tt, fs) |}.



(** The lines the list front end prints for the names [l] the library
    gave. *)
Definition api_lines (f : ListFrontEnd.format_choice) (l : list string) : list printed :=
  match f with
  | ListFrontEnd.json => [Text (json_dumps_indent 0 (VList (VStr <$> l)))]
  | ListFrontEnd.simple => Text <$> l
  | _ =>
      [Text (nl +:+ "Available pipelines:"); Text "------------------------------"]
      ++ ((λ name, Text ("  " +:+ name)) <$> l)
      ++ [Text (nl +:+ "Total: " +:+ str_int (Z.of_nat (length l)) +:+ " pipeline(s)")]
  end.

(** A library that knows two pipelines. *)
Definition two_pipelines : library :=
  {| pipeline_manager_list := λ _ fs, (Ok ["sales"; "stock"], fs) |}.

(** A library that cannot be imported. *)
Definition no_library : library :=
  {| pipeline_manager_list :=
       λ _ fs, (Raise (ExternalError "No module named 'flowerpower'"), fs) |}.


(** The command of [list_pipelines_cli]. *)
Definition list_command (path : option Path) (f : ListFrontEnd.format_choice)
  : list string :=
  ["flowerpower"; "pipeline"; "show-pipelines"]
  ++ flag_group "--base-dir" str_path path
  ++ ["--format"; ListFrontEnd.format_text f].

Definition list_request (f : ListFrontEnd.format_choice) (use_api : bool)
  : ListFrontEnd.Args :=
  {| ListFrontEnd.args_path := None;
     ListFrontEnd.args_format := f;
     ListFrontEnd.args_use_api := use_api;
     ListFrontEnd.args_scan := false |}.

(** The requirement for [pip], read off the three switches. *)
Definition package_of_switches (args : InitProject.Args) : string :=
  if InitProject.args_with_all args then "flowerpower[all]"
  else if InitProject.args_with_io args then
    if InitProject.args_with_ui args then "flowerpower[io,ui]" else "flowerpower[io]"
  else if InitProject.args_with_ui args then "flowerpower[ui]"
  else "flowerpower".

Definition any_switch (args : InitProject.Args) : bool :=
  InitProject.args_with_all args || InitProject.args_with_io args
  || InitProject.args_with_ui args.

(** The command [pip] is started with. *)
Definition pip_command (Py : interpreter) (args : InitProject.Args) : list string :=
  [sys_executable Py; "-m"; "pip"; "install"; package_of_switches args].

(** The command that makes the project. *)
Definition init_command (args : InitProject.Args) : list string :=
  ["flowerpower"; "init"; "--name"; InitProject.args_name args]
  ++ flag_group "--base-dir" str_path (InitProject.args_path args).

(** The lines the init front end prints once the project is made. *)
Definition init_report (E : env) (args : InitProject.Args) : list printed :=
  [Text (nl +:+ "Project initialized: "
         +:+ str_path (path_or_cwd E (InitProject.args_path args)
                       </> InitProject.args_name args));
   Text (nl +:+ "Next steps:");
   Text ("  cd " +:+ InitProject.args_name args);
   Text "  flowerpower pipeline new my_pipeline";
   Text "  # Edit pipelines/my_pipeline.py";
   Text "  flowerpower pipeline run my_pipeline"].

(** The same request with no switch set. *)
Definition without_switches (args : InitProject.Args) : InitProject.Args :=
  {| InitProject.args_name := InitProject.args_name args;
     InitProject.args_path := InitProject.args_path args;
     InitProject.args_with_io := false;
     InitProject.args_with_ui := false;
     InitProject.args_with_all := false |}.

(** The interpreter once [flowerpower] can be imported. *)
Definition installed (Py : interpreter) : interpreter :=
  {| sys_executable := sys_executable Py;
     import_flowerpower := λ _, Imported;
     project_init := project_init Py |}.

(** An interpreter that does not have [flowerpower]. *)
Definition bare_python : interpreter :=
  {| sys_executable := "/usr/bin/python3";
     import_flowerpower := λ _, ImportFailed;
     project_init := λ _ _ fs, (Ok tt, fs) |}.

Definition init_request (with_io with_ui with_all : bool) : InitProject.Args :=
  {| InitProject.args_name := "shop";
     InitProject.args_path := Some project_root;
     InitProject.args_with_io := with_io;
     InitProject.args_with_ui := with_ui;
     InitProject.args_with_all := with_all |}.








(** * Properties of run_pipeline.py *)

Section run_dispatch.

Lemma extend_if_flag_group {A} (x : option A) (test : A → bool) (flag : string)
    (text : A → string) (cmd : list string) :
  RunPipeline.extend_if x test (λ a, [flag; text a]) cmd
  = cmd ++ flag_group flag text (counted test x).
Proof.
  destruct x as [a|]; simpl; [destruct (test a); simpl|]; by rewrite ?app_nil_r.
Qed.

Lemma counted_always {A} (x : option A) : counted RunPipeline.always x = x.
Proof. by destruct x. Qed.

Lemma run_pipeline_cli_cmd_counted name base_dir inputs final_vars executor
    max_workers max_retries retry_delay log_level run_config :
  RunPipeline.run_pipeline_cli_cmd name base_dir inputs final_vars executor
    max_workers max_retries retry_delay log_level run_config
  = command_of_counted name base_dir inputs final_vars executor
      max_workers max_retries retry_delay log_level run_config.
Proof.
  unfold RunPipeline.run_pipeline_cli_cmd, command_of_counted, command_of_present.
  rewrite !(extend_if_flag_group _ _ _ _), !counted_always.
  change (λ e : string, e) with (@id string).
  by rewrite <- !app_assoc.
Qed.

(** C3, as stated, fails: [max_workers=0] is present, yet the command has no
    [--executor-max-workers] flag, while the command built from the
    arguments that are present would end with that flag. *)
Lemma zero_max_workers_gives_no_flag :
  RunPipeline.run_pipeline_cli_cmd "etl" None None None None (Some 0) None None None None
  = ["flowerpower"; "pipeline"; "run"; "etl"]
  ∧ command_of_present "etl" None None None None (Some 0) None None None None
    = ["flowerpower"; "pipeline"; "run"; "etl"; "--executor-max-workers"; "0"]
  ∧ RunPipeline.run_pipeline_cli_cmd "etl" None None None None (Some 0) None None None None
    ≠ command_of_present "etl" None None None None (Some 0) None None None None.
Proof. split; [|split]; [vm_compute; reflexivity ..|]. vm_compute. discriminate. Qed.

(** C3, amended: the command that [run_pipeline_cli] runs is the base
    command followed, in a fixed order, by one flag with its text for each
    argument that counts: [inputs], [final_vars], [executor], [max_workers],
    [log_level] and [run_config] count when they are true as Python values,
    [max_retries] and [retry_delay] when they are not [None]; [inputs] and
    [final_vars] are written with [json.dumps]; an argument that does not
    count gives nothing. With [inputs={"key": "value"}],
    [final_vars=["output_a", "output_b"]] and nothing else, the command is
    the base command, [--inputs] with the JSON text of the mapping and
    [--final-vars] with the JSON text of the list, and no [--executor]. *)
Theorem run_cli_flags_of_counted_arguments :
  (∀ E name base_dir inputs final_vars executor max_workers max_retries retry_delay
     log_level run_config w,
     RunPipeline.run_pipeline_cli_cmd name base_dir inputs final_vars executor
       max_workers max_retries retry_delay log_level run_config
     = command_of_counted name base_dir inputs final_vars executor
         max_workers max_retries retry_delay log_level run_config
     ∧ calls (snd (RunPipeline.run_pipeline_cli E name base_dir inputs final_vars
                     executor max_workers max_retries retry_delay log_level
                     run_config w))
       = calls w ++ [CallTool (command_of_counted name base_dir inputs final_vars
                                 executor max_workers max_retries retry_delay
                                 log_level run_config) None])
  ∧ (∀ name,
       RunPipeline.run_pipeline_cli_cmd name None
         (Some (VDict [("key", VStr "value")]))
         (Some (VList [VStr "output_a"; VStr "output_b"]))
         None None None None None None
       = ["flowerpower"; "pipeline"; "run"; name;
          "--inputs";
          "{" +:+ dq +:+ "key" +:+ dq +:+ ": " +:+ dq +:+ "value" +:+ dq +:+ "}";
          "--final-vars";
          "[" +:+ dq +:+ "output_a" +:+ dq +:+ ", " +:+ dq +:+ "output_b" +:+ dq +:+ "]"]).
Proof.
  split.
  - intros. split; [apply run_pipeline_cli_cmd_counted|].
    unfold RunPipeline.run_pipeline_cli, subprocess_run.
    rewrite run_pipeline_cli_cmd_counted.
    destruct (tool E _ None (fs w)) as [[rc|e] fs'] eqn:Htool; simpl;
      [destruct (rc =? 0)|]; reflexivity.
  - intros name. vm_compute. reflexivity.
Qed.

(** C9: in both strategies an empty mapping for [inputs] and an empty list
    for [final_vars] act as [None] does: the command and the dictionary of
    options are the same as when the argument is left out, and so are the
    two dispatching functions. *)
Theorem empty_inputs_and_final_vars_as_absent :
  ∀ E name base_dir inputs final_vars executor max_workers max_retries retry_delay
    log_level run_config,
    RunPipeline.run_pipeline_cli_cmd name base_dir (Some (VDict [])) final_vars
      executor max_workers max_retries retry_delay log_level run_config
    = RunPipeline.run_pipeline_cli_cmd name base_dir None final_vars
        executor max_workers max_retries retry_delay log_level run_config
    ∧ RunPipeline.run_pipeline_cli_cmd name base_dir inputs (Some (VList []))
        executor max_workers max_retries retry_delay log_level run_config
      = RunPipeline.run_pipeline_cli_cmd name base_dir inputs None
          executor max_workers max_retries retry_delay log_level run_config
    ∧ RunPipeline.run_pipeline_api_kwargs (Some (VDict [])) final_vars executor
        max_workers max_retries retry_delay log_level
      = RunPipeline.run_pipeline_api_kwargs None final_vars executor
          max_workers max_retries retry_delay log_level
    ∧ RunPipeline.run_pipeline_api_kwargs inputs (Some (VList [])) executor
        max_workers max_retries retry_delay log_level
      = RunPipeline.run_pipeline_api_kwargs inputs None executor
          max_workers max_retries retry_delay log_level
    ∧ RunPipeline.run_pipeline_cli E name base_dir (Some (VDict [])) (Some (VList []))
        executor max_workers max_retries retry_delay log_level run_config
      = RunPipeline.run_pipeline_cli E name base_dir None None
          executor max_workers max_retries retry_delay log_level run_config
    ∧ RunPipeline.run_pipeline_api E name base_dir (Some (VDict [])) (Some (VList []))
        executor max_workers max_retries retry_delay log_level
      = RunPipeline.run_pipeline_api E name base_dir None None
          executor max_workers max_retries retry_delay log_level
    ∧ dict_get "inputs"
        (RunPipeline.run_pipeline_api_kwargs (Some (VDict [])) (Some (VList []))
           executor max_workers max_retries retry_delay log_level) = None
    ∧ dict_get "final_vars"
        (RunPipeline.run_pipeline_api_kwargs (Some (VDict [])) (Some (VList []))
           executor max_workers max_retries retry_delay log_level) = None
    ∧ RunPipeline.run_pipeline_cli_cmd name base_dir (Some (VDict [])) (Some (VList []))
        executor max_workers max_retries retry_delay log_level run_config
      = command_of_present name base_dir None None (counted str_truthy executor)
          (counted int_truthy max_workers) max_retries retry_delay
          (counted str_truthy log_level) (counted str_truthy run_config).
Proof.
  intros. repeat split; try reflexivity.
  - unfold RunPipeline.run_pipeline_api_kwargs.
    destruct executor as [e|], max_retries, retry_delay, log_level as [l|]; simpl;
      repeat match goal with
             | |- context [str_truthy ?x] => destruct (str_truthy x); simpl
             end; reflexivity.
  - unfold RunPipeline.run_pipeline_api_kwargs.
    destruct executor as [e|], max_retries, retry_delay, log_level as [l|]; simpl;
      repeat match goal with
             | |- context [str_truthy ?x] => destruct (str_truthy x); simpl
             end; reflexivity.
  - apply run_pipeline_cli_cmd_counted.
Qed.

Lemma dict_get_set {A} (k k' : string) (v : A) (d : list (string * A)) :
  dict_get k (dict_set k' v d)
  = if String.eqb k' k then Some v else dict_get k d.
Proof.
  induction d as [|[k0 v0] d IH]; simpl.
  - reflexivity.
  - destruct (String.eqb k0 k') eqn:Hk0; simpl.
    + apply String.eqb_eq in Hk0 as ->. by destruct (String.eqb k' k).
    + destruct (String.eqb k0 k) eqn:Hk; [|exact IH].
      apply String.eqb_eq in Hk as ->. by rewrite String.eqb_sym, Hk0.
Qed.

Lemma dict_get_set_if {A} (x : option A) test (k k' : string) value (d : pydict) :
  dict_get k (RunPipeline.set_if x test k' value d)
  = if String.eqb k' k
    then match counted test x with
         | Some a => Some (value a)
         | None => dict_get k d
         end
    else dict_get k d.
Proof.
  unfold RunPipeline.set_if, counted. destruct x as [a|]; [destruct (test a)|].
  - apply dict_get_set.
  - by destruct (String.eqb k' k).
  - by destruct (String.eqb k' k).
Qed.

Lemma Forall_dict_set {A} (P : string * A → Prop) k v d :
  P (k, v) → Forall P d → Forall P (dict_set k v d).
Proof.
  intros Hkv. induction 1 as [|[k0 v0] d H0 Hd IH]; simpl.
  - by constructor.
  - destruct (String.eqb k0 k); constructor; auto.
Qed.

Lemma Forall_set_if {A} (P : string * pyval → Prop) (x : option A) test k value d :
  (∀ a, x = Some a → test a = true → P (k, value a)) →
  Forall P d → Forall P (RunPipeline.set_if x test k value d).
Proof.
  intros HP Hd. unfold RunPipeline.set_if.
  destruct x as [a|]; [|done]. destruct (test a) eqn:Ha; [|done].
  apply Forall_dict_set; auto.
Qed.

Lemma executor_text_truthy e : str_truthy (RunPipeline.executor_text e) = true.
Proof. by destruct e. Qed.

Lemma level_text_truthy l : str_truthy (RunPipeline.level_text l) = true.
Proof. by destruct l. Qed.

(** C4: for a run request sent through the Python API (the executor being
    one of the five that the front end admits), the dictionary handed to
    [project.run] has an [executor] entry [{type, max_workers?}] exactly
    when an executor is given, a [retry] entry [{max_retries?, retry_delay?}]
    exactly when [max_retries] or [retry_delay] is given, no entry for an
    argument that is [None], no other keys than the five options, and no
    value that is null or empty. *)
Theorem api_options_structure :
  ∀ E name base_dir inputs final_vars (executor : option RunPipeline.executor_choice)
    max_workers max_retries retry_delay (log_level : option RunPipeline.level_choice) w,
    let kwargs :=
      RunPipeline.run_pipeline_api_kwargs inputs final_vars
        (RunPipeline.executor_text <$> executor) max_workers max_retries retry_delay
        (RunPipeline.level_text <$> log_level) in
    calls (snd (RunPipeline.run_pipeline_api E name base_dir inputs final_vars
                  (RunPipeline.executor_text <$> executor) max_workers max_retries
                  retry_delay (RunPipeline.level_text <$> log_level) w))
    = calls w ++ [CallProjectRun
                    (match base_dir with Some b => str_path b | None => "." end)
                    name kwargs]
    ∧ dict_get "executor" kwargs
      = (λ e, executor_entry (RunPipeline.executor_text e) max_workers) <$> executor
    ∧ dict_get "retry" kwargs
      = (if RunPipeline.is_not_None max_retries || RunPipeline.is_not_None retry_delay
         then Some (retry_entry max_retries retry_delay) else None)
    ∧ (inputs = None → dict_get "inputs" kwargs = None)
    ∧ (final_vars = None → dict_get "final_vars" kwargs = None)
    ∧ (log_level = None → dict_get "log_level" kwargs = None)
    ∧ dict_get "log_level" kwargs = (λ l, VStr (RunPipeline.level_text l)) <$> log_level
    ∧ Forall (λ kv, fst kv ∈ option_names ∧ snd kv ≠ VNone ∧ truthy (snd kv) = true)
        kwargs.
Proof.
  intros. subst kwargs. split; [|split; [|split; [|split; [|split; [|split; [|split]]]]]].
  - unfold RunPipeline.run_pipeline_api.
    by destruct (project_run E _ name _ (fs w)) as [r fs'].
  - unfold RunPipeline.run_pipeline_api_kwargs.
    rewrite dict_get_set_if; simpl String.eqb; cbv iota.
    destruct (RunPipeline.is_not_None max_retries || RunPipeline.is_not_None retry_delay);
      [rewrite dict_get_set; simpl String.eqb; cbv iota|];
      rewrite !dict_get_set_if; simpl String.eqb; cbv iota;
      (destruct executor as [e|]; simpl; [rewrite executor_text_truthy|]; [|done]);
      unfold executor_entry, RunPipeline.set_if, counted;
      (destruct max_workers as [n|]; [destruct (int_truthy n)|]); reflexivity.
  - unfold RunPipeline.run_pipeline_api_kwargs.
    rewrite dict_get_set_if; simpl String.eqb; cbv iota.
    destruct max_retries as [r|], retry_delay as [d|]; simpl;
      rewrite ?dict_get_set; simpl String.eqb; cbv iota;
      rewrite ?dict_get_set_if; simpl String.eqb; cbv iota; reflexivity.
  - intros ->. unfold RunPipeline.run_pipeline_api_kwargs.
    rewrite dict_get_set_if; simpl String.eqb; cbv iota.
    destruct (RunPipeline.is_not_None max_retries || RunPipeline.is_not_None retry_delay);
      [rewrite dict_get_set; simpl String.eqb; cbv iota|];
      rewrite !dict_get_set_if; simpl String.eqb; cbv iota; reflexivity.
  - intros ->. unfold RunPipeline.run_pipeline_api_kwargs.
    rewrite dict_get_set_if; simpl String.eqb; cbv iota.
    destruct (RunPipeline.is_not_None max_retries || RunPipeline.is_not_None retry_delay);
      [rewrite dict_get_set; simpl String.eqb; cbv iota|];
      rewrite !dict_get_set_if; simpl String.eqb; cbv iota; reflexivity.
  - intros ->. unfold RunPipeline.run_pipeline_api_kwargs.
    rewrite dict_get_set_if; simpl String.eqb; cbv iota. simpl counted. cbv iota.
    destruct (RunPipeline.is_not_None max_retries || RunPipeline.is_not_None retry_delay);
      [rewrite dict_get_set; simpl String.eqb; cbv iota|];
      rewrite !dict_get_set_if; simpl String.eqb; cbv iota; reflexivity.
  - unfold RunPipeline.run_pipeline_api_kwargs.
    rewrite dict_get_set_if; simpl String.eqb; cbv iota.
    destruct log_level as [l|]; simpl; [by rewrite level_text_truthy|].
    destruct (RunPipeline.is_not_None max_retries || RunPipeline.is_not_None retry_delay);
      [rewrite dict_get_set; simpl String.eqb; cbv iota|];
      rewrite !dict_get_set_if; simpl String.eqb; cbv iota; reflexivity.
  - unfold RunPipeline.run_pipeline_api_kwargs, option_names.
    apply Forall_set_if.
    { intros l _ Hl. simpl. split; [set_solver|]. split; [done|exact Hl]. }
    assert (Forall (λ kv : string * pyval,
                fst kv ∈ ["inputs"; "final_vars"; "executor"; "retry"; "log_level"]
                ∧ snd kv ≠ VNone ∧ truthy (snd kv) = true)
              (RunPipeline.set_if (RunPipeline.executor_text <$> executor) str_truthy
                 "executor"
                 (λ e, VDict (RunPipeline.set_if max_workers int_truthy "max_workers"
                                VInt [("type", VStr e)]))
                 (RunPipeline.set_if final_vars truthy "final_vars" id
                    (RunPipeline.set_if inputs truthy "inputs" id [])))) as Hbase.
    { apply Forall_set_if.
      { intros e _ _. simpl. split; [set_solver|]. split; [done|].
        unfold RunPipeline.set_if.
        destruct max_workers as [n|]; [destruct (int_truthy n)|]; reflexivity. }
      apply Forall_set_if.
      { intros v _ Hv. simpl. split; [set_solver|]. split; [|exact Hv].
        intros ->. discriminate. }
      apply Forall_set_if; [|constructor].
      intros v _ Hv. simpl. split; [set_solver|]. split; [|exact Hv].
      intros ->. discriminate. }
    destruct (RunPipeline.is_not_None max_retries || RunPipeline.is_not_None retry_delay)
      eqn:Hretry; [|exact Hbase].
    apply Forall_dict_set; [|exact Hbase].
    simpl. split; [set_solver|]. split; [done|].
    destruct max_retries as [r|], retry_delay as [d|]; simpl in *; done.
Qed.

End run_dispatch.

Section run_front_end.






(** C2, as stated, fails for the run front end: the name [my-pipe] goes to
    the tool as it is, and no warning is printed. *)
Lemma run_front_end_keeps_hyphen :
  contains_char "-" "my-pipe" = true
  ∧ calls (snd (RunPipeline.main calm_env (plain_run "my-pipe" None None) empty_world))
    = [CallTool ["flowerpower"; "pipeline"; "run"; "my-pipe"] None]
  ∧ stdout (snd (RunPipeline.main calm_env (plain_run "my-pipe" None None) empty_world))
    = [].
Proof. repeat split; vm_compute; reflexivity. Qed.

End run_front_end.

(** * Properties of create_pipeline.py *)

Section create_front_end.

Lemma replace_char_removes (old new : ascii) (s : string) :
  old ≠ new → contains_char old (replace_char old new s) = false.
Proof.
  intros Hne. induction s as [|a s IH]; simpl; [done|].
  destruct (Ascii.eqb a old) eqn:Ha.
  - destruct (Ascii.eqb new old) eqn:Hn; [|exact IH].
    apply Ascii.eqb_eq in Hn. congruence.
  - by rewrite Ha.
Qed.

(** C2, amended: in the create front end a name with a hyphen is replaced,
    before the [try] statement and hence before either dispatch (the tool
    or the templates; this front end never calls the Python API), by the
    name with every hyphen turned into an underscore. Two lines of warning
    are printed, and from there the run is the run for the new name: the
    hyphen causes no failure. With the tool, the command is
    [flowerpower pipeline new] followed by the new name. [my-pipe] becomes
    [my_pipe]. *)
Theorem create_front_end_replaces_hyphens :
  ∀ E args w,
    contains_char "-" (CreatePipeline.args_name args) = true →
    let name := replace_char "-" "_" (CreatePipeline.args_name args) in
    contains_char "-" name = false
    ∧ CreatePipeline.main E args w
      = CreatePipeline.dispatch E args name (warned w name)
    ∧ CreatePipeline.main E args w
      = CreatePipeline.main E (renamed args name) (warned w name)
    ∧ (CreatePipeline.args_template_only args = false →
       calls (snd (CreatePipeline.main E args w))
       = calls w
         ++ [CallTool
               (["flowerpower"; "pipeline"; "new"; name]
                ++ (if CreatePipeline.args_overwrite args then ["--overwrite"] else []))
               (Some (path_or_cwd E (CreatePipeline.args_path args)))])
    ∧ replace_char "-" "_" "my-pipe" = "my_pipe".
Proof.
  intros E args w Hhyphen name.
  assert (contains_char "-" name = false) as Hclean
    by (apply replace_char_removes; discriminate).
  assert (CreatePipeline.main E args w
          = CreatePipeline.dispatch E args name (warned w name)) as Hmain.
  { unfold CreatePipeline.main, CreatePipeline.validate_name.
    rewrite Hhyphen. unfold mbind, M_bind, bind, print, ret, warned.
    cbn [fs stdout calls]. by rewrite <- app_assoc. }
  split; [exact Hclean|]. split; [exact Hmain|]. split; [|split; [|reflexivity]].
  - rewrite Hmain. unfold CreatePipeline.main, CreatePipeline.validate_name.
    simpl CreatePipeline.args_name. rewrite Hclean. reflexivity.
  - intros Htool. rewrite Hmain.
    unfold CreatePipeline.dispatch, CreatePipeline.create_pipeline.
    rewrite Htool. unfold try_except, mbind, M_bind, bind, subprocess_run.
    destruct (CreatePipeline.args_overwrite args);
      (destruct (tool E _ _ (fs (warned w name))) as [[rc|e] fs'];
       [destruct (rc =? 0)|destruct e]; reflexivity).
Qed.

(** On the name of the specification's example, sent to the tool. *)
Lemma create_front_end_replaces_hyphens_witness :
  let args := {| CreatePipeline.args_name := "my-pipe";
                 CreatePipeline.args_path := Some project_root;
                 CreatePipeline.args_overwrite := false;
                 CreatePipeline.args_template_only := false |} in
  calls (snd (CreatePipeline.main calm_env args empty_world))
  = [CallTool ["flowerpower"; "pipeline"; "new"; "my_pipe"] (Some project_root)].
Proof.
  intros args.
  destruct (create_front_end_replaces_hyphens calm_env args empty_world)
    as (_ & _ & _ & Hcalls & _).
  - vm_compute. reflexivity.
  - rewrite Hcalls; [|reflexivity]. vm_compute. reflexivity.
Defined.

End create_front_end.

Section scaffolder.

Lemma dict_get_known {A} (k : string) (kw : list (string * A)) :
  k ∈ (fst <$> kw) → is_Some (dict_get k kw).
Proof.
  induction kw as [|[k0 v0] kw IH]; simpl.
  - intros H. by apply elem_of_nil in H.
  - intros [->|H]%elem_of_cons.
    + rewrite String.eqb_refl. by eexists.
    + destruct (String.eqb k0 k); [by eexists|auto].
Qed.

Lemma fill_known (kw : list (string * string)) ps :
  fields_known (fst <$> kw) ps = true → is_Some (CreatePipeline.fill kw ps).
Proof.
  induction ps as [|[c|k] ps IH]; simpl.
  - by eexists.
  - intros H. destruct (IH H) as [t ->]. by eexists.
  - intros [Hk H]%andb_prop. apply bool_decide_eq_true in Hk.
    destruct (dict_get_known k kw Hk) as [v ->].
    destruct (IH H) as [t ->]. by eexists.
Qed.

Lemma render_module_total name date : is_Some (render_module name date).
Proof.
  unfold render_module, CreatePipeline.format.
  assert (∃ ps, CreatePipeline.parse_format None CreatePipeline.PIPELINE_TEMPLATE = Some ps
                ∧ fields_known ["name"; "date"] ps = true) as (ps & -> & Hps).
  { vm_compute. eexists. split; reflexivity. }
  simpl. by apply fill_known.
Qed.

Lemma render_config_total name : is_Some (render_config name).
Proof.
  unfold render_config, CreatePipeline.format.
  assert (∃ ps, CreatePipeline.parse_format None CreatePipeline.CONFIG_TEMPLATE = Some ps
                ∧ fields_known ["name"] ps = true) as (ps & -> & Hps).
  { vm_compute. eexists. split; reflexivity. }
  simpl. by apply fill_known.
Qed.

(** What [create_pipeline_from_template] does once the check is passed. *)
Lemma scaffold_after_check E name project_path overwrite w :
  let base_dir := path_or_cwd E project_path in
  let pipelines_dir := base_dir </> "pipelines" in
  let config_dir := base_dir </> "conf" </> "pipelines" in
  let module_path := CreatePipeline.module_path_of base_dir name in
  let config_path := CreatePipeline.config_path_of base_dir name in
  overwrite = true
  ∨ (node_exists (fs w) (locate (cwd E) module_path) = false
     ∧ node_exists (fs w) (locate (cwd E) config_path) = false) →
  ∀ module_content config_content,
    render_module name (CreatePipeline.strftime (clock E)) = Some module_content →
    render_config name = Some config_content →
    CreatePipeline.create_pipeline_from_template E name project_path overwrite w
    = match mkdir_walk pipelines_dir (fs w) [] (locate (cwd E) pipelines_dir) with
      | Raise e => (Raise e, w)
      | Ok fs1 =>
          match mkdir_walk config_dir fs1 [] (locate (cwd E) config_dir) with
          | Raise e => (Raise e, with_fs w fs1)
          | Ok fs2 =>
              match write_file module_path fs2 (locate (cwd E) module_path)
                      module_content with
              | Raise e => (Raise e, with_fs w fs2)
              | Ok fs3 =>
                  match write_file config_path fs3 (locate (cwd E) config_path)
                          config_content with
                  | Raise e => (Raise e, with_fs w fs3)
                  | Ok fs4 => (Ok (module_path, config_path), with_fs w fs4)
                  end
              end
          end
      end.
Proof.
  intros base_dir pipelines_dir config_dir module_path config_path Hcheck mc cc Hmc Hcc.
  unfold CreatePipeline.create_pipeline_from_template.
  fold base_dir. fold pipelines_dir. fold config_dir.
  change (pipelines_dir </> (name +:+ ".py")) with module_path.
  change (config_dir </> (name +:+ ".yml")) with config_path.
  unfold mbind, M_bind, bind, CreatePipeline.format_or_raise, CreatePipeline.datetime_now,
    ret, raise, path_exists, mkdir_parents, write_text.
  unfold render_module in Hmc. unfold render_config in Hcc.
  assert (negb overwrite = false
          ∨ (negb overwrite = true
             ∧ node_exists (fs w) (locate (cwd E) module_path) = false
             ∧ node_exists (fs w) (locate (cwd E) config_path) = false)) as Hcases.
  { destruct Hcheck as [-> | [Hm Hc]]; [by left|]. destruct overwrite; auto. }
  destruct Hcases as [-> | (-> & Hm & Hc)]; cbv beta iota; rewrite ?Hm, ?Hc; cbv beta iota.
  all: cbn [fs with_fs].
  all: destruct (mkdir_walk pipelines_dir (fs w) [] (locate (cwd E) pipelines_dir))
    as [fs1|e1]; [|reflexivity].
  all: cbn [fs with_fs];
    destruct (mkdir_walk config_dir fs1 [] (locate (cwd E) config_dir))
      as [fs2|e2]; [|reflexivity].
  all: rewrite Hmc, Hcc; cbn [fs with_fs];
    destruct (write_file module_path fs2 (locate (cwd E) module_path) mc)
      as [fs3|e3]; [|reflexivity].
  all: cbn [fs with_fs];
    destruct (write_file config_path fs3 (locate (cwd E) config_path) cc)
      as [fs4|e4]; reflexivity.
Qed.

Lemma scaffold_conflict_module E name project_path w :
  let base_dir := path_or_cwd E project_path in
  let module_path := CreatePipeline.module_path_of base_dir name in
  node_exists (fs w) (locate (cwd E) module_path) = true →
  CreatePipeline.create_pipeline_from_template E name project_path false w
  = (Raise (FileExistsError (CreatePipeline.module_exists_text module_path)), w).
Proof.
  intros base_dir module_path Hm.
  unfold CreatePipeline.create_pipeline_from_template, mbind, M_bind, bind, path_exists.
  fold base_dir. change (base_dir </> "pipelines" </> (name +:+ ".py")) with module_path.
  change (negb false) with true. cbv beta iota. rewrite Hm. reflexivity.
Qed.

Lemma scaffold_conflict_config E name project_path w :
  let base_dir := path_or_cwd E project_path in
  let module_path := CreatePipeline.module_path_of base_dir name in
  let config_path := CreatePipeline.config_path_of base_dir name in
  node_exists (fs w) (locate (cwd E) module_path) = false →
  node_exists (fs w) (locate (cwd E) config_path) = true →
  CreatePipeline.create_pipeline_from_template E name project_path false w
  = (Raise (FileExistsError (CreatePipeline.config_exists_text config_path)), w).
Proof.
  intros base_dir module_path config_path Hm Hc.
  unfold CreatePipeline.create_pipeline_from_template, mbind, M_bind, bind, path_exists.
  fold base_dir. change (base_dir </> "pipelines" </> (name +:+ ".py")) with module_path.
  change (base_dir </> "conf" </> "pipelines" </> (name +:+ ".yml")) with config_path.
  change (negb false) with true. cbv beta iota. rewrite Hm. unfold ret at 1.
  cbv beta iota. rewrite Hc.
  reflexivity.
Qed.

Lemma write_file_ok p fs k content fs' :
  write_file p fs k content = Ok fs' → fs' = <[k := File content]> fs.
Proof.
  unfold write_file. destruct (lookup_node fs (parent k)) as [[?|]|]; [done| |done].
  destruct (lookup_node fs k) as [[?|]|]; congruence.
Qed.

Lemma node_exists_insert (fs : filesystem) (k k' : location) n :
  node_exists fs k = true ∨ k = k' → node_exists (<[k' := n]> fs) k = true.
Proof.
  unfold node_exists, lookup_node. destruct k as [|c k]; [done|].
  destruct (decide (c :: k = k')) as [<-|Hne].
  - by rewrite lookup_insert_eq.
  - rewrite lookup_insert_ne by done. intros [H|H]; [exact H|done].
Qed.

(** After a successful call both paths exist. *)
Lemma scaffold_success_leaves_paths E name project_path overwrite w paths w1 :
  let base_dir := path_or_cwd E project_path in
  CreatePipeline.create_pipeline_from_template E name project_path overwrite w
  = (Ok paths, w1) →
  node_exists (fs w1) (locate (cwd E) (CreatePipeline.module_path_of base_dir name)) = true
  ∧ node_exists (fs w1) (locate (cwd E) (CreatePipeline.config_path_of base_dir name))
    = true.
Proof.
  intros base_dir Hcall.
  destruct (render_module_total name (CreatePipeline.strftime (clock E))) as [mc Hmc].
  destruct (render_config_total name) as [cc Hcc].
  assert (overwrite = true
          ∨ (node_exists (fs w) (locate (cwd E) (CreatePipeline.module_path_of base_dir name))
             = false
             ∧ node_exists (fs w)
                 (locate (cwd E) (CreatePipeline.config_path_of base_dir name)) = false))
    as Hcheck.
  { destruct overwrite; [by left|right].
    destruct (node_exists (fs w)
                (locate (cwd E) (CreatePipeline.module_path_of base_dir name))) eqn:Hm.
    { rewrite scaffold_conflict_module in Hcall by exact Hm. discriminate. }
    destruct (node_exists (fs w)
                (locate (cwd E) (CreatePipeline.config_path_of base_dir name))) eqn:Hc.
    { rewrite scaffold_conflict_config in Hcall by done. discriminate. }
    done. }
  rewrite (scaffold_after_check E name project_path overwrite w Hcheck mc cc Hmc Hcc)
    in Hcall.
  destruct (mkdir_walk _ (fs w) [] _) as [fs1|]; [|discriminate].
  destruct (mkdir_walk _ fs1 [] _) as [fs2|]; [|discriminate].
  destruct (write_file _ fs2 _ mc) as [fs3|] eqn:H3; [|discriminate].
  destruct (write_file _ fs3 _ cc) as [fs4|] eqn:H4; [|discriminate].
  injection Hcall as _ <-. simpl.
  apply write_file_ok in H3 as ->. apply write_file_ok in H4 as ->.
  split; apply node_exists_insert; [left; apply node_exists_insert|]; by right.
Qed.

(** C5: with [overwrite=False], when the module path or the config path
    exists the call raises the [FileExistsError] of the check, whose text
    ends with the path found (the module path when both exist), and changes
    nothing; in particular a call made in the world that a successful call
    has left raises it for the module path. *)
Theorem scaffold_refuses_existing_paths :
  ∀ E name project_path,
    let base_dir := path_or_cwd E project_path in
    let module_path := CreatePipeline.module_path_of base_dir name in
    let config_path := CreatePipeline.config_path_of base_dir name in
    (∀ w,
       node_exists (fs w) (locate (cwd E) module_path) = true
       ∨ node_exists (fs w) (locate (cwd E) config_path) = true →
       CreatePipeline.create_pipeline_from_template E name project_path false w
       = (Raise (FileExistsError
                   (if node_exists (fs w) (locate (cwd E) module_path)
                    then "Pipeline module already exists: " +:+ str_path module_path
                    else "Pipeline config already exists: " +:+ str_path config_path)),
          w))
    ∧ (∀ overwrite w paths w1,
         CreatePipeline.create_pipeline_from_template E name project_path overwrite w
         = (Ok paths, w1) →
         CreatePipeline.create_pipeline_from_template E name project_path false w1
         = (Raise (FileExistsError
                     ("Pipeline module already exists: " +:+ str_path module_path)),
            w1)).
Proof.
  intros E name project_path base_dir module_path config_path. split.
  - intros w Hexists.
    destruct (node_exists (fs w) (locate (cwd E) module_path)) eqn:Hm.
    + by apply scaffold_conflict_module.
    + destruct Hexists as [?|Hc]; [done|]. by apply scaffold_conflict_config.
  - intros overwrite w paths w1 Hcall.
    apply scaffold_success_leaves_paths in Hcall as [Hm _].
    by apply scaffold_conflict_module.
Qed.

(** The example of the specification, called twice on an empty disk. *)
Lemma scaffold_refuses_existing_paths_witness :
  ∃ paths w1,
    CreatePipeline.create_pipeline_from_template calm_env "etl_process"
      (Some project_root) false empty_world = (Ok paths, w1)
    ∧ CreatePipeline.create_pipeline_from_template calm_env "etl_process"
        (Some project_root) false w1
      = (Raise (FileExistsError
                  "Pipeline module already exists: /tmp/proj/pipelines/etl_process.py"),
         w1)
    ∧ node_exists (fs w1) ["tmp"; "proj"; "conf"; "pipelines"; "etl_process.yml"] = true.
Proof.
  destruct (CreatePipeline.create_pipeline_from_template calm_env "etl_process"
              (Some project_root) false empty_world) as [[paths|e] w1] eqn:Hfirst.
  - exists paths, w1. split; [reflexivity|].
    destruct (scaffold_refuses_existing_paths calm_env "etl_process" (Some project_root))
      as [Hcheck Htwice].
    split.
    + exact (Htwice false empty_world paths w1 Hfirst).
    + assert (node_exists (fs w1) ["tmp"; "proj"; "conf"; "pipelines"; "etl_process.yml"]
              = true) as Hc.
      { apply (f_equal snd) in Hfirst. simpl in Hfirst. rewrite <- Hfirst.
        vm_compute. reflexivity. }
      exact Hc.
  - exfalso. apply (f_equal fst) in Hfirst. vm_compute in Hfirst. discriminate.
Defined.

(** C8: with [overwrite=False], when the call ends with the error of the
    conflict check (for the module path or for the config path), the world
    is the one it started in: no directory was made and no file written. *)
Theorem scaffold_conflict_changes_nothing :
  ∀ E name project_path w r w',
    CreatePipeline.create_pipeline_from_template E name project_path false w = (r, w') →
    conflict_error E name project_path r →
    w' = w.
Proof.
  intros E name project_path w r w' Hcall Hconflict.
  set (base_dir := path_or_cwd E project_path) in *.
  destruct (node_exists (fs w)
              (locate (cwd E) (CreatePipeline.module_path_of base_dir name))) eqn:Hm.
  { rewrite scaffold_conflict_module in Hcall by exact Hm. congruence. }
  destruct (node_exists (fs w)
              (locate (cwd E) (CreatePipeline.config_path_of base_dir name))) eqn:Hc.
  { rewrite scaffold_conflict_config in Hcall by done. congruence. }
  exfalso.
  destruct (render_module_total name (CreatePipeline.strftime (clock E))) as [mc Hmc].
  destruct (render_config_total name) as [cc Hcc].
  rewrite (scaffold_after_check E name project_path false w
             (or_intror (conj Hm Hc)) mc cc Hmc Hcc) in Hcall.
  assert (∀ p fs0 cur rest e,
            mkdir_walk p fs0 cur rest = Raise e →
            ∀ t, e ≠ FileExistsError (String "P" t)) as Hmk.
  { intros p fs0 cur rest. revert fs0 cur.
    induction rest as [|c rest IH]; intros fs0 cur e; simpl; [done|].
    destruct (lookup_node fs0 (cur ++ [c])) as [[?|]|]; eauto.
    destruct rest; intros [= <-] t; discriminate. }
  assert (∀ p fs0 k c e,
            write_file p fs0 k c = Raise e → ∀ t, e ≠ FileExistsError t) as Hwr.
  { intros p fs0 k c e. unfold write_file.
    destruct (lookup_node fs0 (parent k)) as [[?|]|];
      [|destruct (lookup_node fs0 k) as [[?|]|]|]; intros [= <-] t; discriminate. }
  assert (∀ t, r ≠ Raise (FileExistsError (String "P" t))) as Hr.
  { intros t ->.
    destruct (mkdir_walk _ (fs w) [] _) as [fs1|e1] eqn:H1.
    2: { injection Hcall as -> _. by eapply Hmk. }
    destruct (mkdir_walk _ fs1 [] _) as [fs2|e2] eqn:H2.
    2: { injection Hcall as -> _. by eapply Hmk. }
    destruct (write_file _ fs2 _ mc) as [fs3|e3] eqn:H3.
    2: { injection Hcall as -> _. by eapply Hwr. }
    destruct (write_file _ fs3 _ cc) as [fs4|e4] eqn:H4.
    2: { injection Hcall as -> _. by eapply Hwr. }
    discriminate. }
  destruct Hconflict as [-> | ->]; eapply Hr; reflexivity.
Qed.

(** In the world left by a first call for the same name. *)
Lemma scaffold_conflict_changes_nothing_witness :
  snd (CreatePipeline.create_pipeline_from_template calm_env "etl_process"
         (Some project_root) false
         (snd (CreatePipeline.create_pipeline_from_template calm_env "etl_process"
                 (Some project_root) false empty_world)))
  = snd (CreatePipeline.create_pipeline_from_template calm_env "etl_process"
           (Some project_root) false empty_world).
Proof.
  set (w1 := snd (CreatePipeline.create_pipeline_from_template calm_env "etl_process"
                    (Some project_root) false empty_world)).
  destruct (CreatePipeline.create_pipeline_from_template calm_env "etl_process"
              (Some project_root) false w1) as [r w'] eqn:Hsecond.
  simpl.
  apply (scaffold_conflict_changes_nothing calm_env "etl_process" (Some project_root)
           w1 r w' Hsecond).
  left. apply (f_equal fst) in Hsecond. simpl in Hsecond. rewrite <- Hsecond.
  vm_compute. reflexivity.
Defined.

End scaffolder.

Section directories_and_files.

Lemma lookup_node_insert (fs : filesystem) (k k' : location) n :
  k' ≠ [] →
  lookup_node (<[k' := n]> fs) k = if decide (k = k') then Some n else lookup_node fs k.
Proof.
  intros Hne. unfold lookup_node. destruct k as [|c k].
  - by rewrite decide_False.
  - destruct (decide (c :: k = k')) as [<-|Hk].
    + by rewrite lookup_insert_eq.
    + by rewrite lookup_insert_ne.
Qed.



Lemma chain_last cur rest : rest ≠ [] → cur ++ rest ∈ chain cur rest.
Proof.
  revert cur. induction rest as [|c rest IH]; intros cur Hne; [done|]. simpl.
  destruct rest as [|c' rest].
  - apply elem_of_cons. by left.
  - apply elem_of_cons. right.
    replace (cur ++ c :: c' :: rest) with ((cur ++ [c]) ++ c' :: rest)
      by (by rewrite <- app_assoc).
    by apply IH.
Qed.

Lemma split_go_plain sep cur s :
  contains_char sep s = false → split_go sep cur s = [String.rev_app cur s].
Proof.
  revert cur. induction s as [|a s IH]; intros cur; simpl; [done|].
  destruct (Ascii.eqb a sep); [done|]. intros H. by rewrite IH.
Qed.

Lemma contains_char_app c s t :
  contains_char c (s +:+ t) = contains_char c s || contains_char c t.
Proof.
  induction s as [|a s IH]; simpl; [done|]. by destruct (Ascii.eqb a c).
Qed.

Lemma string_length_app s t :
  String.length (s +:+ t) = (String.length s + String.length t)%nat.
Proof. induction s as [|a s IH]; simpl; [done|]. by rewrite IH. Qed.

(** A name without a slash, followed by an extension, is one component. *)
Lemma Path_of_plain_name name ext :
  contains_char "/" name = false →
  contains_char "/" ext = false →
  (2 ≤ String.length ext)%nat →
  startswith ext "/" = false →
  Path_of_string (name +:+ ext) = {| is_abs := false; parts := [name +:+ ext] |}.
Proof.
  intros Hname Hext Hlen Hstart. unfold Path_of_string. f_equal.
  - destruct name as [|a name]; [exact Hstart|].
    change (contains_char "/" (String a name))
      with (if Ascii.eqb a "/" then true else contains_char "/" name) in Hname.
    change (startswith (String a name +:+ ext) "/")
      with (if ascii_dec "/" a then String.prefix "" (name +:+ ext) else false).
    destruct (ascii_dec "/" a) as [<-|]; [|done]. by rewrite Ascii.eqb_refl in Hname.
  - unfold split_char. rewrite split_go_plain.
    2: { rewrite contains_char_app, Hname, Hext. done. }
    simpl. unfold proper_part.
    assert (name +:+ ext ≠ "" ∧ name +:+ ext ≠ ".") as [H1 H2].
    { split; intros Heq; apply (f_equal String.length) in Heq;
        rewrite string_length_app in Heq; simpl in Heq; lia. }
    apply String.eqb_neq in H1, H2. by rewrite H1, H2.
Qed.

Lemma locate_joinpath_part cwd0 (p : Path) (c : string) :
  Path_of_string c = {| is_abs := false; parts := [c] |} →
  locate cwd0 (p </> c) = locate cwd0 p ++ [c].
Proof.
  intros Hc. unfold joinpath. rewrite Hc. unfold locate. simpl.
  destruct (is_abs p); [done|]. by rewrite app_assoc.
Qed.




















End directories_and_files.

(** * Properties of list_pipelines.py *)

Section listing.

Context {A : Type} (key : A → string).

Let key_le (a b : A) : Prop := String.le (key a) (key b).

Lemma insert_sorted_perm x l : ListPipelines.insert_sorted key x l ≡ₚ x :: l.
Proof.
  induction l as [|y l IH]; simpl; [done|].
  destruct (String.leb (key x) (key y)); [done|].
  rewrite IH. apply Permutation_swap.
Qed.

Lemma sorted_perm l : ListPipelines.sorted key l ≡ₚ l.
Proof.
  induction l as [|x l IH]; simpl; [done|].
  by rewrite insert_sorted_perm, IH.
Qed.

Lemma insert_sorted_sorted x l :
  StronglySorted key_le l → StronglySorted key_le (ListPipelines.insert_sorted key x l).
Proof.
  induction 1 as [|y l Hl IH Hy]; simpl.
  - repeat constructor.
  - destruct (String.leb (key x) (key y)) eqn:Hxy.
    + constructor; [by constructor|]. constructor.
      * unfold key_le, String.le. by rewrite Hxy.
      * eapply Forall_impl; [exact Hy|]. intros z Hyz. unfold key_le in *.
        etrans; [|exact Hyz]. unfold String.le. by rewrite Hxy.
    + constructor; [exact IH|].
      rewrite insert_sorted_perm. constructor; [|exact Hy].
      unfold key_le. destruct (total String.le (key x) (key y)) as [H|H]; [|exact H].
      unfold String.le in H. by rewrite Hxy in H.
Qed.

Lemma sorted_sorted l : StronglySorted key_le (ListPipelines.sorted key l).
Proof.
  induction l as [|x l IH]; simpl; [constructor|]. by apply insert_sorted_sorted.
Qed.

End listing.

Section listing_scan.

Lemma entry_name_spec d k c : entry_name d k = Some c ↔ k = d ++ [c].
Proof.
  unfold entry_name. split.
  - destruct (List.last (Some <$> k) None) as [c'|]; [|done].
    case_bool_decide; [|done]. by intros [= <-].
  - intros ->. rewrite fmap_app. simpl. rewrite last_last.
    by rewrite bool_decide_eq_true_2.
Qed.

Lemma scandir_spec (fs : filesystem) d c :
  c ∈ scandir fs d ↔ is_Some (fs !! (d ++ [c])).
Proof.
  unfold scandir. rewrite list_elem_of_omap. split.
  - intros ([k n] & Hkn & Hname). simpl in Hname.
    apply entry_name_spec in Hname as ->.
    apply elem_of_map_to_list in Hkn. by eexists.
  - intros [n Hn]. exists (d ++ [c], n). split.
    + by apply elem_of_map_to_list.
    + by apply entry_name_spec.
Qed.

Lemma path_name_child d c : path_name (child d c) = c.
Proof. unfold path_name, child. simpl. apply last_last. Qed.

Lemma loop_body_elem E fs config_dir files :
  ∀ acc info,
    info ∈ foldl (ListPipelines.loop_body E fs config_dir) acc files →
    info ∈ acc
    ∨ ∃ f, f ∈ files
           ∧ startswith (path_name f) "_" = false
           ∧ ListPipelines.loop_body E fs config_dir [] f = [info].
Proof.
  induction files as [|f files IH]; intros acc info; simpl.
  - by left.
  - intros [Hacc | (f' & Hf' & Hrest)]%IH.
    + unfold ListPipelines.loop_body in Hacc.
      destruct (startswith (path_name f) "_") eqn:Hpriv; [by left|].
      apply elem_of_app in Hacc as [Hacc | Hnew]; [by left|].
      right. exists f. split; [apply elem_of_cons; by left|]. split; [done|].
      apply list_elem_of_singleton in Hnew as ->.
      unfold ListPipelines.loop_body. by rewrite Hpriv.
    + right. exists f'. split; [apply elem_of_cons; by right|done].
Qed.

(** C7: every entry of the scan comes from an entry of [pipelines] whose
    name ends in [.py] and does not begin with an underscore; its name is
    the stem of that file name, and [has_config] is true exactly when
    [conf/pipelines/{name}.yml] exists ([config] holding that path then,
    and [None] otherwise). *)
Theorem listing_skips_private_and_marks_config :
  ∀ E base_dir (fs : filesystem),
    let project_dir := path_or_cwd E base_dir in
    let pipelines_dir := project_dir </> "pipelines" in
    let config_dir := project_dir </> "conf" </> "pipelines" in
    Forall (λ info,
              ∃ c, is_Some (fs !! (locate (cwd E) pipelines_dir ++ [c]))
                   ∧ endswith c ".py" = true
                   ∧ startswith c "_" = false
                   ∧ describes E fs pipelines_dir config_dir c info
                   ∧ (ListPipelines.has_config info = true
                      ↔ node_exists fs
                          (locate (cwd E)
                             (config_dir </> (ListPipelines.name info +:+ ".yml")))
                        = true))
      (ListPipelines.list_pipelines_filesystem E base_dir fs).
Proof.
  intros E base_dir fs project_dir pipelines_dir config_dir.
  unfold ListPipelines.list_pipelines_filesystem.
  fold project_dir. fold pipelines_dir. fold config_dir.
  destruct (negb (node_exists fs (locate (cwd E) pipelines_dir))); [constructor|].
  apply Forall_forall. intros info Hinfo.
  rewrite sorted_perm in Hinfo.
  apply loop_body_elem in Hinfo as [Hnil | (f & Hf & Hpriv & Hbody)];
    [by apply elem_of_nil in Hnil|].
  unfold ListPipelines.glob_py in Hf.
  destruct (node_is_dir fs (locate (cwd E) pipelines_dir)); [|by apply elem_of_nil in Hf].
  apply list_elem_of_fmap in Hf as (c & -> & Hc).
  apply list_elem_of_In, filter_In in Hc as [Hc Hpy].
  apply list_elem_of_In, scandir_spec in Hc.
  rewrite path_name_child in Hpriv.
  unfold ListPipelines.loop_body in Hbody. rewrite path_name_child, Hpriv in Hbody.
  simpl in Hbody. injection Hbody as <-.
  exists c. unfold describes, path_stem. rewrite path_name_child. simpl.
  repeat split; auto.
Qed.

(** C10: the scan returns its entries in ascending order of their names,
    and the empty list when [pipelines] does not exist under the root. *)
Theorem listing_sorted_and_empty_without_directory :
  ∀ E base_dir (fs : filesystem),
    StronglySorted name_le (ListPipelines.list_pipelines_filesystem E base_dir fs)
    ∧ (node_exists fs (locate (cwd E) (path_or_cwd E base_dir </> "pipelines")) = false →
       ListPipelines.list_pipelines_filesystem E base_dir fs = []).
Proof.
  intros E base_dir fs. unfold ListPipelines.list_pipelines_filesystem. split.
  - destruct (negb (node_exists fs _)); [constructor|].
    apply (sorted_sorted ListPipelines.name).
  - by intros ->.
Qed.

(** On an empty disk. *)
Lemma listing_sorted_and_empty_without_directory_witness :
  ListPipelines.list_pipelines_filesystem calm_env (Some project_root) ∅ = [].
Proof.
  apply (listing_sorted_and_empty_without_directory calm_env (Some project_root) ∅).
  vm_compute. reflexivity.
Defined.

End listing_scan.

(** * The fuel of the JSON decoder

    [json_decode] gives [scan_once] twice the length of the text plus two
    as fuel. Every round of the scanner reads at least one character, so
    the fuel never runs out: [json_loads s = None] means that [s] is
    malformed. *)

Section decoder_fuel.

Lemma skip_ws_length s : (String.length (skip_ws s) ≤ String.length s)%nat.
Proof.
  induction s as [|a s IH]; simpl; [lia|]. destruct (is_ws a); simpl; lia.
Qed.

Lemma strip_prefix_length p s r :
  strip_prefix p s = Some r →
  String.length s = (String.length p + String.length r)%nat.
Proof.
  revert s. induction p as [|a p IH]; intros s; simpl.
  - by intros [= ->].
  - destruct s as [|b s]; [done|]. destruct (Ascii.eqb a b); [|done].
    intros H. simpl. by rewrite (IH _ H).
Qed.

Lemma span_digits_length s d r :
  span_digits s = (d, r) →
  String.length s = (String.length d + String.length r)%nat.
Proof.
  revert d r. induction s as [|a s IH]; intros d r; simpl.
  - by intros [= <- <-].
  - destruct (is_digit a).
    + destruct (span_digits s) as [d' r'] eqn:Hs. intros [= <- <-].
      simpl. by rewrite (IH d' r').
    + by intros [= <- <-].
Qed.

Lemma scan_frac_length s fp r :
  scan_frac s = (fp, r) → (String.length r ≤ String.length s)%nat.
Proof.
  unfold scan_frac. destruct s as [|a s]; [by intros [= <- <-]|].
  destruct (Ascii.eqb a "."); [|by intros [= <- <-]].
  destruct (span_digits s) as [d r'] eqn:Hs. apply span_digits_length in Hs.
  destruct d; intros [= <- <-]; simpl in *; lia.
Qed.

Lemma scan_exp_length s ep r :
  scan_exp s = (ep, r) → (String.length r ≤ String.length s)%nat.
Proof.
  unfold scan_exp. destruct s as [|e s]; [by intros [= <- <-]|].
  destruct (Ascii.eqb e "e" || Ascii.eqb e "E"); [|by intros [= <- <-]].
  destruct s as [|sg s]; [by intros [= <- <-]|].
  destruct (Ascii.eqb sg "+" || Ascii.eqb sg "-").
  - destruct (span_digits s) as [d r'] eqn:Hs. apply span_digits_length in Hs.
    destruct d; intros [= <- <-]; simpl in *; lia.
  - destruct (span_digits (String sg s)) as [d r'] eqn:Hs.
    apply span_digits_length in Hs.
    destruct d; intros [= <- <-]; simpl in *; lia.
Qed.

Lemma scan_int_part_length s ip r :
  scan_int_part s = Some (ip, r) → (String.length r < String.length s)%nat.
Proof.
  unfold scan_int_part. destruct s as [|a s]; [done|].
  destruct (Ascii.eqb a "0"); [intros [= <- <-]; simpl; lia|].
  destruct (is_digit a); [|done].
  destruct (span_digits s) as [d r'] eqn:Hs. apply span_digits_length in Hs.
  intros [= <- <-]. simpl. lia.
Qed.

Lemma scan_number_shorter s v r :
  scan_number s = Some (v, r) → (String.length r < String.length s)%nat.
Proof.
  unfold scan_number.
  destruct (strip_prefix "-" s) as [s'|] eqn:Hsign.
  - apply strip_prefix_length in Hsign.
    destruct (scan_int_part s') as [[ip r1]|] eqn:Hip; [|done].
    apply scan_int_part_length in Hip.
    destruct (scan_frac r1) as [fp r2] eqn:Hfp. apply scan_frac_length in Hfp.
    destruct (scan_exp r2) as [ep r3] eqn:Hep. apply scan_exp_length in Hep.
    destruct (String.eqb fp "" && String.eqb ep ""); intros [= <- <-]; simpl in *; lia.
  - destruct (scan_int_part s) as [[ip r1]|] eqn:Hip; [|done].
    apply scan_int_part_length in Hip.
    destruct (scan_frac r1) as [fp r2] eqn:Hfp. apply scan_frac_length in Hfp.
    destruct (scan_exp r2) as [ep r3] eqn:Hep. apply scan_exp_length in Hep.
    destruct (String.eqb fp "" && String.eqb ep ""); intros [= <- <-]; lia.
Qed.

Lemma scan_atom_shorter s v r :
  scan_atom s = Some (v, r) → (String.length r < String.length s)%nat.
Proof.
  unfold scan_atom, scan_constant, scan_nonfinite.
  repeat match goal with
         | |- context [strip_prefix ?p s] =>
             let H := fresh in
             destruct (strip_prefix p s) eqn:H;
             [apply strip_prefix_length in H; intros [= <- <-]; simpl in *; lia|]
         | |- context [scan_number s] =>
             let H := fresh in
             destruct (scan_number s) as [[? ?]|] eqn:H;
             [apply scan_number_shorter in H; intros [= <- <-]; lia|]
         end.
  done.
Qed.

Lemma scanstring_shorter_bounded n :
  ∀ s body rest,
    (String.length s ≤ n)%nat →
    scanstring s = Some (body, rest) →
    (String.length rest < String.length s)%nat.
Proof.
  induction n as [|n IH]; intros s body rest Hlen Hscan.
  - destruct s; [done|simpl in Hlen; lia].
  - destruct s as [|a r]; [done|].
    simpl in Hscan. simpl in Hlen.
    repeat case_match; simplify_eq;
      repeat match goal with
             | H : scanstring ?x = Some _ |- _ =>
                 apply IH in H; [|simpl in *; lia]
             end;
      simpl in *; lia.
Qed.

Lemma scanstring_shorter s body rest :
  scanstring s = Some (body, rest) → (String.length rest < String.length s)%nat.
Proof. by apply (scanstring_shorter_bounded (String.length s)). Qed.

Local Arguments strip_prefix : simpl never.
Local Arguments scan_atom : simpl never.
Local Arguments scanstring : simpl never.
Local Arguments skip_ws : simpl never.

Ltac lens :=
  repeat match goal with
         | H : scanstring _ = Some _ |- _ => apply scanstring_shorter in H
         | H : strip_prefix _ _ = Some _ |- _ => apply strip_prefix_length in H
         | H : scan_atom _ = Some _ |- _ => apply scan_atom_shorter in H
         end.

(** With more fuel than twice the length of the text, each of the three
    scanners ends without running out, and what it leaves is shorter. *)
Lemma scan_fuel fuel :
  (∀ s, (2 * String.length s < fuel)%nat →
        scan_once fuel s ≠ Exhausted
        ∧ ∀ v r, scan_once fuel s = Scanned v r → (String.length r < String.length s)%nat)
  ∧ (∀ acc s, (2 * String.length s + 1 < fuel)%nat →
        scan_array fuel acc s ≠ Exhausted
        ∧ ∀ v r, scan_array fuel acc s = Scanned v r
                 → (String.length r < String.length s)%nat)
  ∧ (∀ acc s, (2 * String.length s + 1 < fuel)%nat →
        scan_object fuel acc s ≠ Exhausted
        ∧ ∀ v r, scan_object fuel acc s = Scanned v r
                 → (String.length r < String.length s)%nat).
Proof.
  induction fuel as [|f (IH1 & IH2 & IH3)].
  { repeat split; intros; lia. }
  split; [|split].
  - intros s Hs. destruct s as [|a r]; [by split|].
    simpl in Hs. simpl.
    pose proof (skip_ws_length r) as Hws.
    destruct (Ascii.eqb a dquote).
    { destruct (scanstring r) as [[str rest]|] eqn:H; split; try done.
      intros v r0 [= <- <-]. lens. simpl. lia. }
    destruct (Ascii.eqb a "{").
    { destruct (skip_ws r) as [|c r'] eqn:Hr; [by split|].
      destruct (Ascii.eqb c "}").
      { split; [done|]. intros v r0 [= <- <-]. simpl in *. lia. }
      destruct (Ascii.eqb c dquote); [|by split].
      destruct (IH3 [] r') as [Hne Hlen]; [simpl in *; lia|].
      split; [done|]. intros v r0 H0. apply Hlen in H0. simpl in *. lia. }
    destruct (Ascii.eqb a "[").
    { destruct (strip_prefix "]" (skip_ws r)) as [r'|] eqn:Hr.
      { split; [done|]. intros v r0 [= <- <-]. lens. simpl in *. lia. }
      destruct (IH2 [] (skip_ws r)) as [Hne Hlen]; [lia|].
      split; [done|]. intros v r0 H0. apply Hlen in H0. simpl. lia. }
    destruct (scan_atom (String a r)) as [[v0 rest]|] eqn:Hatom; [|by split].
    split; [done|]. intros v r0 [= <- <-]. lens. exact Hatom.
  - intros acc s Hs. simpl.
    destruct (IH1 s) as [Hne Hlen]; [lia|].
    destruct (scan_once f s) as [v r| |] eqn:Hv; [|by split|done].
    specialize (Hlen v r eq_refl).
    pose proof (skip_ws_length r) as Hws.
    destruct (skip_ws r) as [|c r1] eqn:Hr; [by split|].
    destruct (Ascii.eqb c "]").
    { split; [done|]. intros v1 r0 [= <- <-]. simpl in *. lia. }
    destruct (Ascii.eqb c ","); [|by split].
    pose proof (skip_ws_length r1) as Hws1.
    destruct (IH2 (v :: acc) (skip_ws r1)) as [Hne2 Hlen2]; [simpl in *; lia|].
    split; [done|]. intros v1 r0 H0. apply Hlen2 in H0. simpl in *. lia.
  - intros acc s Hs. simpl.
    destruct (scanstring s) as [[key r]|] eqn:Hkey; [|by split].
    pose proof (skip_ws_length r) as Hws.
    destruct (strip_prefix ":" (skip_ws r)) as [r1|] eqn:Hr1; [|by split].
    pose proof (skip_ws_length r1) as Hws1.
    lens. simpl in Hr1.
    destruct (IH1 (skip_ws r1)) as [Hne Hlen]; [lia|].
    destruct (scan_once f (skip_ws r1)) as [v r2| |] eqn:Hv; [|by split|done].
    specialize (Hlen v r2 eq_refl).
    pose proof (skip_ws_length r2) as Hws2.
    destruct (skip_ws r2) as [|c r3] eqn:Hr2; [by split|].
    destruct (Ascii.eqb c "}").
    { split; [done|]. intros v1 r0 [= <- <-]. simpl in *. lia. }
    destruct (Ascii.eqb c ","); [|by split].
    pose proof (skip_ws_length r3) as Hws3.
    destruct (strip_prefix dq (skip_ws r3)) as [r4|] eqn:Hr4; [|by split].
    lens. simpl in Hr4.
    destruct (IH3 (dict_set key v acc) r4) as [Hne3 Hlen3]; [simpl in *; lia|].
    split; [done|]. intros v1 r0 H0. apply Hlen3 in H0. simpl in *. lia.
Qed.

(** The decoder never runs out of fuel. *)
Lemma json_decode_not_exhausted s : json_decode s ≠ Exhausted.
Proof.
  unfold json_decode. destruct (startswith s utf8_bom); [done|].
  pose proof (skip_ws_length s) as Hws.
  destruct (proj1 (scan_fuel (2 * String.length s + 2)) (skip_ws s)) as [Hne _]; [lia|].
  destruct (scan_once _ (skip_ws s)) as [v rest| |]; [|done|done].
  by destruct (skip_ws rest).
Qed.

(** [None] from [json_loads] is the decoder's verdict that the text is
    malformed. *)
Lemma json_loads_None s : json_loads s = None ↔ json_decode s = Malformed.
Proof.
  unfold json_loads. pose proof (json_decode_not_exhausted s).
  destruct (json_decode s); split; done.
Qed.

End decoder_fuel.

(** * The file system stays well formed *)

Section well_formed.

Lemma parent_snoc (k : location) c : parent (k ++ [c]) = k.
Proof. apply removelast_last. Qed.

Lemma parent_ne (k : location) : k ≠ [] → parent k ≠ k.
Proof.
  intros Hne Heq. destruct (app_removelast_last "" Hne) as [].
  unfold parent in Heq. apply (f_equal length) in Heq.
  rewrite (app_removelast_last "" Hne) in Heq at 2.
  rewrite length_app in Heq. simpl in Heq. lia.
Qed.

Lemma write_file_wf (p : Path) (fs : filesystem) (k : location) content fs' :
  wf_fs fs → write_file p fs k content = Ok fs' → wf_fs fs'.
Proof.
  intros Hwf. unfold write_file.
  destruct (lookup_node fs (parent k)) as [[?|]|] eqn:Hparent; [done| |done].
  assert (lookup_node fs k ≠ Some Dir → k ≠ []) as Hroot by (by intros H ->).
  assert (lookup_node fs k ≠ Some Dir
          → wf_fs (<[k := File content]> fs)) as Hgoal.
  { intros Hk k' n' Hk'. specialize (Hroot Hk).
    destruct (decide (k' = k)) as [->|Hne].
    - split; [done|]. rewrite lookup_node_insert by done.
      by rewrite decide_False by (by apply parent_ne).
    - rewrite lookup_insert_ne in Hk' by done.
      destruct (Hwf k' n' Hk') as [Hk'ne Hk'parent]. split; [done|].
      rewrite lookup_node_insert by done.
      rewrite decide_False; [done|]. intros Heq. rewrite Heq in Hk'parent. done. }
  destruct (lookup_node fs k) as [[?|]|] eqn:Hk; [|done|];
    intros [= <-]; by apply Hgoal.
Qed.

Lemma mkdir_walk_wf (p : Path) (rest : location) :
  ∀ (fs : filesystem) cur fs',
    wf_fs fs → lookup_node fs cur = Some Dir →
    mkdir_walk p fs cur rest = Ok fs' → wf_fs fs'.
Proof.
  induction rest as [|c rest IH]; intros fs cur fs' Hwf Hcur; simpl.
  - by intros [= <-].
  - assert (cur ++ [c] ≠ []) as Hne by (by destruct cur).
    destruct (lookup_node fs (cur ++ [c])) as [[?|]|] eqn:Hnxt.
    + by destruct rest.
    + by apply IH.
    + apply IH.
      * intros k' n' Hk'. destruct (decide (k' = cur ++ [c])) as [->|Hk].
        -- split; [done|]. rewrite parent_snoc, lookup_node_insert by done.
           rewrite decide_False; [done|]. intros Heq.
           apply (f_equal length) in Heq. rewrite length_app in Heq. simpl in Heq. lia.
        -- rewrite lookup_insert_ne in Hk' by done.
           destruct (Hwf k' n' Hk') as [Hk'ne Hk'parent]. split; [done|].
           rewrite lookup_node_insert by done. by case_decide.
      * rewrite lookup_node_insert by done. by rewrite decide_True.
Qed.

(** X20: the scaffolder keeps the file system well formed (every entry
    lies in a directory), also when it fails on the way. *)
Lemma scaffold_keeps_well_formed E name project_path overwrite w r w' :
  wf_fs (fs w) →
  CreatePipeline.create_pipeline_from_template E name project_path overwrite w = (r, w') →
  wf_fs (fs w').
Proof.
  intros Hwf Hcall.
  set (base_dir := path_or_cwd E project_path) in *.
  destruct (render_module_total name (CreatePipeline.strftime (clock E))) as [mc Hmc].
  destruct (render_config_total name) as [cc Hcc].
  assert (w' = w
          ∨ (overwrite = true
             ∨ (node_exists (fs w)
                  (locate (cwd E) (CreatePipeline.module_path_of base_dir name)) = false
                ∧ node_exists (fs w)
                    (locate (cwd E) (CreatePipeline.config_path_of base_dir name))
                  = false))) as [-> | Hcheck]; [|done|].
  { destruct overwrite; [right; by left|].
    destruct (node_exists (fs w)
                (locate (cwd E) (CreatePipeline.module_path_of base_dir name))) eqn:Hm.
    { rewrite scaffold_conflict_module in Hcall by exact Hm. left. congruence. }
    destruct (node_exists (fs w)
                (locate (cwd E) (CreatePipeline.config_path_of base_dir name))) eqn:Hc.
    { rewrite scaffold_conflict_config in Hcall by done. left. congruence. }
    right. by right. }
  rewrite (scaffold_after_check E name project_path overwrite w Hcheck mc cc Hmc Hcc)
    in Hcall.
  destruct (mkdir_walk _ (fs w) [] _) as [fs1|] eqn:H1; [|by injection Hcall as _ <-].
  apply mkdir_walk_wf in H1; [|done..].
  destruct (mkdir_walk _ fs1 [] _) as [fs2|] eqn:H2; [|by injection Hcall as _ <-].
  apply mkdir_walk_wf in H2; [|done..].
  destruct (write_file _ fs2 _ mc) as [fs3|] eqn:H3; [|by injection Hcall as _ <-].
  apply write_file_wf in H3; [|done].
  destruct (write_file _ fs3 _ cc) as [fs4|] eqn:H4; [|by injection Hcall as _ <-].
  apply write_file_wf in H4; [|done].
  by injection Hcall as _ <-.
Qed.

(** On an empty disk. *)
Lemma scaffold_keeps_well_formed_witness :
  wf_fs (fs (snd (CreatePipeline.create_pipeline_from_template calm_env "etl_process"
                    (Some project_root) false empty_world))).
Proof.
  apply (scaffold_keeps_well_formed calm_env "etl_process" (Some project_root) false
           empty_world
           (fst (CreatePipeline.create_pipeline_from_template calm_env "etl_process"
                   (Some project_root) false empty_world))).
  - intros k n Hk. simpl in Hk. by rewrite lookup_empty in Hk.
  - apply surjective_pairing.
Defined.

End well_formed.

(** * The run front end from its first line to its exit status *)

Section run_outcomes.

Lemma run_main_decoded E args w inputs final_vars :
  RunPipeline.loads_if (RunPipeline.args_inputs args) w = (Ok inputs, w) →
  RunPipeline.loads_if (RunPipeline.args_final_vars args) w = (Ok final_vars, w) →
  RunPipeline.main E args w
  = try_except
      (if RunPipeline.args_use_api args then
         result ← RunPipeline.run_pipeline_api E (RunPipeline.args_name args)
                    (RunPipeline.args_path args) inputs final_vars
                    (RunPipeline.executor_text <$> RunPipeline.args_executor args)
                    (RunPipeline.args_max_workers args)
                    (RunPipeline.args_max_retries args)
                    (RunPipeline.args_retry_delay args)
                    (RunPipeline.level_text <$> RunPipeline.args_log_level args);
         print (Text (nl +:+ "Pipeline completed!"));;
         print (Text ("Results: " +:+ result))
       else
         subprocess_run E (run_command args inputs final_vars) None)
      RunPipeline.handler w.
Proof.
  intros Hi Hf. unfold RunPipeline.main, mbind, M_bind, bind at 1.
  rewrite Hi. unfold bind at 1. rewrite Hf. reflexivity.
Qed.

(** X1: through the external tool, the run front end makes one call, the
    command of [run_pipeline_cli] run in the working directory of the
    script. When the tool ends with status 0 the front end prints nothing
    and returns; when it ends with another status the front end prints one
    line, [Error running pipeline:] with the text of the
    [CalledProcessError], and leaves with status 1, whatever the status of
    the tool was; when the tool cannot be started the line is [Error:] with
    the text of that error, and the status is 1 again. *)
Theorem run_front_end_reports_tool_status :
  ∀ E args w inputs final_vars,
    RunPipeline.args_use_api args = false →
    RunPipeline.loads_if (RunPipeline.args_inputs args) w = (Ok inputs, w) →
    RunPipeline.loads_if (RunPipeline.args_final_vars args) w = (Ok final_vars, w) →
    let cmd := run_command args inputs final_vars in
    let after (fs' : filesystem) (lines : list printed) :=
      {| fs := fs'; stdout := stdout w ++ lines; calls := calls w ++ [CallTool cmd None] |} in
    (∀ rc fs',
       tool E cmd None (fs w) = (Exited rc, fs') →
       RunPipeline.main E args w
       = if rc =? 0 then (Ok tt, after fs' [])
         else (Raise (SystemExit 1),
               after fs' [ErrorText "Error running pipeline: " (CalledProcessError cmd rc)]))
    ∧ (∀ e fs',
         tool E cmd None (fs w) = (NotStarted e, fs') →
         plain_exception e = true →
         RunPipeline.main E args w
         = (Raise (SystemExit 1), after fs' [ErrorText "Error: " e])).
Proof.
  intros E args w inputs final_vars Hcli Hi Hf cmd after.
  rewrite (run_main_decoded E args w inputs final_vars Hi Hf), Hcli.
  fold cmd. unfold try_except, subprocess_run. split.
  - intros rc fs' ->. unfold after, log_call. destruct (rc =? 0).
    + by rewrite app_nil_r.
    + reflexivity.
  - intros e fs' -> He. unfold after, log_call. by destruct e.
Qed.

(** With a tool that ends with status 2. *)
Lemma run_front_end_reports_tool_status_witness :
  RunPipeline.main failing_env (plain_run "etl" None None) empty_world
  = (Raise (SystemExit 1),
     {| fs := ∅;
        stdout := [ErrorText "Error running pipeline: "
                     (CalledProcessError ["flowerpower"; "pipeline"; "run"; "etl"] 2)];
        calls := [CallTool ["flowerpower"; "pipeline"; "run"; "etl"] None] |}).
Proof.
  destruct (run_front_end_reports_tool_status failing_env (plain_run "etl" None None)
              empty_world None None) as [Hexit _]; [reflexivity..|].
  exact (Hexit 2 ∅ eq_refl).
Defined.

(** X2: through the Python API, the run front end makes one call, to
    [project.run] with the options of [run_pipeline_api], and never starts
    the external tool. When the library returns, two lines are printed,
    the second with the result; when it raises an exception, one line
    [Error:] with its text is printed and the status is 1. *)
Theorem run_front_end_reports_library_result :
  ∀ E args w inputs final_vars,
    RunPipeline.args_use_api args = true →
    RunPipeline.loads_if (RunPipeline.args_inputs args) w = (Ok inputs, w) →
    RunPipeline.loads_if (RunPipeline.args_final_vars args) w = (Ok final_vars, w) →
    let base := base_text (RunPipeline.args_path args) in
    let kwargs := run_options args inputs final_vars in
    let after (fs' : filesystem) (lines : list printed) :=
      {| fs := fs'; stdout := stdout w ++ lines;
         calls := calls w ++ [CallProjectRun base (RunPipeline.args_name args) kwargs] |} in
    (∀ result fs',
       project_run E base (RunPipeline.args_name args) kwargs (fs w) = (Ok result, fs') →
       RunPipeline.main E args w
       = (Ok tt, after fs' [Text (nl +:+ "Pipeline completed!");
                            Text ("Results: " +:+ result)]))
    ∧ (∀ e fs',
         project_run E base (RunPipeline.args_name args) kwargs (fs w) = (Raise e, fs') →
         plain_exception e = true →
         RunPipeline.main E args w
         = (Raise (SystemExit 1), after fs' [ErrorText "Error: " e])).
Proof.
  intros E args w inputs final_vars Hapi Hi Hf base kwargs after.
  rewrite (run_main_decoded E args w inputs final_vars Hi Hf), Hapi.
  unfold try_except, mbind, M_bind, bind, RunPipeline.run_pipeline_api.
  fold (base_text (RunPipeline.args_path args)). fold base.
  fold (run_options args inputs final_vars). fold kwargs.
  split.
  - intros result fs' ->. unfold after, print, log_call. cbn [fs stdout calls].
    by rewrite <- app_assoc.
  - intros e fs' -> He. unfold after, log_call. by destruct e.
Qed.

(** With a library that returns an empty mapping. *)
Lemma run_front_end_reports_library_result_witness :
  RunPipeline.main calm_env api_run empty_world
  = (Ok tt,
     {| fs := ∅;
        stdout := [Text (nl +:+ "Pipeline completed!"); Text "Results: {}"];
        calls := [CallProjectRun "/tmp/proj" "etl"
                    (run_options api_run (Some (VDict [])) (Some (VList [VInt 1])))] |}).
Proof.
  destruct (run_front_end_reports_library_result calm_env api_run empty_world
              (Some (VDict [])) (Some (VList [VInt 1]))) as [Hok _];
    [reflexivity | vm_compute; reflexivity | vm_compute; reflexivity |].
  exact (Hok "{}" ∅ eq_refl).
Defined.

(** X3: with [--use-api], [--run-config] has no effect at all, and
    [--max-workers] has none unless an executor is named: the run is the
    run of the request without them. The external tool, for the same
    request, is given both. *)
Theorem api_run_ignores_tool_only_arguments :
  ∀ E args,
    RunPipeline.args_use_api args = true →
    RunPipeline.args_executor args = None →
    RunPipeline.main E args = RunPipeline.main E (without_tool_only args)
    ∧ ∀ inputs final_vars n c,
        RunPipeline.args_max_workers args = Some n → n ≠ 0 →
        RunPipeline.args_run_config args = Some c → c ≠ "" →
        ∃ before between,
          run_command args inputs final_vars
          = before ++ ["--executor-max-workers"; str_int n] ++ between
            ++ ["--run-config"; c].
Proof.
  intros E args Hapi Hexec. split.
  - unfold RunPipeline.main, without_tool_only. simpl. rewrite Hapi, Hexec. reflexivity.
  - intros inputs final_vars n c Hn Hn0 Hc Hc0.
    unfold run_command. rewrite run_pipeline_cli_cmd_counted.
    unfold command_of_counted, command_of_present. rewrite Hn, Hc, Hexec. simpl counted.
    assert (int_truthy n = true) as ->.
    { unfold int_truthy. by apply negb_true_iff, Z.eqb_neq. }
    assert (str_truthy c = true) as ->.
    { unfold str_truthy. by apply negb_true_iff, String.eqb_neq. }
    exists (["flowerpower"; "pipeline"; "run"; RunPipeline.args_name args]
            ++ flag_group "--base-dir" str_path (RunPipeline.args_path args)
            ++ flag_group "--inputs" json_dumps (counted truthy inputs)
            ++ flag_group "--final-vars" json_dumps (counted truthy final_vars)),
      (flag_group "--max-retries" str_int (RunPipeline.args_max_retries args)
       ++ flag_group "--retry-delay" float_repr (RunPipeline.args_retry_delay args)
       ++ flag_group "--log-level" id
            (counted str_truthy
               (RunPipeline.level_text <$> RunPipeline.args_log_level args))).
    cbn [flag_group]. by rewrite <- !app_assoc.
Qed.

(** On a request with four workers and a named run configuration. *)
Lemma api_run_ignores_tool_only_arguments_witness :
  RunPipeline.main calm_env api_run = RunPipeline.main calm_env (without_tool_only api_run).
Proof.
  apply (api_run_ignores_tool_only_arguments calm_env api_run); reflexivity.
Defined.

End run_outcomes.

(** * The scaffolder step by step *)

Section scaffold_steps.

(** The three ways a call of [create_pipeline_from_template] can go. *)
Lemma scaffold_cases E name project_path overwrite w :
  let base_dir := path_or_cwd E project_path in
  let pipelines_dir := base_dir </> "pipelines" in
  let config_dir := base_dir </> "conf" </> "pipelines" in
  let module_path := CreatePipeline.module_path_of base_dir name in
  let config_path := CreatePipeline.config_path_of base_dir name in
  (overwrite = false
   ∧ node_exists (fs w) (locate (cwd E) module_path) = true
   ∧ CreatePipeline.create_pipeline_from_template E name project_path overwrite w
     = (Raise (FileExistsError (CreatePipeline.module_exists_text module_path)), w))
  ∨ (overwrite = false
     ∧ node_exists (fs w) (locate (cwd E) config_path) = true
     ∧ CreatePipeline.create_pipeline_from_template E name project_path overwrite w
       = (Raise (FileExistsError (CreatePipeline.config_exists_text config_path)), w))
  ∨ ∃ module_content config_content,
      render_module name (CreatePipeline.strftime (clock E)) = Some module_content
      ∧ render_config name = Some config_content
      ∧ CreatePipeline.create_pipeline_from_template E name project_path overwrite w
        = match mkdir_walk pipelines_dir (fs w) [] (locate (cwd E) pipelines_dir) with
          | Raise e => (Raise e, w)
          | Ok fs1 =>
              match mkdir_walk config_dir fs1 [] (locate (cwd E) config_dir) with
              | Raise e => (Raise e, with_fs w fs1)
              | Ok fs2 =>
                  match write_file module_path fs2 (locate (cwd E) module_path)
                          module_content with
                  | Raise e => (Raise e, with_fs w fs2)
                  | Ok fs3 =>
                      match write_file config_path fs3 (locate (cwd E) config_path)
                              config_content with
                      | Raise e => (Raise e, with_fs w fs3)
                      | Ok fs4 => (Ok (module_path, config_path), with_fs w fs4)
                      end
                  end
              end
          end.
Proof.
  intros base_dir pipelines_dir config_dir module_path config_path.
  destruct (render_module_total name (CreatePipeline.strftime (clock E))) as [mc Hmc].
  destruct (render_config_total name) as [cc Hcc].
  destruct overwrite.
  { right. right. exists mc, cc. split; [done|]. split; [done|].
    by apply scaffold_after_check; [left|..]. }
  destruct (node_exists (fs w) (locate (cwd E) module_path)) eqn:Hm.
  { left. split; [done|]. split; [done|]. by apply scaffold_conflict_module. }
  destruct (node_exists (fs w) (locate (cwd E) config_path)) eqn:Hc.
  { right. left. split; [done|]. split; [done|]. by apply scaffold_conflict_config. }
  right. right. exists mc, cc. split; [done|]. split; [done|].
  by apply scaffold_after_check; [right|..].
Qed.

(** [mkdir] fills gaps and changes nothing that is there. *)
Lemma mkdir_walk_keeps (p : Path) (rest : location) :
  ∀ (fs : filesystem) cur fs',
    mkdir_walk p fs cur rest = Ok fs' →
    ∀ k n, lookup_node fs k = Some n → lookup_node fs' k = Some n.
Proof.
  induction rest as [|c rest IH]; intros fs cur fs'; simpl.
  - by intros [= <-].
  - destruct (lookup_node fs (cur ++ [c])) as [[?|]|] eqn:Hnxt.
    + by destruct rest.
    + apply IH.
    + intros Hwalk k n Hk. eapply IH; [exact Hwalk|].
      rewrite lookup_node_insert by (by destruct cur).
      destruct (decide (k = cur ++ [c])) as [->|]; [congruence|done].
Qed.

(** After [mkdir] the directories of the chain are there. *)
Lemma mkdir_walk_made (p : Path) (rest : location) :
  ∀ (fs : filesystem) cur fs',
    mkdir_walk p fs cur rest = Ok fs' →
    ∀ k, k ∈ chain cur rest → lookup_node fs' k = Some Dir.
Proof.
  induction rest as [|c rest IH]; intros fs cur fs'; simpl.
  - intros _ k Hk. by apply elem_of_nil in Hk.
  - destruct (lookup_node fs (cur ++ [c])) as [[?|]|] eqn:Hnxt.
    + by destruct rest.
    + intros Hwalk k [->|Hk]%elem_of_cons.
      * by eapply mkdir_walk_keeps.
      * by eapply IH.
    + intros Hwalk k [->|Hk]%elem_of_cons.
      * eapply mkdir_walk_keeps; [exact Hwalk|].
        rewrite lookup_node_insert by (by destruct cur). by rewrite decide_True.
      * by eapply IH.
Qed.

(** The errors of [mkdir]. *)
Lemma mkdir_walk_errors (p : Path) (rest : location) :
  ∀ (fs : filesystem) cur e,
    mkdir_walk p fs cur rest = Raise e →
    e = FileExistsError (os_error_text 17 "File exists" p)
    ∨ e = NotADirectoryError (os_error_text 20 "Not a directory" p).
Proof.
  induction rest as [|c rest IH]; intros fs cur e; simpl; [done|].
  destruct (lookup_node fs (cur ++ [c])) as [[?|]|]; eauto.
  destruct rest; intros [= <-]; auto.
Qed.

Lemma write_file_keeps (p : Path) (fs : filesystem) (k : location) content fs' :
  write_file p fs k content = Ok fs' →
  lookup_node fs k ≠ Some Dir
  ∧ lookup_node fs' k = Some (File content)
  ∧ ∀ k', k' ≠ k → lookup_node fs' k' = lookup_node fs k'.
Proof.
  intros Hwrite. pose proof (write_file_ok _ _ _ _ _ Hwrite) as ->.
  unfold write_file in Hwrite.
  destruct (lookup_node fs (parent k)) as [[?|]|]; [done| |done].
  assert (lookup_node fs k ≠ Some Dir) as Hk
    by (destruct (lookup_node fs k) as [[?|]|]; congruence).
  assert (k ≠ []) as Hne by (by intros ->).
  split; [exact Hk|]. split.
  - by rewrite lookup_node_insert, decide_True.
  - intros k' Hk'. by rewrite lookup_node_insert, decide_False.
Qed.

Lemma write_file_errors (p : Path) (fs : filesystem) (k : location) content e :
  write_file p fs k content = Raise e →
  e = IsADirectoryError (os_error_text 21 "Is a directory" p)
  ∨ e = NotADirectoryError (os_error_text 20 "Not a directory" p)
  ∨ e = FileNotFoundError (os_error_text 2 "No such file or directory" p).
Proof.
  unfold write_file.
  destruct (lookup_node fs (parent k)) as [[?|]|];
    [|destruct (lookup_node fs k) as [[?|]|]|]; intros [= <-]; auto.
Qed.

(** X4: the scaffolder works on the disk alone. Whatever the arguments
    and whatever it finds, and whether it returns or raises, it prints
    nothing and calls neither the tool nor the library; both templates
    render for every name and every date, so that no failure comes from
    them; and what it returns, when it returns, is the pair of paths put
    together from the name. *)
Theorem scaffold_is_local :
  ∀ E name project_path overwrite w,
    let base_dir := path_or_cwd E project_path in
    let r := CreatePipeline.create_pipeline_from_template E name project_path
               overwrite w in
    stdout (snd r) = stdout w
    ∧ calls (snd r) = calls w
    ∧ is_Some (render_module name (CreatePipeline.strftime (clock E)))
    ∧ is_Some (render_config name)
    ∧ fst r ≠ Raise (ValueError "format")
    ∧ ∀ paths, fst r = Ok paths →
               paths = (CreatePipeline.module_path_of base_dir name,
                        CreatePipeline.config_path_of base_dir name).
Proof.
  intros E name project_path overwrite w base_dir r. subst r.
  assert (∀ (p : Path) (fs0 : filesystem) cur rest e,
            mkdir_walk p fs0 cur rest = Raise e → e ≠ ValueError "format") as Hmk.
  { intros p fs0 cur rest e H. by apply mkdir_walk_errors in H as [-> | ->]. }
  assert (∀ (p : Path) (fs0 : filesystem) (k : location) c e,
            write_file p fs0 k c = Raise e → e ≠ ValueError "format") as Hwr.
  { intros p fs0 k c e H. by apply write_file_errors in H as [-> | [-> | ->]]. }
  assert (∀ e w', e ≠ ValueError "format" → stdout w' = stdout w → calls w' = calls w →
            stdout (snd (@Raise (Path * Path) e, w')) = stdout w
            ∧ calls (snd (@Raise (Path * Path) e, w')) = calls w
            ∧ is_Some (render_module name (CreatePipeline.strftime (clock E)))
            ∧ is_Some (render_config name)
            ∧ fst (@Raise (Path * Path) e, w') ≠ Raise (ValueError "format")
            ∧ ∀ paths, fst (@Raise (Path * Path) e, w') = Ok paths →
                       paths = (CreatePipeline.module_path_of base_dir name,
                                CreatePipeline.config_path_of base_dir name)) as Hraise.
  { intros e w' He Hout Hcalls. simpl.
    split; [exact Hout|]. split; [exact Hcalls|].
    split; [apply render_module_total|]. split; [apply render_config_total|].
    split; [by intros [= ->]|]. intros paths Hpaths. discriminate. }
  destruct (scaffold_cases E name project_path overwrite w)
    as [(_ & _ & ->) | [(_ & _ & ->) | (mc & cc & _ & _ & ->)]].
  - by apply Hraise.
  - by apply Hraise.
  - fold base_dir.
    destruct (mkdir_walk _ (fs w) [] _) as [fs1|e1] eqn:H1.
    2: { apply Hraise; [by eapply Hmk|done..]. }
    destruct (mkdir_walk _ fs1 [] _) as [fs2|e2] eqn:H2.
    2: { apply Hraise; [by eapply Hmk|done..]. }
    destruct (write_file _ fs2 _ mc) as [fs3|e3] eqn:H3.
    2: { apply Hraise; [by eapply Hwr|done..]. }
    destruct (write_file _ fs3 _ cc) as [fs4|e4] eqn:H4.
    2: { apply Hraise; [by eapply Hwr|done..]. }
    simpl. split; [done|]. split; [done|].
    split; [apply render_module_total|]. split; [apply render_config_total|].
    split; [done|]. by intros paths [= <-].
Qed.

(** X5: the scaffolder removes nothing. Whatever the outcome of a call,
    a directory that was there is still there, and a file other than the
    two targets is still there with the content it had. *)
Theorem scaffold_removes_nothing :
  ∀ E name project_path overwrite w k n,
    let base_dir := path_or_cwd E project_path in
    let w' := snd (CreatePipeline.create_pipeline_from_template E name project_path
                     overwrite w) in
    lookup_node (fs w) k = Some n →
    n = Dir
    ∨ (k ≠ locate (cwd E) (CreatePipeline.module_path_of base_dir name)
       ∧ k ≠ locate (cwd E) (CreatePipeline.config_path_of base_dir name)) →
    lookup_node (fs w') k = Some n.
Proof.
  intros E name project_path overwrite w k n base_dir w' Hk Hother. subst w'.
  assert (∀ p (fs0 fs' : filesystem) k0 content,
            k0 = locate (cwd E) (CreatePipeline.module_path_of base_dir name)
            ∨ k0 = locate (cwd E) (CreatePipeline.config_path_of base_dir name) →
            write_file p fs0 k0 content = Ok fs' →
            lookup_node fs0 k = Some n → lookup_node fs' k = Some n) as Hwrite.
  { intros p fs0 fs' k0 content Hk0 Hw Hlook.
    apply write_file_keeps in Hw as (Hnodir & _ & Hrest).
    rewrite Hrest; [done|]. intros ->.
    destruct Hother as [-> | [Hm Hc]]; [done|]. by destruct Hk0. }
  destruct (scaffold_cases E name project_path overwrite w)
    as [(_ & _ & ->) | [(_ & _ & ->) | (mc & cc & _ & _ & ->)]]; [done..|].
  fold base_dir.
  destruct (mkdir_walk _ (fs w) [] _) as [fs1|e1] eqn:H1; [|done].
  pose proof (mkdir_walk_keeps _ _ _ _ _ H1 k n Hk) as Hk1.
  destruct (mkdir_walk _ fs1 [] _) as [fs2|e2] eqn:H2; [|done].
  pose proof (mkdir_walk_keeps _ _ _ _ _ H2 k n Hk1) as Hk2.
  destruct (write_file _ fs2 _ mc) as [fs3|e3] eqn:H3; [|done].
  pose proof (Hwrite _ _ _ _ _ (or_introl eq_refl) H3 Hk2) as Hk3.
  destruct (write_file _ fs3 _ cc) as [fs4|e4] eqn:H4; [|done].
  exact (Hwrite _ _ _ _ _ (or_intror eq_refl) H4 Hk3).
Qed.

End scaffold_steps.

(** * The create front end *)

Section create_outcomes.

Lemma create_main_plain E args w :
  contains_char "-" (CreatePipeline.args_name args) = false →
  CreatePipeline.main E args w
  = CreatePipeline.dispatch E args (CreatePipeline.args_name args) w.
Proof.
  intros Hname. unfold CreatePipeline.main, CreatePipeline.validate_name.
  by rewrite Hname.
Qed.

Lemma dispatch_conflict E args name w msg :
  CreatePipeline.args_template_only args = true →
  CreatePipeline.create_pipeline_from_template E name (CreatePipeline.args_path args)
    (CreatePipeline.args_overwrite args) w
  = (Raise (FileExistsError msg), w) →
  CreatePipeline.dispatch E args name w
  = (Raise (SystemExit 1),
     printing w [ErrorText "Error: " (FileExistsError msg);
                 Text "Use --overwrite to replace existing pipeline"]).
Proof.
  intros Htemplate Hcall.
  unfold CreatePipeline.dispatch, try_except, mbind, M_bind, bind at 1.
  rewrite Htemplate, Hcall.
  unfold CreatePipeline.handler, printing, mbind, M_bind, bind, print, sys_exit, raise.
  cbn [fs stdout calls]. by rewrite <- app_assoc.
Qed.

(** X6: from the templates and without [--overwrite], a request for a
    name whose module or configuration exists ends with status 1 after two
    lines: [Error:] with the text of the conflict, which names the path
    found, and the advice to use [--overwrite]. Nothing is written and
    nothing is called. *)
Theorem create_front_end_reports_conflict :
  ∀ E args w,
    let name := CreatePipeline.args_name args in
    let base_dir := path_or_cwd E (CreatePipeline.args_path args) in
    let module_path := CreatePipeline.module_path_of base_dir name in
    let config_path := CreatePipeline.config_path_of base_dir name in
    CreatePipeline.args_template_only args = true →
    CreatePipeline.args_overwrite args = false →
    contains_char "-" name = false →
    node_exists (fs w) (locate (cwd E) module_path) = true
    ∨ node_exists (fs w) (locate (cwd E) config_path) = true →
    CreatePipeline.main E args w
    = (Raise (SystemExit 1),
       printing w
         [ErrorText "Error: "
            (FileExistsError
               (if node_exists (fs w) (locate (cwd E) module_path)
                then "Pipeline module already exists: " +:+ str_path module_path
                else "Pipeline config already exists: " +:+ str_path config_path));
          Text "Use --overwrite to replace existing pipeline"]).
Proof.
  intros E args w name base_dir module_path config_path Htemplate Hover Hname Hthere.
  rewrite create_main_plain by exact Hname. fold name.
  apply dispatch_conflict; [exact Htemplate|]. rewrite Hover.
  destruct (node_exists (fs w) (locate (cwd E) module_path)) eqn:Hm.
  - by apply scaffold_conflict_module.
  - destruct Hthere as [?|Hc]; [done|]. by apply scaffold_conflict_config.
Qed.

(** A second request for the pipeline [sales] of the sample project. *)
Lemma create_front_end_reports_conflict_witness :
  CreatePipeline.main calm_env (template_request "sales" false) project_world
  = (Raise (SystemExit 1),
     printing project_world
       [ErrorText "Error: "
          (FileExistsError "Pipeline module already exists: /tmp/proj/pipelines/sales.py");
        Text "Use --overwrite to replace existing pipeline"]).
Proof.
  apply (create_front_end_reports_conflict calm_env (template_request "sales" false)
           project_world); [reflexivity..|].
  left. vm_compute. reflexivity.
Defined.

Lemma chain_app cur (a b : location) :
  chain cur (a ++ b) = chain cur a ++ chain (cur ++ a) b.
Proof.
  revert cur. induction a as [|c a IH]; intros cur; simpl.
  - by rewrite app_nil_r.
  - rewrite IH. by rewrite <- app_assoc.
Qed.

(** [mkdir] walks through the directories that are there. *)
Lemma mkdir_walk_through (p : Path) (a b : location) :
  ∀ (fs : filesystem) cur,
    Forall (λ d, lookup_node fs d = Some Dir) (chain cur a) →
    mkdir_walk p fs cur (a ++ b) = mkdir_walk p fs (cur ++ a) b.
Proof.
  induction a as [|c a IH]; intros fs cur; simpl.
  - by rewrite app_nil_r.
  - intros [Hc Ha]%Forall_cons. rewrite Hc, IH by exact Ha. by rewrite <- app_assoc.
Qed.

(** X7: the advice to use [--overwrite] is printed to a request that
    was made with [--overwrite]. When the project directory is there and
    [pipelines] under it is a regular file, the request from the templates
    fails in [mkdir] with a [FileExistsError], which the front end reports
    as it reports a conflict; the disk is left as it was. *)
Theorem create_front_end_advises_overwrite_in_vain :
  ∀ E args w content,
    let name := CreatePipeline.args_name args in
    let base_dir := path_or_cwd E (CreatePipeline.args_path args) in
    CreatePipeline.args_template_only args = true →
    CreatePipeline.args_overwrite args = true →
    contains_char "-" name = false →
    Forall (λ d, lookup_node (fs w) d = Some Dir)
      (directories_to (locate (cwd E) base_dir)) →
    lookup_node (fs w) (locate (cwd E) base_dir ++ ["pipelines"]) = Some (File content) →
    CreatePipeline.main E args w
    = (Raise (SystemExit 1),
       printing w
         [ErrorText "Error: "
            (FileExistsError (os_error_text 17 "File exists" (base_dir </> "pipelines")));
          Text "Use --overwrite to replace existing pipeline"]).
Proof.
  intros E args w content name base_dir Htemplate Hover Hname Hdirs Hfile.
  rewrite create_main_plain by exact Hname. fold name.
  apply dispatch_conflict; [exact Htemplate|]. rewrite Hover.
  destruct (scaffold_cases E name (CreatePipeline.args_path args) true w)
    as [(? & _) | [(? & _) | (mc & cc & _ & _ & ->)]]; [done..|].
  fold base_dir.
  rewrite (locate_joinpath_part _ base_dir "pipelines") by done.
  rewrite (mkdir_walk_through _ _ ["pipelines"]) by exact Hdirs.
  simpl. by rewrite Hfile.
Qed.

(** In the project whose [pipelines] is a regular file. *)
Lemma create_front_end_advises_overwrite_in_vain_witness :
  CreatePipeline.main calm_env (template_request "etl_process" true) blocked_world
  = (Raise (SystemExit 1),
     printing blocked_world
       [ErrorText "Error: "
          (FileExistsError "[Errno 17] File exists: '/tmp/proj/pipelines'");
        Text "Use --overwrite to replace existing pipeline"]).
Proof.
  apply (create_front_end_advises_overwrite_in_vain calm_env
           (template_request "etl_process" true) blocked_world "");
    [reflexivity.. | | vm_compute; reflexivity].
  repeat constructor.
Defined.

(** X8: a failed call is not undone. When the project directory is
    there, [pipelines] under it is missing and [conf] is a regular file,
    the call makes [pipelines], fails for [conf/pipelines] with a
    [NotADirectoryError] and leaves the new directory behind. *)
Theorem scaffold_failure_leaves_directory :
  ∀ E name project_path w content,
    let base_dir := path_or_cwd E project_path in
    let root := locate (cwd E) base_dir in
    Forall (λ d, lookup_node (fs w) d = Some Dir) (directories_to root) →
    lookup_node (fs w) (root ++ ["pipelines"]) = None →
    lookup_node (fs w) (root ++ ["conf"]) = Some (File content) →
    CreatePipeline.create_pipeline_from_template E name project_path true w
    = (Raise (NotADirectoryError
                (os_error_text 20 "Not a directory" (base_dir </> "conf" </> "pipelines"))),
       with_fs w (<[root ++ ["pipelines"] := Dir]> (fs w))).
Proof.
  intros E name project_path w content base_dir root Hdirs Hmissing Hconf.
  destruct (scaffold_cases E name project_path true w)
    as [(? & _) | [(? & _) | (mc & cc & _ & _ & ->)]]; [done..|].
  fold base_dir.
  rewrite (locate_joinpath_part _ base_dir "pipelines") by done. fold root.
  rewrite (mkdir_walk_through _ _ ["pipelines"]) by exact Hdirs.
  simpl mkdir_walk at 1. rewrite Hmissing.
  rewrite !locate_joinpath_part by done. fold root. rewrite <- app_assoc.
  assert (root ++ ["pipelines"] ≠ []) as Hne by (by destruct root).
  rewrite (mkdir_walk_through _ _ ["conf"; "pipelines"]).
  - simpl. rewrite lookup_node_insert by exact Hne.
    rewrite decide_False by (intros Heq; apply app_inv_head in Heq; discriminate).
    by rewrite Hconf.
  - eapply Forall_impl; [exact Hdirs|]. intros d Hd. simpl.
    rewrite lookup_node_insert by exact Hne.
    destruct (decide (d = root ++ ["pipelines"])) as [->|]; [congruence|done].
Qed.

(** In the project whose [conf] is a regular file. *)
Lemma scaffold_failure_leaves_directory_witness :
  CreatePipeline.create_pipeline_from_template calm_env "etl_process"
    (Some project_root) true conf_file_world
  = (Raise (NotADirectoryError "[Errno 20] Not a directory: '/tmp/proj/conf/pipelines'"),
     with_fs conf_file_world
       (<[ ["tmp"; "proj"; "pipelines"] := Dir ]> (fs conf_file_world))).
Proof.
  apply (scaffold_failure_leaves_directory calm_env "etl_process" (Some project_root)
           conf_file_world "");
    [repeat constructor | vm_compute; reflexivity | vm_compute; reflexivity].
Defined.

End create_outcomes.

(** * Calling the scaffolder again *)

Section scaffold_again.

Lemma write_file_keeps_dir (p : Path) (fs : filesystem) (k : location) content fs' k' :
  write_file p fs k content = Ok fs' →
  lookup_node fs k' = Some Dir → lookup_node fs' k' = Some Dir.
Proof.
  intros (Hnodir & _ & Hrest)%write_file_keeps Hk'.
  rewrite Hrest; [done|]. by intros ->.
Qed.

Lemma mkdir_walk_existing (p : Path) (rest : location) (fs : filesystem) cur :
  Forall (λ d, lookup_node fs d = Some Dir) (chain cur rest) →
  mkdir_walk p fs cur rest = Ok fs.
Proof.
  intros Hdirs. rewrite <- (app_nil_r rest).
  by rewrite mkdir_walk_through.
Qed.

(** Where the four paths of a call lie when the name has no slash. *)
Lemma plain_locations E name project_path :
  let base_dir := path_or_cwd E project_path in
  let root := locate (cwd E) base_dir in
  contains_char "/" name = false →
  locate (cwd E) (base_dir </> "pipelines") = root ++ ["pipelines"]
  ∧ locate (cwd E) (base_dir </> "conf" </> "pipelines") = root ++ ["conf"; "pipelines"]
  ∧ locate (cwd E) (CreatePipeline.module_path_of base_dir name)
    = (root ++ ["pipelines"]) ++ [name +:+ ".py"]
  ∧ locate (cwd E) (CreatePipeline.config_path_of base_dir name)
    = (root ++ ["conf"; "pipelines"]) ++ [name +:+ ".yml"].
Proof.
  intros base_dir root Hname.
  assert (locate (cwd E) (base_dir </> "pipelines") = root ++ ["pipelines"]) as Hpd
    by (by rewrite locate_joinpath_part).
  assert (locate (cwd E) (base_dir </> "conf" </> "pipelines")
          = root ++ ["conf"; "pipelines"]) as Hcd.
  { rewrite !locate_joinpath_part by done. by rewrite <- app_assoc. }
  split; [exact Hpd|]. split; [exact Hcd|].
  unfold CreatePipeline.module_path_of, CreatePipeline.config_path_of. split.
  - rewrite (locate_joinpath_part _ _ (name +:+ ".py"))
      by (by apply Path_of_plain_name; [|reflexivity|simpl; lia|reflexivity]).
    by rewrite Hpd.
  - rewrite (locate_joinpath_part _ _ (name +:+ ".yml"))
      by (by apply Path_of_plain_name; [|reflexivity|simpl; lia|reflexivity]).
    by rewrite Hcd.
Qed.

(** What a successful call leaves, for a name without a slash. *)
Lemma scaffold_success_plain E name project_path overwrite w paths w1 :
  let base_dir := path_or_cwd E project_path in
  let root := locate (cwd E) base_dir in
  contains_char "/" name = false →
  CreatePipeline.create_pipeline_from_template E name project_path overwrite w
  = (Ok paths, w1) →
  ∃ module_text config_text,
    render_module name (CreatePipeline.strftime (clock E)) = Some module_text
    ∧ render_config name = Some config_text
    ∧ paths = (CreatePipeline.module_path_of base_dir name,
               CreatePipeline.config_path_of base_dir name)
    ∧ stdout w1 = stdout w ∧ calls w1 = calls w
    ∧ Forall (λ d, lookup_node (fs w1) d = Some Dir)
        (directories_to (root ++ ["pipelines"]))
    ∧ Forall (λ d, lookup_node (fs w1) d = Some Dir)
        (directories_to (root ++ ["conf"; "pipelines"]))
    ∧ lookup_node (fs w1) ((root ++ ["pipelines"]) ++ [name +:+ ".py"])
      = Some (File module_text)
    ∧ lookup_node (fs w1) ((root ++ ["conf"; "pipelines"]) ++ [name +:+ ".yml"])
      = Some (File config_text).
Proof.
  intros base_dir root Hname Hcall.
  destruct (plain_locations E name project_path Hname) as (Hpd & Hcd & Hmp & Hcp).
  fold base_dir in Hpd, Hcd, Hmp, Hcp. fold root in Hpd, Hcd, Hmp, Hcp.
  destruct (scaffold_cases E name project_path overwrite w)
    as [(_ & _ & H) | [(_ & _ & H) | (mc & cc & Hmc & Hcc & H)]];
    rewrite H in Hcall; [discriminate..|]. clear H.
  fold base_dir in Hcall. rewrite Hpd, Hcd, Hmp, Hcp in Hcall.
  destruct (mkdir_walk _ (fs w) [] _) as [fs1|] eqn:H1; [|discriminate].
  destruct (mkdir_walk _ fs1 [] _) as [fs2|] eqn:H2; [|discriminate].
  destruct (write_file _ fs2 _ mc) as [fs3|] eqn:H3; [|discriminate].
  destruct (write_file _ fs3 _ cc) as [fs4|] eqn:H4; [|discriminate].
  injection Hcall as <- <-. exists mc, cc.
  split; [exact Hmc|]. split; [exact Hcc|]. split; [done|].
  split; [done|]. split; [done|]. cbn [fs with_fs].
  pose proof (write_file_keeps _ _ _ _ _ H3) as (_ & Hm3 & _).
  pose proof (write_file_keeps _ _ _ _ _ H4) as (_ & Hc4 & Hrest4).
  split; [|split; [|split]].
  - apply Forall_forall. intros d Hd.
    eapply write_file_keeps_dir; [exact H4|].
    eapply write_file_keeps_dir; [exact H3|].
    eapply mkdir_walk_keeps; [exact H2|].
    eapply mkdir_walk_made; [exact H1|exact Hd].
  - apply Forall_forall. intros d Hd.
    eapply write_file_keeps_dir; [exact H4|].
    eapply write_file_keeps_dir; [exact H3|].
    eapply mkdir_walk_made; [exact H2|exact Hd].
  - rewrite Hrest4; [exact Hm3|].
    rewrite <- !app_assoc. intros Heq. apply app_inv_head in Heq. discriminate.
  - exact Hc4.
Qed.

(** X9: after a successful call for a name without a slash, a call
    with [overwrite=True] for the same name succeeds, at whatever time it is
    made, and returns the same paths; it writes the module again, with
    the new date, and leaves every other location as it was, the
    configuration included. *)
Theorem scaffold_again_rewrites_module_only :
  ∀ E E' name project_path overwrite w paths w1,
    let base_dir := path_or_cwd E project_path in
    let module_at := locate (cwd E) (CreatePipeline.module_path_of base_dir name) in
    contains_char "/" name = false →
    cwd E' = cwd E →
    CreatePipeline.create_pipeline_from_template E name project_path overwrite w
    = (Ok paths, w1) →
    ∃ w2 module_text,
      CreatePipeline.create_pipeline_from_template E' name project_path true w1
      = (Ok paths, w2)
      ∧ render_module name (CreatePipeline.strftime (clock E')) = Some module_text
      ∧ read_text (fs w2) module_at = Some module_text
      ∧ ∀ k, k ≠ module_at → lookup_node (fs w2) k = lookup_node (fs w1) k.
Proof.
  intros E E' name project_path overwrite w paths w1 base_dir module_at Hname Hcwd Hcall.
  destruct (scaffold_success_plain E name project_path overwrite w paths w1 Hname Hcall)
    as (mc & cc & _ & Hcc & -> & _ & _ & Hpdirs & Hcdirs & Hm & Hc).
  destruct (plain_locations E name project_path Hname) as (Hpd & Hcd & Hmp & Hcp).
  fold base_dir in Hpd, Hcd, Hmp, Hcp, Hpdirs, Hcdirs, Hm, Hc.
  set (root := locate (cwd E) base_dir) in *.
  assert (path_or_cwd E' project_path = base_dir) as Hbase.
  { unfold base_dir, path_or_cwd, Path_cwd. destruct project_path; [done|].
    by rewrite Hcwd. }
  set (mloc := (root ++ ["pipelines"]) ++ [name +:+ ".py"]) in *.
  set (cloc := (root ++ ["conf"; "pipelines"]) ++ [name +:+ ".yml"]) in *.
  assert (module_at = mloc) as -> by exact Hmp.
  assert (mloc ≠ cloc) as Hmc_ne.
  { unfold mloc, cloc. rewrite <- !app_assoc. intros Heq.
    apply app_inv_head in Heq. discriminate. }
  assert (mloc ≠ []) as Hm_ne by (unfold mloc; by destruct (root ++ ["pipelines"])).
  assert (cloc ≠ []) as Hc_ne
    by (unfold cloc; by destruct (root ++ ["conf"; "pipelines"])).
  assert (lookup_node (fs w1) (root ++ ["pipelines"]) = Some Dir) as Hpdir.
  { apply (proj1 (Forall_forall _ _) Hpdirs).
    apply (chain_last [] (root ++ ["pipelines"])). by destruct root. }
  assert (lookup_node (fs w1) (root ++ ["conf"; "pipelines"]) = Some Dir) as Hcdir.
  { apply (proj1 (Forall_forall _ _) Hcdirs).
    apply (chain_last [] (root ++ ["conf"; "pipelines"])). by destruct root. }
  destruct (scaffold_cases E' name project_path true w1)
    as [(? & _) | [(? & _) | (mc' & cc' & Hmc' & Hcc' & ->)]]; [done..|].
  assert (cc' = cc) as -> by congruence.
  rewrite Hbase, Hcwd. fold base_dir. rewrite Hpd, Hcd, Hmp, Hcp. fold mloc cloc.
  rewrite (mkdir_walk_existing _ _ _ _ Hpdirs), (mkdir_walk_existing _ _ _ _ Hcdirs).
  assert (write_file (CreatePipeline.module_path_of base_dir name) (fs w1) mloc mc'
          = Ok (<[mloc := File mc']> (fs w1))) as ->.
  { unfold write_file, parent, mloc at 1. rewrite removelast_last, Hpdir. by rewrite Hm. }
  assert (write_file (CreatePipeline.config_path_of base_dir name)
            (<[mloc := File mc']> (fs w1)) cloc cc
          = Ok (<[cloc := File cc]> (<[mloc := File mc']> (fs w1)))) as ->.
  { unfold write_file, parent, cloc at 1. rewrite removelast_last.
    rewrite lookup_node_insert by exact Hm_ne.
    rewrite decide_False.
    2: { unfold mloc. rewrite <- app_assoc. intros Heq.
         apply app_inv_head in Heq. discriminate. }
    rewrite Hcdir. rewrite lookup_node_insert by exact Hm_ne.
    rewrite decide_False by done. by rewrite Hc. }
  exists (with_fs w1 (<[cloc := File cc]> (<[mloc := File mc']> (fs w1)))), mc'.
  split; [done|]. split; [exact Hmc'|]. cbn [fs with_fs]. split.
  - unfold read_text. rewrite lookup_node_insert by exact Hc_ne.
    rewrite decide_False by done.
    by rewrite lookup_node_insert, decide_True.
  - intros k Hk. rewrite lookup_node_insert by exact Hc_ne.
    destruct (decide (k = cloc)) as [->|Hkc]; [by rewrite Hc|].
    by rewrite lookup_node_insert, decide_False.
Qed.

(** On an empty disk, first without and then with [overwrite]. *)
Lemma scaffold_again_rewrites_module_only_witness :
  ∃ paths w1 w2,
    CreatePipeline.create_pipeline_from_template calm_env "etl_process"
      (Some project_root) false empty_world = (Ok paths, w1)
    ∧ CreatePipeline.create_pipeline_from_template later_env "etl_process"
        (Some project_root) true w1 = (Ok paths, w2)
    ∧ read_text (fs w2) ["tmp"; "proj"; "pipelines"; "etl_process.py"]
      = render_module "etl_process" "2026-11-30 23:59:07".
Proof.
  destruct (CreatePipeline.create_pipeline_from_template calm_env "etl_process"
              (Some project_root) false empty_world) as [[paths|e] w1] eqn:Hfirst.
  - destruct (scaffold_again_rewrites_module_only calm_env later_env "etl_process"
                (Some project_root) false empty_world paths w1
                eq_refl eq_refl Hfirst) as (w2 & text & Hsecond & Htext & Hread & _).
    exists paths, w1, w2. split; [reflexivity|]. split; [exact Hsecond|].
    assert (CreatePipeline.strftime (clock later_env) = "2026-11-30 23:59:07") as Hdate
      by (vm_compute; reflexivity).
    rewrite Hdate in Htext. rewrite Htext. exact Hread.
  - exfalso. apply (f_equal fst) in Hfirst. vm_compute in Hfirst. discriminate.
Defined.

End scaffold_again.

Section create_delegation.

(** In the sample project, the module of another pipeline after a call. *)
Lemma scaffold_removes_nothing_witness :
  lookup_node
    (fs (snd (CreatePipeline.create_pipeline_from_template calm_env "etl_process"
                (Some project_root) true project_world)))
    ["tmp"; "proj"; "pipelines"; "sales.py"]
  = Some (File "# sales").
Proof.
  apply (scaffold_removes_nothing calm_env "etl_process" (Some project_root) true
           project_world ["tmp"; "proj"; "pipelines"; "sales.py"] (File "# sales")).
  - vm_compute. reflexivity.
  - right. split; vm_compute; discriminate.
Defined.

(** X10: [create_pipeline] leaves the work to others. In either mode it
    makes one call (the tool, started in the project directory with the
    command [flowerpower pipeline new] and the name, or the library's
    [new]), prints nothing and changes nothing on the disk by itself; the
    two paths it returns on success are put together from the name and are
    not looked up. *)
Theorem create_pipeline_delegates :
  ∀ E name project_path overwrite use_cli w,
    let base_dir := path_or_cwd E project_path in
    let r := CreatePipeline.create_pipeline E name project_path overwrite use_cli w in
    stdout (snd r) = stdout w
    ∧ calls (snd r)
      = calls w ++ [if use_cli
                    then CallTool (create_command name overwrite) (Some base_dir)
                    else CallPipelineNew (str_path base_dir) name overwrite]
    ∧ fs (snd r)
      = (if use_cli
         then snd (tool E (create_command name overwrite) (Some base_dir) (fs w))
         else snd (pipeline_new E (str_path base_dir) name overwrite (fs w)))
    ∧ ∀ paths, fst r = Ok paths →
               paths = (CreatePipeline.module_path_of base_dir name,
                        CreatePipeline.config_path_of base_dir name).
Proof.
  intros E name project_path overwrite use_cli w base_dir r. subst r.
  unfold CreatePipeline.create_pipeline. fold base_dir.
  destruct use_cli; unfold mbind, M_bind, bind, subprocess_run, create_command.
  - destruct overwrite; simpl app;
      (destruct (tool E _ (Some base_dir) (fs w)) as [[rc|e] fs'];
       [destruct (rc =? 0)|]; simpl; repeat split; try done; by intros ? [= <-]).
  - destruct (pipeline_new E (str_path base_dir) name overwrite (fs w)) as [[[]|e] fs'];
      simpl; repeat split; try done. by intros ? [= <-].
Qed.

(** X11: with the tool, the create front end makes one call. When the
    tool ends with status 0, seven lines are printed that name the module
    and the configuration, whether or not the tool has made them; when it
    ends with another status, one line [Error creating pipeline:] is
    printed and the status is 1. An error that keeps the tool from
    starting is not caught: the script ends with that exception. *)
Theorem create_front_end_reports_tool_status :
  ∀ E args w,
    let name := CreatePipeline.args_name args in
    let base_dir := path_or_cwd E (CreatePipeline.args_path args) in
    let cmd := create_command name (CreatePipeline.args_overwrite args) in
    let after (fs' : filesystem) (lines : list printed) :=
      {| fs := fs'; stdout := stdout w ++ lines;
         calls := calls w ++ [CallTool cmd (Some base_dir)] |} in
    CreatePipeline.args_template_only args = false →
    contains_char "-" name = false →
    (∀ rc fs',
       tool E cmd (Some base_dir) (fs w) = (Exited rc, fs') →
       CreatePipeline.main E args w
       = if rc =? 0
         then (Ok tt,
               after fs' (created_report (CreatePipeline.module_path_of base_dir name)
                            (CreatePipeline.config_path_of base_dir name) name))
         else (Raise (SystemExit 1),
               after fs' [ErrorText "Error creating pipeline: "
                            (CalledProcessError cmd rc)]))
    ∧ (∀ msg fs',
         tool E cmd (Some base_dir) (fs w) = (NotStarted (FileNotFoundError msg), fs') →
         CreatePipeline.main E args w = (Raise (FileNotFoundError msg), after fs' [])).
Proof.
  intros E args w name base_dir cmd after Htool Hname.
  rewrite create_main_plain by exact Hname. fold name.
  unfold CreatePipeline.dispatch, try_except. rewrite Htool.
  unfold mbind, M_bind. unfold bind at 1.
  unfold CreatePipeline.create_pipeline. fold base_dir.
  unfold mbind, M_bind. unfold bind at 1. unfold subprocess_run.
  change (if CreatePipeline.args_overwrite args
          then ["flowerpower"; "pipeline"; "new"; name] ++ ["--overwrite"]
          else ["flowerpower"; "pipeline"; "new"; name])
    with (if CreatePipeline.args_overwrite args
          then create_command name true else create_command name false).
  assert ((if CreatePipeline.args_overwrite args
           then create_command name true else create_command name false) = cmd) as ->
    by (unfold cmd; by destruct (CreatePipeline.args_overwrite args)).
  split.
  - intros rc fs' Hexit. unfold bind at 1. unfold bind at 1. rewrite Hexit.
    destruct (rc =? 0).
    + unfold after, log_call, ret, bind, print, created_report.
      cbn [fs stdout calls fst snd]. by rewrite <- !app_assoc.
    + unfold after, log_call, CreatePipeline.handler, mbind, M_bind, bind, print,
        sys_exit, raise. reflexivity.
  - intros msg fs' Hmissing. unfold bind, after, log_call. rewrite Hmissing.
    unfold CreatePipeline.handler. by rewrite app_nil_r.
Qed.

(** With a tool that ends with status 2. *)
Lemma create_front_end_reports_tool_status_witness :
  let args := {| CreatePipeline.args_name := "etl_process";
                 CreatePipeline.args_path := Some project_root;
                 CreatePipeline.args_overwrite := true;
                 CreatePipeline.args_template_only := false |} in
  CreatePipeline.main failing_env args empty_world
  = (Raise (SystemExit 1),
     {| fs := ∅;
        stdout := [ErrorText "Error creating pipeline: "
                     (CalledProcessError
                        ["flowerpower"; "pipeline"; "new"; "etl_process"; "--overwrite"]
                        2)];
        calls := [CallTool
                    ["flowerpower"; "pipeline"; "new"; "etl_process"; "--overwrite"]
                    (Some project_root)] |}).
Proof.
  intros args.
  destruct (create_front_end_reports_tool_status failing_env args empty_world)
    as [Hexit _]; [reflexivity..|].
  exact (Hexit 2 ∅ eq_refl).
Defined.

End create_delegation.

(** * What the scan finds *)

Section listing_complete.

Lemma loop_body_keeps (E : env) (fs : filesystem) (config_dir : Path) files :
  ∀ acc info,
    info ∈ acc → info ∈ foldl (ListPipelines.loop_body E fs config_dir) acc files.
Proof.
  induction files as [|f files IH]; intros acc info Hin; simpl; [done|].
  apply IH. unfold ListPipelines.loop_body.
  destruct (startswith (path_name f) "_"); [done|]. apply elem_of_app. by left.
Qed.

Lemma loop_body_adds (E : env) (fs : filesystem) (config_dir : Path) files :
  ∀ acc f info,
    f ∈ files →
    startswith (path_name f) "_" = false →
    ListPipelines.loop_body E fs config_dir [] f = [info] →
    info ∈ foldl (ListPipelines.loop_body E fs config_dir) acc files.
Proof.
  induction files as [|f0 files IH]; intros acc f info Hf Hpub Hbody.
  - by apply elem_of_nil in Hf.
  - simpl. apply elem_of_cons in Hf as [<-|Hf].
    + apply loop_body_keeps. unfold ListPipelines.loop_body in *.
      rewrite Hpub in *. simpl in Hbody. injection Hbody as <-.
      apply elem_of_app. right. by apply list_elem_of_singleton.
    + by eapply IH.
Qed.

(** The scan has an entry for every public module. *)
Lemma scan_finds (E : env) (base_dir : option Path) (fs : filesystem) (c : string) :
  let project_dir := path_or_cwd E base_dir in
  let pipelines_dir := project_dir </> "pipelines" in
  let config_dir := project_dir </> "conf" </> "pipelines" in
  node_is_dir fs (locate (cwd E) pipelines_dir) = true →
  is_Some (fs !! (locate (cwd E) pipelines_dir ++ [c])) →
  endswith c ".py" = true →
  startswith c "_" = false →
  ∃ info, info ∈ ListPipelines.list_pipelines_filesystem E base_dir fs
          ∧ describes E fs pipelines_dir config_dir c info.
Proof.
  intros project_dir pipelines_dir config_dir Hdir Hentry Hpy Hpub.
  unfold ListPipelines.list_pipelines_filesystem.
  fold project_dir. fold pipelines_dir. fold config_dir.
  assert (node_exists fs (locate (cwd E) pipelines_dir) = true) as ->.
  { unfold node_is_dir in Hdir. unfold node_exists.
    by destruct (lookup_node fs (locate (cwd E) pipelines_dir)). }
  simpl negb. cbv iota.
  eexists. split.
  - rewrite sorted_perm.
    apply (loop_body_adds E fs config_dir _ [] (child pipelines_dir c)).
    + unfold ListPipelines.glob_py. rewrite Hdir.
      apply list_elem_of_fmap. exists c. split; [done|].
      apply list_elem_of_In, filter_In. split; [|exact Hpy].
      by apply list_elem_of_In, scandir_spec.
    + by rewrite path_name_child.
    + unfold ListPipelines.loop_body. rewrite path_name_child, Hpub. reflexivity.
  - unfold describes, path_stem. rewrite path_name_child. simpl.
    repeat split; reflexivity.
Qed.

(** X12: the scan leaves out no public module. When [pipelines] is a
    directory, every entry of it whose name ends in [.py] and does not begin
    with an underscore (a file, or a directory of such a name) has an
    entry in the list, with the stem of its name and the state of its
    configuration. *)
Theorem listing_has_every_public_module :
  ∀ E base_dir (fs : filesystem) (c : string),
    let project_dir := path_or_cwd E base_dir in
    let pipelines_dir := project_dir </> "pipelines" in
    let config_dir := project_dir </> "conf" </> "pipelines" in
    node_is_dir fs (locate (cwd E) pipelines_dir) = true →
    is_Some (fs !! (locate (cwd E) pipelines_dir ++ [c])) →
    endswith c ".py" = true →
    startswith c "_" = false →
    ∃ info, info ∈ ListPipelines.list_pipelines_filesystem E base_dir fs
            ∧ describes E fs pipelines_dir config_dir c info.
Proof. intros E base_dir fs c. apply scan_finds. Qed.

(** The module [draft.py] of the sample project, which has no
    configuration. *)
Lemma listing_has_every_public_module_witness :
  ∃ info, info ∈ ListPipelines.list_pipelines_filesystem calm_env (Some project_root)
                   (fs project_world)
          ∧ ListPipelines.name info = "draft"
          ∧ ListPipelines.has_config info = false.
Proof.
  destruct (listing_has_every_public_module calm_env (Some project_root)
              (fs project_world) "draft.py")
    as (info & Hin & Hname & _ & Hconf & _);
    [vm_compute; reflexivity | vm_compute; eexists; reflexivity
     | vm_compute; reflexivity | vm_compute; reflexivity |].
  exists info. split; [exact Hin|]. split; [exact Hname|].
  rewrite Hconf, Hname. vm_compute. reflexivity.
Defined.

Lemma endswith_nonempty c ext : ext ≠ "" → endswith c ext = true → c ≠ "".
Proof.
  intros Hext Hends ->. unfold endswith in Hends.
  assert (String.rev ext ≠ "") as Hrev.
  { assert (∀ s acc, acc ≠ "" → String.rev_app s acc ≠ "") as Hacc.
    { induction s as [|b s IH]; intros acc Hne; simpl; [done|]. by apply IH. }
    unfold String.rev. destruct ext as [|a ext]; [done|]. simpl. by apply Hacc. }
  destruct (String.rev ext); [done|]. discriminate.
Qed.

Lemma substring_head i a s :
  (0 < i)%nat → ∃ s', String.substring 0 i (String a s) = String a s'.
Proof. destruct i as [|i]; [lia|]. intros _. simpl. by eexists. Qed.

(** The stem of a name begins as the name does. *)
Lemma stem_of_name_head a s : ∃ s', stem_of_name (String a s) = String a s'.
Proof.
  unfold stem_of_name. destruct (rfind_dot 0 (String a s)) as [i|]; [|by eexists].
  destruct ((0 <? i)%nat && (i <? String.length (String a s) - 1)%nat) eqn:Hi;
    [|by eexists].
  apply andb_prop in Hi as [Hi _]. apply Nat.ltb_lt in Hi.
  by apply substring_head.
Qed.

Lemma startswith_head a s s' : startswith (String a s) "_" = startswith (String a s') "_".
Proof.
  unfold startswith.
  change (String.prefix "_" (String a s))
    with (if ascii_dec "_" a then String.prefix "" s else false).
  change (String.prefix "_" (String a s'))
    with (if ascii_dec "_" a then String.prefix "" s' else false).
  destruct (ascii_dec "_" a); [|done]. by destruct s, s'.
Qed.

(** Where an entry of the scan comes from. *)
Lemma scan_entry_origin (E : env) (base_dir : option Path) (fs : filesystem) info :
  info ∈ ListPipelines.list_pipelines_filesystem E base_dir fs →
  ∃ c, endswith c ".py" = true
       ∧ startswith c "_" = false
       ∧ ListPipelines.name info = stem_of_name c.
Proof.
  unfold ListPipelines.list_pipelines_filesystem.
  destruct (negb (node_exists fs _)); [by intros ?%elem_of_nil|].
  rewrite sorted_perm.
  intros [Hnil | (f & Hf & Hpriv & Hbody)]%loop_body_elem;
    [by apply elem_of_nil in Hnil|].
  unfold ListPipelines.glob_py in Hf.
  destruct (node_is_dir fs _); [|by apply elem_of_nil in Hf].
  apply list_elem_of_fmap in Hf as (c & -> & Hc).
  apply list_elem_of_In, filter_In in Hc as [_ Hpy].
  rewrite path_name_child in Hpriv.
  unfold ListPipelines.loop_body in Hbody. rewrite path_name_child, Hpriv in Hbody.
  simpl in Hbody. injection Hbody as <-.
  exists c. unfold path_stem. by rewrite path_name_child.
Qed.

(** X13: no name in the list is empty, and none begins with an
    underscore; so a pipeline whose name begins with an underscore is never
    listed, though the scaffolder makes one without complaint. *)
Theorem listing_names_are_public :
  ∀ E base_dir (fs : filesystem),
    Forall (λ info, ListPipelines.name info ≠ ""
                    ∧ startswith (ListPipelines.name info) "_" = false)
      (ListPipelines.list_pipelines_filesystem E base_dir fs).
Proof.
  intros E base_dir fs. apply Forall_forall. intros info Hinfo.
  destruct (scan_entry_origin E base_dir fs info Hinfo) as (c & Hpy & Hpub & Hname).
  apply endswith_nonempty in Hpy; [|done].
  destruct c as [|a s]; [done|].
  destruct (stem_of_name_head a s) as [s' Hstem].
  rewrite Hname, Hstem. split; [done|].
  by rewrite <- (startswith_head a s s').
Qed.

End listing_complete.

(** * From the scaffolder to the scan *)

Section scaffold_then_list.

Lemma prefix_app p s : String.prefix p (p +:+ s) = true.
Proof.
  induction p as [|a p IH]; simpl; [by destruct s|].
  by destruct (ascii_dec a a).
Qed.

Lemma rev_app_app s t acc :
  String.rev_app (s +:+ t) acc = String.rev_app t (String.rev_app s acc).
Proof. revert acc. induction s as [|a s IH]; intros acc; simpl; [done|]. apply IH. Qed.

Lemma string_app_assoc (r s t : string) : (r +:+ s) +:+ t = r +:+ (s +:+ t).
Proof.
  induction r as [|a r IH]; [done|].
  change (String a ((r +:+ s) +:+ t) = String a (r +:+ (s +:+ t))). by rewrite IH.
Qed.

Lemma rev_app_acc s acc : String.rev_app s acc = String.rev_app s "" +:+ acc.
Proof.
  revert acc. induction s as [|a s IH]; intros acc; simpl; [done|].
  rewrite IH, (IH (String a "")). by rewrite string_app_assoc.
Qed.

Lemma endswith_app s ext : endswith (s +:+ ext) ext = true.
Proof.
  unfold endswith, String.rev.
  rewrite rev_app_app, (rev_app_acc ext (String.rev_app s "")). apply prefix_app.
Qed.

Lemma rfind_dot_py s i : rfind_dot i (s +:+ ".py") = Some (i + String.length s)%nat.
Proof.
  revert i. induction s as [|a s IH]; intros i.
  - simpl. f_equal. lia.
  - change (rfind_dot i (String a s +:+ ".py"))
      with (match rfind_dot (S i) (s +:+ ".py") with
            | Some j => Some j
            | None => if Ascii.eqb a "." then Some i else None
            end).
    rewrite IH. simpl. f_equal. lia.
Qed.

Lemma substring_app s t : String.substring 0 (String.length s) (s +:+ t) = s.
Proof.
  induction s as [|a s IH]; simpl; [by destruct t|]. by rewrite IH.
Qed.

(** The stem of [name.py] is [name], whatever dots [name] holds. *)
Lemma stem_of_module_name name : name ≠ "" → stem_of_name (name +:+ ".py") = name.
Proof.
  intros Hne. unfold stem_of_name. rewrite rfind_dot_py, string_length_app.
  simpl Nat.add. simpl String.length.
  assert ((0 <? String.length name)%nat
          && (String.length name <? String.length name + 3 - 1)%nat = true) as ->.
  { apply andb_true_intro. split; apply Nat.ltb_lt; [|lia].
    destruct name; [done|simpl; lia]. }
  apply substring_app.
Qed.

Lemma joinpath_child (p : Path) (c : string) :
  Path_of_string c = {| is_abs := false; parts := [c] |} → p </> c = child p c.
Proof. intros Hc. unfold joinpath, child. by rewrite Hc. Qed.

(** X14: a pipeline made by the scaffolder is found by the scan. After
    a successful call for a name that has no slash, is not empty and does
    not begin with an underscore, the scan of the same project has an
    entry with that name, with the two paths the call returned, and with
    [has_config] true. *)
Theorem scaffolded_pipeline_is_listed :
  ∀ E name project_path overwrite w paths w1,
    contains_char "/" name = false →
    name ≠ "" →
    startswith name "_" = false →
    CreatePipeline.create_pipeline_from_template E name project_path overwrite w
    = (Ok paths, w1) →
    ∃ info,
      info ∈ ListPipelines.list_pipelines_filesystem E project_path (fs w1)
      ∧ ListPipelines.name info = name
      ∧ ListPipelines.module info = str_path (fst paths)
      ∧ ListPipelines.config info = Some (str_path (snd paths))
      ∧ ListPipelines.has_config info = true.
Proof.
  intros E name project_path overwrite w paths w1 Hname Hne Hpub Hcall.
  pose proof (scaffold_success_leaves_paths E name project_path overwrite w paths w1 Hcall)
    as [_ Hconfig].
  destruct (scaffold_success_plain E name project_path overwrite w paths w1 Hname Hcall)
    as (mc & cc & _ & _ & -> & _ & _ & Hpdirs & _ & Hm & _).
  destruct (plain_locations E name project_path Hname) as (Hpd & _ & _ & _).
  set (base_dir := path_or_cwd E project_path) in *.
  set (root := locate (cwd E) base_dir) in *.
  assert (Path_of_string (name +:+ ".py") = {| is_abs := false; parts := [name +:+ ".py"] |})
    as Hpart by (by apply Path_of_plain_name; [|reflexivity|simpl; lia|reflexivity]).
  destruct (scan_finds E project_path (fs w1) (name +:+ ".py"))
    as (info & Hin & Hn & Hmod & Hhas & Hcfg).
  - fold base_dir. rewrite Hpd. unfold node_is_dir.
    rewrite (proj1 (Forall_forall _ _) Hpdirs); [done|].
    apply (chain_last [] (root ++ ["pipelines"])). by destruct root.
  - fold base_dir. rewrite Hpd.
    assert ((root ++ ["pipelines"]) ++ [name +:+ ".py"] ≠ []) as Hk
      by (by destruct (root ++ ["pipelines"])).
    unfold lookup_node in Hm.
    destruct ((root ++ ["pipelines"]) ++ [name +:+ ".py"]) eqn:Heq; [done|].
    by eexists.
  - apply endswith_app.
  - destruct name as [|a s]; [done|].
    change (String a s +:+ ".py") with (String a (s +:+ ".py")).
    by rewrite (startswith_head a (s +:+ ".py") s).
  - fold base_dir in Hn, Hmod, Hhas, Hcfg.
    rewrite stem_of_module_name in Hn by exact Hne.
    rewrite Hn in Hhas.
    change (base_dir </> "conf" </> "pipelines" </> (name +:+ ".yml"))
      with (CreatePipeline.config_path_of base_dir name) in Hhas.
    rewrite Hconfig in Hhas. rewrite Hhas, Hn in Hcfg.
    exists info. split; [exact Hin|]. split; [exact Hn|]. simpl fst. simpl snd.
    split; [|split; [exact Hcfg|exact Hhas]].
    rewrite Hmod. unfold CreatePipeline.module_path_of.
    by rewrite (joinpath_child _ (name +:+ ".py")).
Qed.

(** On an empty disk, with the name of the specification's example. *)
Lemma scaffolded_pipeline_is_listed_witness :
  ∃ paths w1 info,
    CreatePipeline.create_pipeline_from_template calm_env "etl_process"
      (Some project_root) false empty_world = (Ok paths, w1)
    ∧ info ∈ ListPipelines.list_pipelines_filesystem calm_env (Some project_root) (fs w1)
    ∧ ListPipelines.name info = "etl_process"
    ∧ ListPipelines.has_config info = true.
Proof.
  destruct (CreatePipeline.create_pipeline_from_template calm_env "etl_process"
              (Some project_root) false empty_world) as [[paths|e] w1] eqn:Hfirst.
  - destruct (scaffolded_pipeline_is_listed calm_env "etl_process" (Some project_root)
                false empty_world paths w1) as (info & Hin & Hn & _ & _ & Hhas);
      [reflexivity | discriminate | reflexivity | exact Hfirst |].
    by exists paths, w1, info.
  - exfalso. apply (f_equal fst) in Hfirst. vm_compute in Hfirst. discriminate.
Defined.

End scaffold_then_list.

(** * The list front end *)

Section list_outcomes.

Lemma for_each_print {A} (l : list A) (f : A → printed) w :
  for_each l (λ x, print (f x)) w = (Ok tt, printing w (f <$> l)).
Proof.
  revert w. induction l as [|x l IH]; intros w.
  - unfold printing. simpl. rewrite app_nil_r. by destruct w.
  - simpl. unfold mbind, M_bind, bind, print at 1. rewrite IH.
    unfold printing. cbn [fs stdout calls]. by rewrite <- app_assoc.
Qed.

Lemma table_print {A} (l : list A) (f : A → printed) (title rule total : printed) w :
  bind (print title)
    (λ _, bind (print rule)
            (λ _, bind (for_each l (λ x, print (f x))) (λ _, print total))) w
  = (Ok tt, printing w ([title; rule] ++ (f <$> l) ++ [total])).
Proof.
  unfold bind. unfold print at 1 2. rewrite for_each_print.
  unfold print, printing. cbn [fs stdout calls]. by rewrite <- !app_assoc.
Qed.



(** X16: with [--use-api] and without [--scan], the list front end
    asks the library once and never starts the tool. The names the library
    returns are printed in the order it gives them; an exception of the
    library gives one line [Error:] with its text and the status 1. *)
Theorem list_front_end_reports_library_names :
  ∀ E Lib args w,
    let base := base_text (ListFrontEnd.args_path args) in
    ListFrontEnd.args_scan args = false →
    ListFrontEnd.args_use_api args = true →
    (∀ names fs',
       pipeline_manager_list Lib base (fs w) = (Ok names, fs') →
       ListFrontEnd.main E Lib args w
       = (Ok tt,
          {| fs := fs';
             stdout := stdout w ++ api_lines (ListFrontEnd.args_format args) names;
             calls := calls w |}))
    ∧ (∀ e fs',
         pipeline_manager_list Lib base (fs w) = (Raise e, fs') →
         plain_exception e = true →
         ListFrontEnd.main E Lib args w
         = (Raise (SystemExit 1),
            {| fs := fs'; stdout := stdout w ++ [ErrorText "Error: " e];
               calls := calls w |})).
Proof.
  intros E Lib args w base Hscan Hapi. unfold ListFrontEnd.main, try_except.
  rewrite Hscan, Hapi. unfold mbind, M_bind. unfold bind at 1.
  unfold ListFrontEnd.list_pipelines_api.
  fold (base_text (ListFrontEnd.args_path args)). fold base. split.
  - intros names fs' ->.
    set (w1 := with_fs w fs').
    destruct (ListFrontEnd.args_format args); unfold api_lines.
    + by rewrite table_print.
    + reflexivity.
    + by rewrite table_print.
    + by rewrite for_each_print.
  - intros e fs' Hraise He. unfold bind at 1. rewrite Hraise. by destruct e.
Qed.

(** With a library that knows two pipelines, and one that is missing. *)
Lemma list_front_end_reports_library_names_witness :
  ListFrontEnd.main calm_env two_pipelines (list_request ListFrontEnd.simple true)
    empty_world
  = (Ok tt, {| fs := ∅; stdout := [Text "sales"; Text "stock"]; calls := [] |})
  ∧ ListFrontEnd.main calm_env no_library (list_request ListFrontEnd.simple true)
      empty_world
    = (Raise (SystemExit 1),
       {| fs := ∅;
          stdout := [ErrorText "Error: "
                       (ExternalError "No module named 'flowerpower'")];
          calls := [] |}).
Proof.
  split.
  - destruct (list_front_end_reports_library_names calm_env two_pipelines
                (list_request ListFrontEnd.simple true) empty_world eq_refl eq_refl)
      as [Hok _].
    exact (Hok ["sales"; "stock"] ∅ eq_refl).
  - destruct (list_front_end_reports_library_names calm_env no_library
                (list_request ListFrontEnd.simple true) empty_world eq_refl eq_refl)
      as [_ Hfail].
    exact (Hfail _ ∅ eq_refl eq_refl).
Defined.

(** X17: without [--scan] and [--use-api], the list front end starts
    the tool once, with [show-pipelines], the project directory if one was
    given and, last, [--format] with the format asked for ([simple]
    included), and prints nothing of its own unless the tool fails: then
    one line [Error listing pipelines:] and the status 1, or [Error:] when
    the tool could not be started. *)
Theorem list_front_end_reports_tool_status :
  ∀ E Lib args w,
    let cmd := list_command (ListFrontEnd.args_path args) (ListFrontEnd.args_format args) in
    let after (fs' : filesystem) (lines : list printed) :=
      {| fs := fs'; stdout := stdout w ++ lines; calls := calls w ++ [CallTool cmd None] |} in
    ListFrontEnd.args_scan args = false →
    ListFrontEnd.args_use_api args = false →
    (∀ rc fs',
       tool E cmd None (fs w) = (Exited rc, fs') →
       ListFrontEnd.main E Lib args w
       = if rc =? 0 then (Ok tt, after fs' [])
         else (Raise (SystemExit 1),
               after fs' [ErrorText "Error listing pipelines: "
                            (CalledProcessError cmd rc)]))
    ∧ (∀ e fs',
         tool E cmd None (fs w) = (NotStarted e, fs') →
         plain_exception e = true →
         ListFrontEnd.main E Lib args w
         = (Raise (SystemExit 1), after fs' [ErrorText "Error: " e])).
Proof.
  intros E Lib args w cmd after Hscan Hapi. unfold ListFrontEnd.main, try_except.
  rewrite Hscan, Hapi. unfold ListFrontEnd.list_pipelines_cli, subprocess_run.
  assert (ListFrontEnd.list_pipelines_cli_cmd (ListFrontEnd.args_path args)
            (ListFrontEnd.format_text (ListFrontEnd.args_format args)) = cmd) as ->.
  { unfold cmd, list_command, ListFrontEnd.list_pipelines_cli_cmd.
    destruct (ListFrontEnd.args_path args); reflexivity. }
  split.
  - intros rc fs' ->. unfold after, log_call. destruct (rc =? 0).
    + by rewrite app_nil_r.
    + reflexivity.
  - intros e fs' -> He. unfold after, log_call. by destruct e.
Qed.

(** With a tool that ends with status 2. *)
Lemma list_front_end_reports_tool_status_witness :
  ListFrontEnd.main failing_env no_library (list_request ListFrontEnd.simple false)
    empty_world
  = (Raise (SystemExit 1),
     {| fs := ∅;
        stdout := [ErrorText "Error listing pipelines: "
                     (CalledProcessError
                        ["flowerpower"; "pipeline"; "show-pipelines"; "--format"; "simple"]
                        2)];
        calls := [CallTool
                    ["flowerpower"; "pipeline"; "show-pipelines"; "--format"; "simple"]
                    None] |}).
Proof.
  destruct (list_front_end_reports_tool_status failing_env no_library
              (list_request ListFrontEnd.simple false) empty_world eq_refl eq_refl)
    as [Hexit _].
  exact (Hexit 2 ∅ eq_refl).
Defined.

End list_outcomes.

(** * The init front end *)

Section init_outcomes.

Lemma package_of_extras args :
  InitProject.package_of
    (if InitProject.list_truthy (InitProject.extras_of args)
     then Some (InitProject.extras_of args) else None)
  = package_of_switches args
  ∧ InitProject.package_of (Some (InitProject.extras_of args)) = package_of_switches args
  ∧ InitProject.list_truthy (InitProject.extras_of args) = any_switch args.
Proof.
  unfold InitProject.extras_of, package_of_switches, any_switch.
  destruct (InitProject.args_with_all args), (InitProject.args_with_io args),
    (InitProject.args_with_ui args); repeat split; reflexivity.
Qed.

Lemma init_command_eq args :
  InitProject.init_project_cmd (InitProject.args_name args) (InitProject.args_path args)
  = init_command args.
Proof.
  unfold InitProject.init_project_cmd, init_command.
  destruct (InitProject.args_path args); reflexivity.
Qed.

(** X18: when [flowerpower] can be imported and no switch is set, the
    init front end installs nothing: its one call is [flowerpower init],
    started in the directory given (or the working directory) and given
    that directory again as [--base-dir]. When the tool ends with status 0
    six lines are printed, the hint [cd] with the bare name among them,
    whatever directory was given; otherwise the script ends with the
    [CalledProcessError], which nothing catches, and prints nothing. *)
Theorem init_front_end_without_install :
  ∀ E Py args w,
    let base_dir := path_or_cwd E (InitProject.args_path args) in
    let cmd := init_command args in
    let after (fs' : filesystem) (lines : list printed) :=
      {| fs := fs'; stdout := stdout w ++ lines;
         calls := calls w ++ [CallTool cmd (Some base_dir)] |} in
    import_flowerpower Py (fs w) = Imported →
    any_switch args = false →
    ∀ rc fs',
      tool E cmd (Some base_dir) (fs w) = (Exited rc, fs') →
      InitProject.main E Py args w
      = if rc =? 0 then (Ok tt, after fs' (init_report E args))
        else (Raise (CalledProcessError cmd rc), after fs' []).
Proof.
  intros E Py args w base_dir cmd after Himport Hswitch rc fs' Htool.
  unfold InitProject.main, mbind, M_bind. unfold bind at 1.
  unfold InitProject.check_flowerpower_installed. rewrite Himport.
  destruct (package_of_extras args) as (_ & _ & ->). rewrite Hswitch.
  simpl negb. cbv iota. unfold bind at 1. unfold bind at 1. unfold ret at 1.
  unfold InitProject.init_project. rewrite init_command_eq. fold base_dir. fold cmd.
  unfold mbind, M_bind. unfold bind at 1. unfold subprocess_run. rewrite Htool.
  unfold after, log_call. destruct (rc =? 0).
  - unfold ret, bind, print, init_report. fold base_dir. cbn [fs stdout calls].
    by rewrite <- !app_assoc.
  - by rewrite app_nil_r.
Qed.

(** With a tool that ends with status 2. *)
Lemma init_front_end_without_install_witness :
  InitProject.main failing_env (installed bare_python) (init_request false false false)
    empty_world
  = (Raise (CalledProcessError
              ["flowerpower"; "init"; "--name"; "shop"; "--base-dir"; "/tmp/proj"] 2),
     {| fs := ∅; stdout := [];
        calls := [CallTool
                    ["flowerpower"; "init"; "--name"; "shop"; "--base-dir"; "/tmp/proj"]
                    (Some project_root)] |}).
Proof.
  exact (init_front_end_without_install failing_env (installed bare_python)
           (init_request false false false) empty_world eq_refl eq_refl 2 ∅ eq_refl).
Defined.

Lemma bind_run {A B} (m : M A) (k : A → M B) w r w' :
  m w = (r, w') →
  bind m k w = match r with Ok a => k a w' | Raise e => (Raise e, w') end.
Proof. intros Hm. unfold bind. by rewrite Hm. Qed.

(** X19: the init front end runs [pip] first when [flowerpower] cannot
    be imported or a switch is set. The requirement is [flowerpower] with
    the extras of the switches, [--with-all] hiding the other two. When
    [pip] fails, the script ends there with the [CalledProcessError]: one
    line has been printed and the project is not made. When [pip]
    succeeds, the run goes on as a run without switches in surroundings
    where the import succeeds. *)
Theorem init_front_end_installs_first :
  ∀ E Py args w,
    let package := package_of_switches args in
    let pip := pip_command Py args in
    let w1 (fs' : filesystem) :=
      {| fs := fs';
         stdout := stdout w ++ [Text ("Installing " +:+ package +:+ "...")];
         calls := calls w ++ [CallTool pip None] |} in
    import_flowerpower Py (fs w) = ImportFailed
    ∨ (import_flowerpower Py (fs w) = Imported ∧ any_switch args = true) →
    ∀ rc fs',
      tool E pip None (fs w) = (Exited rc, fs') →
      InitProject.main E Py args w
      = if rc =? 0
        then InitProject.main E (installed Py) (without_switches args) (w1 fs')
        else (Raise (CalledProcessError pip rc), w1 fs').
Proof.
  intros E Py args w package pip w1 Hneeded rc fs' Htool.
  assert (InitProject.main E (installed Py) (without_switches args) (w1 fs')
          = (project_path ← InitProject.init_project E Py (InitProject.args_name args)
                               (InitProject.args_path args) true;
             print (Text (nl +:+ "Project initialized: " +:+ str_path project_path));;
             print (Text (nl +:+ "Next steps:"));;
             print (Text ("  cd " +:+ InitProject.args_name args));;
             print (Text "  flowerpower pipeline new my_pipeline");;
             print (Text "  # Edit pipelines/my_pipeline.py");;
             print (Text "  flowerpower pipeline run my_pipeline")) (w1 fs')) as Hrest
    by reflexivity.
  rewrite Hrest. clear Hrest.
  destruct (package_of_extras args) as (Hp1 & Hp2 & Hsw).
  assert (∀ extras, InitProject.package_of extras = package →
                    InitProject.install_flowerpower E Py extras w
                    = (if rc =? 0 then Ok tt else Raise (CalledProcessError pip rc),
                       w1 fs')) as Hrun.
  { intros extras Hpackage. unfold InitProject.install_flowerpower.
    rewrite Hpackage. unfold mbind, M_bind, bind, print, subprocess_run.
    cbn [fs stdout calls]. change [sys_executable Py; "-m"; "pip"; "install"; package]
      with pip. rewrite Htool. unfold w1, log_call. by destruct (rc =? 0). }
  unfold InitProject.main, mbind, M_bind. unfold bind at 1.
  unfold InitProject.check_flowerpower_installed.
  destruct Hneeded as [Himport | [Himport Hany]]; rewrite Himport; simpl negb; cbv iota.
  - rewrite (bind_run _ _ w _ _ (Hrun _ Hp1)). by destruct (rc =? 0).
  - rewrite Hsw, Hany. rewrite (bind_run _ _ w _ _ (Hrun _ Hp2)). by destruct (rc =? 0).
Qed.

(** Without the library, [--with-io] and [--with-ui], and a [pip] that
    ends with status 2. *)
Lemma init_front_end_installs_first_witness :
  InitProject.main failing_env bare_python (init_request true true false) empty_world
  = (Raise (CalledProcessError
              ["/usr/bin/python3"; "-m"; "pip"; "install"; "flowerpower[io,ui]"] 2),
     {| fs := ∅;
        stdout := [Text "Installing flowerpower[io,ui]..."];
        calls := [CallTool
                    ["/usr/bin/python3"; "-m"; "pip"; "install"; "flowerpower[io,ui]"]
                    None] |}).
Proof.
  exact (init_front_end_installs_first failing_env bare_python
           (init_request true true false) empty_world (or_introl eq_refl) 2 ∅ eq_refl).
Defined.

End init_outcomes.
